(** * Restaurants_Data: the REST backend (server.js) and its community forum

    A shallow embedding of the route handlers of [server.js]: the vote
    endpoints with their ledger table [post_votes], the role and user
    administration routes, comment editing, registration and the geocoding
    write path of restaurants.

    The relational store is modelled as tables (lists of rows), the single
    shared connection [client] as the current tables plus the snapshot taken
    at BEGIN, and a handler as a program that issues one SQL statement per
    [await client.query(...)].  Programs are run one request at a time, with
    any statement allowed to fail, or interleaved statement by statement as
    the event loop does with overlapping requests. *)

From Stdlib Require Import ZArith List String Ascii Bool Lia.
Import ListNotations.

Local Open Scope string_scope.
Local Open Scope Z_scope.

(** ** JSON payloads and HTTP responses *)

#[warnings="-register-all"]
Inductive json : Type :=
| JNull
| JBool (b : bool)
| JNum (n : Z)
| JStr (s : string)
| JArr (items : list json)
| JObj (fields : list (string * json)).

Inductive payload : Type :=
| Json (j : json)          (* res.json(...) *)
| Text (s : string).       (* res.send(...) *)

Record Response : Type := mkResponse { status : Z; body : payload }.

(** [res.json(j)]: status 200 unless [res.status(n)] was called first. *)
Definition res_json (j : json) : Response := mkResponse 200 (Json j).
Definition res_status_json (n : Z) (j : json) : Response := mkResponse n (Json j).
Definition res_status_send (n : Z) (s : string) : Response := mkResponse n (Text s).

Definition message (s : string) : json := JObj [("message", JStr s)].

Fixpoint assoc (k : string) (l : list (string * json)) : option json :=
  match l with
  | [] => None
  | (k', v) :: r => if String.eqb k k' then Some v else assoc k r
  end.

(** The property [k] of the JSON object a response carries. *)
Definition field (k : string) (r : Response) : option json :=
  match body r with
  | Json (JObj l) => assoc k l
  | _ => None
  end.

(** ** JavaScript values of the request *)

(** A string-valued property that may be missing: [None] is [undefined]. *)
Definition truthy (s : option string) : bool :=
  match s with
  | Some s => negb (String.eqb s EmptyString)
  | None => false
  end.

(** [x || d] on such a property. *)
Definition or_default (s : option string) (d : string) : string :=
  if truthy s then match s with Some v => v | None => d end else d.

(** A string is the sequence of the UTF-8 bytes of the JavaScript string.

    The white space [parseInt] and [parseFloat] skip is the white space and
    the line terminators of ECMAScript.  In one byte: TAB, LF, VT, FF, CR and
    SP. *)
Definition is_ws (c : ascii) : bool :=
  match nat_of_ascii c with
  | 9%nat | 10%nat | 11%nat | 12%nat | 13%nat | 32%nat => true
  | _ => false
  end.

(** In two bytes: the no-break space U+00A0 (C2 A0). *)
Definition is_ws2 (c1 c2 : ascii) : bool :=
  Ascii.eqb c1 "194"%char && Ascii.eqb c2 "160"%char.

(** In three bytes: U+1680 (E1 9A 80); U+2000 to U+200A, the line and
    paragraph separators U+2028 and U+2029, and U+202F (E2 80 followed by 80
    to 8A, A8, A9, AF); U+205F (E2 81 9F); U+3000 (E3 80 80); and the byte
    order mark U+FEFF (EF BB BF). *)
Definition is_ws3 (c1 c2 c3 : ascii) : bool :=
  let n := Z.of_nat (nat_of_ascii c3) in
  (Ascii.eqb c1 "225"%char && Ascii.eqb c2 "154"%char && Ascii.eqb c3 "128"%char)
  || (Ascii.eqb c1 "226"%char && Ascii.eqb c2 "128"%char
      && (((128 <=? n) && (n <=? 138)) || (n =? 168) || (n =? 169) || (n =? 175)))
  || (Ascii.eqb c1 "226"%char && Ascii.eqb c2 "129"%char && Ascii.eqb c3 "159"%char)
  || (Ascii.eqb c1 "227"%char && Ascii.eqb c2 "128"%char && Ascii.eqb c3 "128"%char)
  || (Ascii.eqb c1 "239"%char && Ascii.eqb c2 "187"%char && Ascii.eqb c3 "191"%char).

(** The string without its leading white space. *)
Fixpoint skip_ws (s : string) : string :=
  match s with
  | String c1 r1 =>
      if is_ws c1 then skip_ws r1
      else
        match r1 with
        | String c2 r2 =>
            if is_ws2 c1 c2 then skip_ws r2
            else
              match r2 with
              | String c3 r3 => if is_ws3 c1 c2 c3 then skip_ws r3 else s
              | EmptyString => s
              end
        | EmptyString => s
        end
  | EmptyString => s
  end.

Definition digit_of (c : ascii) : option Z :=
  let n := Z.of_nat (nat_of_ascii c) in
  if (48 <=? n) && (n <=? 57) then Some (n - 48) else None.

Fixpoint digits (acc : Z) (s : string) : Z :=
  match s with
  | String c r =>
      match digit_of c with
      | Some d => digits (10 * acc + d) r
      | None => acc
      end
  | EmptyString => acc
  end.

(** [parseInt(s, 10)]: leading white space, an optional sign, then the
    longest run of decimal digits; [None] is NaN. *)
Definition parseInt (s : string) : option Z :=
  let s1 := skip_ws s in
  let '(neg, s2) :=
    match s1 with
    | String "-" r => (true, r)
    | String "+" r => (false, r)
    | _ => (false, s1)
    end in
  match s2 with
  | String c _ =>
      match digit_of c with
      | Some _ => Some (if neg then - digits 0 s2 else digits 0 s2)
      | None => None
      end
  | EmptyString => None
  end.

(** ** Tables *)

(** posts: the columns the vote routes read and write. *)
Record PostRow : Type := mkPost
  { post_id : Z; post_author : Z; upvotes : Z; downvotes : Z }.

(** post_votes (user_id, post_id, vote_type). *)
Record VoteRow : Type := mkVote
  { vote_user : Z; vote_post : Z; vote_type : Z }.

Record UserRow : Type := mkUser
  { user_id : Z; username : string; password_hash : option string; role : string }.

(** comments (id, post_id, author_id, text, created_at), the columns the
    source names; [created_at] as the timestamp reads in a JSON text. *)
Record CommentRow : Type := mkComment
  { comment_id : Z; comment_post : Z; comment_author : Z; comment_text : string;
    comment_created_at : string }.

(** A float read by [parseFloat] from the text the geocoder sent. *)
Inductive jsfloat : Type := parseFloat (s : option string).

Record RestaurantRow : Type := mkRestaurant
  { rest_id : Z;
    rest_name : option string;
    rest_flags : list (option bool);
    si_do : option string;
    si_gun_gu : option string;
    eup_myeon_dong : option string;
    postal_code : option string;
    road_name_col : option string;
    full_address : option string;
    geom : jsfloat * jsfloat }.

Record DB : Type := mkDB
  { posts : list PostRow;
    post_votes : list VoteRow;
    users : list UserRow;
    users_seq : Z;
    comments : list CommentRow;
    restaurants : list RestaurantRow;
    restaurants_seq : Z }.

Definition set_posts (d : DB) (l : list PostRow) : DB :=
  mkDB l (post_votes d) (users d) (users_seq d) (comments d) (restaurants d) (restaurants_seq d).
Definition set_post_votes (d : DB) (l : list VoteRow) : DB :=
  mkDB (posts d) l (users d) (users_seq d) (comments d) (restaurants d) (restaurants_seq d).
Definition set_users (d : DB) (l : list UserRow) (s : Z) : DB :=
  mkDB (posts d) (post_votes d) l s (comments d) (restaurants d) (restaurants_seq d).
Definition set_comments (d : DB) (l : list CommentRow) : DB :=
  mkDB (posts d) (post_votes d) (users d) (users_seq d) l (restaurants d) (restaurants_seq d).
Definition set_restaurants (d : DB) (l : list RestaurantRow) (s : Z) : DB :=
  mkDB (posts d) (post_votes d) (users d) (users_seq d) (comments d) l s.

(** The connection [client]: the tables as this session sees them, and the
    tables as they were at BEGIN while a transaction is open. *)
Record Conn : Type := mkConn { cur : DB; snap : option DB }.

Definition on_cur (c : Conn) (d : DB) : Conn := mkConn d (snap c).

(** ** SQL statements

    One constructor per statement text of the modelled routes, indexed by
    the type of [result.rows]. *)

Inductive sql : Type -> Type :=
| SelectPost (id : Z) : sql (list PostRow)
    (* SELECT id, upvotes, downvotes FROM posts WHERE id = $1 *)
| SelectVote (userId postId : Z) : sql (list Z)
    (* SELECT vote_type FROM post_votes WHERE user_id = $1 AND post_id = $2 *)
| Begin : sql unit
| Commit : sql unit
| Rollback : sql unit
| InsertVote (userId postId v : Z) : sql unit
    (* INSERT INTO post_votes (user_id, post_id, vote_type) VALUES ($1, $2, $3) *)
| UpdateVote (v userId postId : Z) : sql unit
    (* UPDATE post_votes SET vote_type = $1 WHERE user_id = $2 AND post_id = $3 *)
| SetUpvotes (n id : Z) : sql unit
    (* UPDATE posts SET upvotes = $1 WHERE id = $2 *)
| SetDownvotes (n id : Z) : sql unit
    (* UPDATE posts SET downvotes = $1 WHERE id = $2 *)
| SetCounters (up down id : Z) : sql unit
    (* UPDATE posts SET upvotes = $1, downvotes = $2 WHERE id = $3 *)
| IncrUpvotes (id : Z) : sql (list Z)
    (* UPDATE posts SET upvotes = upvotes + 1 WHERE id = $1 RETURNING upvotes *)
| IncrDownvotes (id : Z) : sql (list Z)
    (* UPDATE posts SET downvotes = downvotes + 1 WHERE id = $1 RETURNING downvotes *)
| FindUser (id : Z) : sql (list UserRow)
    (* SELECT id, username, role FROM users WHERE id = $1 *)
| UpdateRole (id : Z) (newRole : string) : sql (list UserRow)
    (* UPDATE users SET role = $2 WHERE id = $1 RETURNING id, username, role *)
| SoftDelete (id : Z) : sql (list UserRow)
    (* UPDATE users SET username = '[DELETED USER]', password_hash = NULL,
       role = 'deleted' WHERE id = $1 RETURNING id, username, role *)
| InsertUser (name hash newRole : string) : sql (list UserRow)
    (* INSERT INTO users (username, password_hash, role) VALUES ($1, $2, $3)
       RETURNING id, username, role *)
| SelectCommentAuthor (id : Z) : sql (list Z)
    (* SELECT author_id FROM comments WHERE id = $1 *)
| UpdateComment (text : string) (id : Z) : sql (list CommentRow)
    (* UPDATE comments SET text = $1 WHERE id = $2 RETURNING * *)
| UpsertRestaurant (r : RestaurantRow) : sql (list Z).
    (* INSERT INTO restaurants (...) VALUES (...) ON CONFLICT (name)
       DO UPDATE SET ... RETURNING id *)

Definition same_pair (userId postId : Z) (v : VoteRow) : bool :=
  (vote_user v =? userId) && (vote_post v =? postId).

Definition is_post (id : Z) (p : PostRow) : bool := post_id p =? id.
Definition is_user (id : Z) (u : UserRow) : bool := user_id u =? id.
Definition is_comment (id : Z) (c : CommentRow) : bool := comment_id c =? id.

(** UPDATE t SET ... WHERE w: every row that satisfies [w] is rewritten. *)
Definition update_where {A : Type} (w : A -> bool) (f : A -> A) (l : list A) : list A :=
  map (fun r => if w r then f r else r) l.

Definition with_upvotes (n : Z) (p : PostRow) : PostRow :=
  mkPost (post_id p) (post_author p) n (downvotes p).
Definition with_downvotes (n : Z) (p : PostRow) : PostRow :=
  mkPost (post_id p) (post_author p) (upvotes p) n.
Definition with_vote_type (v : Z) (r : VoteRow) : VoteRow :=
  mkVote (vote_user r) (vote_post r) v.
Definition with_role (r : string) (u : UserRow) : UserRow :=
  mkUser (user_id u) (username u) (password_hash u) r.
Definition soft_deleted (u : UserRow) : UserRow :=
  mkUser (user_id u) "[DELETED USER]" None "deleted".
Definition with_text (t : string) (c : CommentRow) : CommentRow :=
  mkComment (comment_id c) (comment_post c) (comment_author c) t (comment_created_at c).

Definition opt_eqb (a b : option string) : bool :=
  match a, b with
  | Some x, Some y => String.eqb x y
  | _, _ => false
  end.

(** The row of the upsert with the id the table gives it. *)
Definition with_rest_id (i : Z) (r : RestaurantRow) : RestaurantRow :=
  mkRestaurant i (rest_name r) (rest_flags r) (si_do r) (si_gun_gu r)
    (eup_myeon_dong r) (postal_code r) (road_name_col r) (full_address r) (geom r).

Definition name_conflict (r x : RestaurantRow) : bool :=
  opt_eqb (rest_name r) (rest_name x).

Definition upsert_restaurant (r : RestaurantRow) (d : DB) : list Z * DB :=
  let hit := filter (name_conflict r) (restaurants d) in
  match hit with
  | [] =>
      let i := restaurants_seq d in
      ([i], set_restaurants d (restaurants d ++ [with_rest_id i r]) (i + 1))
  | _ :: _ =>
      (map rest_id hit,
       set_restaurants d
         (update_where (name_conflict r) (fun x => with_rest_id (rest_id x) r) (restaurants d))
         (restaurants_seq d + 1))
  end.

(** What a statement that succeeds returns and does to the session. *)
Definition exec {R : Type} (q : sql R) (c : Conn) : R * Conn :=
  let d := cur c in
  match q in sql R return R * Conn with
  | SelectPost id => (filter (is_post id) (posts d), c)
  | SelectVote u p => (map vote_type (filter (same_pair u p) (post_votes d)), c)
  | Begin =>
      (tt, match snap c with
           | None => mkConn d (Some d)
           | Some _ => c
           end)
  | Commit => (tt, mkConn d None)
  | Rollback =>
      (tt, match snap c with
           | Some d0 => mkConn d0 None
           | None => c
           end)
  | InsertVote u p v => (tt, on_cur c (set_post_votes d (post_votes d ++ [mkVote u p v])))
  | UpdateVote v u p =>
      (tt, on_cur c (set_post_votes d (update_where (same_pair u p) (with_vote_type v) (post_votes d))))
  | SetUpvotes n id =>
      (tt, on_cur c (set_posts d (update_where (is_post id) (with_upvotes n) (posts d))))
  | SetDownvotes n id =>
      (tt, on_cur c (set_posts d (update_where (is_post id) (with_downvotes n) (posts d))))
  | SetCounters up down id =>
      (tt, on_cur c (set_posts d
             (update_where (is_post id) (fun p => with_downvotes down (with_upvotes up p)) (posts d))))
  | IncrUpvotes id =>
      let l := update_where (is_post id) (fun p => with_upvotes (upvotes p + 1) p) (posts d) in
      (map upvotes (filter (is_post id) l), on_cur c (set_posts d l))
  | IncrDownvotes id =>
      let l := update_where (is_post id) (fun p => with_downvotes (downvotes p + 1) p) (posts d) in
      (map downvotes (filter (is_post id) l), on_cur c (set_posts d l))
  | FindUser id => (filter (is_user id) (users d), c)
  | UpdateRole id r =>
      let l := update_where (is_user id) (with_role r) (users d) in
      (filter (is_user id) l, on_cur c (set_users d l (users_seq d)))
  | SoftDelete id =>
      let l := update_where (is_user id) soft_deleted (users d) in
      (filter (is_user id) l, on_cur c (set_users d l (users_seq d)))
  | InsertUser name hash r =>
      let u := mkUser (users_seq d) name (Some hash) r in
      ([u], on_cur c (set_users d (users d ++ [u]) (users_seq d + 1)))
  | SelectCommentAuthor id => (map comment_author (filter (is_comment id) (comments d)), c)
  | UpdateComment t id =>
      let l := update_where (is_comment id) (with_text t) (comments d) in
      (filter (is_comment id) l, on_cur c (set_comments d l))
  | UpsertRestaurant r =>
      let '(ids, d') := upsert_restaurant r d in (ids, on_cur c d')
  end.

(** ROLLBACK is the abort of the store: it is the one statement whose effect
    does not depend on the session being healthy (a session that is lost
    aborts its open transaction all the same). *)
Definition is_abort {R : Type} (q : sql R) : bool :=
  match q with
  | Rollback => true
  | _ => false
  end.

(** ** Handlers as programs *)

(** A handler between two awaits: it has answered ([Ret]), an exception is
    travelling up ([Throw]), or it awaits a statement and continues with the
    rows, or with [None] when the statement rejects. *)
Inductive Prog (A : Type) : Type :=
| Ret (a : A)
| Throw
| Do {R : Type} (q : sql R) (k : option R -> Prog A).

Arguments Ret {A} a.
Arguments Throw {A}.
Arguments Do {A R} q k.

Fixpoint bind {A B : Type} (p : Prog A) (f : A -> Prog B) : Prog B :=
  match p with
  | Ret a => f a
  | Throw => Throw
  | Do q k => Do q (fun r => bind (k r) f)
  end.

(** [try { p } catch (err) { h }] *)
Fixpoint try_catch {A : Type} (p : Prog A) (h : Prog A) : Prog A :=
  match p with
  | Ret a => Ret a
  | Throw => h
  | Do q k => Do q (fun r => try_catch (k r) h)
  end.

(** [await client.query(q)] *)
Definition query {R : Type} (q : sql R) : Prog R :=
  Do q (fun r => match r with Some v => Ret v | None => Throw end).

(** [await client.query(q).catch(() => {})] *)
Definition query_quiet {R : Type} (q : sql R) : Prog unit :=
  Do q (fun _ => Ret tt).

Declare Scope prog_scope.
Delimit Scope prog_scope with prog.
Notation "x <- p ;; k" := (bind p (fun x => k))
  (at level 61, p at next level, right associativity) : prog_scope.
Notation "p ;; k" := (bind p (fun _ => k))
  (at level 61, right associativity) : prog_scope.
Local Open Scope prog_scope.

(** ** Running one request

    [fails i] tells whether the [i]-th statement the request issues is
    rejected; a rejected statement leaves the session as it was. *)
Fixpoint run {A : Type} (fails : nat -> bool) (i : nat) (p : Prog A) (c : Conn)
  : option A * Conn * nat :=
  match p with
  | Ret a => (Some a, c, i)
  | Throw => (None, c, i)
  | Do q k =>
      if negb (is_abort q) && fails i
      then run fails (S i) (k None) c
      else let '(r, c') := exec q c in run fails (S i) (k (Some r)) c'
  end.

Definition never : nat -> bool := fun _ => false.

Definition answer {A : Type} (x : option A * Conn * nat) : option A := fst (fst x).
Definition session {A : Type} (x : option A * Conn * nat) : Conn := snd (fst x).
Definition issued {A : Type} (x : option A * Conn * nat) : nat := snd x.

(** A request served on its own, from statement number 0. *)
Definition serve (fails : nat -> bool) (p : Prog Response) (c : Conn) :=
  run fails 0 p c.

(** ** Overlapping requests

    The event loop runs one handler up to its next await, so two requests in
    flight interleave statement by statement on the one connection.  The
    schedule names, step by step, the request whose statement runs next. *)
Definition step {A : Type} (p : Prog A) (c : Conn) : Prog A * Conn :=
  match p with
  | Do q k => let '(r, c') := exec q c in (k (Some r), c')
  | _ => (p, c)
  end.

Inductive who : Type := First | Second.

Fixpoint interleave {A : Type} (sched : list who) (a b : Prog A) (c : Conn)
  : Prog A * Prog A * Conn :=
  match sched with
  | [] => (a, b, c)
  | First :: s => let '(a', c') := step a c in interleave s a' b c'
  | Second :: s => let '(b', c') := step b c in interleave s a b' c'
  end.

Definition finished {A : Type} (p : Prog A) : option A :=
  match p with
  | Ret a => Some a
  | _ => None
  end.

(** The same when the store rejects statements: a rejected statement leaves
    the session as it was and its request continues with the rejection;
    ROLLBACK takes effect all the same, as in [run]. *)
Definition step_with {A : Type} (rejected : bool) (p : Prog A) (c : Conn)
  : Prog A * Conn :=
  match p with
  | Do q k =>
      if negb (is_abort q) && rejected then (k None, c)
      else let '(r, c') := exec q c in (k (Some r), c')
  | _ => (p, c)
  end.

(** [fails i] tells whether the statement of step [i] of the schedule is
    rejected. *)
Fixpoint interleave_with {A : Type} (fails : nat -> bool) (i : nat) (sched : list who)
    (a b : Prog A) (c : Conn) : Prog A * Prog A * Conn :=
  match sched with
  | [] => (a, b, c)
  | First :: s =>
      let '(a', c') := step_with (fails i) a c in interleave_with fails (S i) s a' b c'
  | Second :: s =>
      let '(b', c') := step_with (fails i) b c in interleave_with fails (S i) s a b' c'
  end.

(** ** The decoded token: [req.user] *)

Record Claims : Type := mkClaims { userId : Z; claim_name : option string; claim_role : string }.

(** The string of a property that passed the [!x] check. *)
Definition str (s : option string) : string :=
  match s with
  | Some v => v
  | None => EmptyString
  end.

(** String concatenation coerces [undefined] to its name. *)
Definition js_string (s : option string) : string :=
  match s with
  | Some v => v
  | None => "undefined"
  end.

(** [allowedRoles.includes(x)] *)
Definition includes (l : list string) (x : option string) : bool :=
  match x with
  | Some s => existsb (String.eqb s) l
  | None => false
  end.

Definition user_json (u : UserRow) : json :=
  JObj [("id", JNum (user_id u)); ("username", JStr (username u)); ("role", JStr (role u))].

(** A comments row as RETURNING * gives it: every column. *)
Definition comment_json (c : CommentRow) : json :=
  JObj [("id", JNum (comment_id c)); ("post_id", JNum (comment_post c));
        ("author_id", JNum (comment_author c)); ("text", JStr (comment_text c));
        ("created_at", JStr (comment_created_at c))].

(** A property holding [rows[0]]: left out of the JSON text when there is
    no row. *)
Definition prop_rows0 {A : Type} (k : string) (f : A -> json) (rows : list A)
  : list (string * json) :=
  match rows with
  | x :: _ => [(k, f x)]
  | [] => []
  end.

Definition internal_error : Response :=
  res_status_json 500 (message "Internal server error").

(** [s.split(' ')[1]] *)
Fixpoint upto_space (s : string) : string :=
  match s with
  | String c r => if Ascii.eqb c " " then EmptyString else String c (upto_space r)
  | EmptyString => EmptyString
  end.

Fixpoint after_space (s : string) : option string :=
  match s with
  | String c r => if Ascii.eqb c " " then Some r else after_space r
  | EmptyString => None
  end.

Definition split_1 (s : string) : option string :=
  option_map upto_space (after_space s).

(** ** Geocoder documents *)

Record KakaoAddress : Type := mkKakaoAddress
  { region_1depth_name : option string;
    region_2depth_name : option string;
    region_3depth_name : option string;
    zone_no : option string;
    road_name : option string;
    main_building_no : option string;
    x : option string;
    y : option string }.

Record KakaoDoc : Type := mkKakaoDoc
  { road_address : option KakaoAddress; address : option KakaoAddress }.

Record Parsed : Type := mkParsed
  { siDo : option string;
    siGunGu : option string;
    eupMyeonDong : option string;
    postalCode : option string;
    roadName : option string;
    lon : jsfloat;
    lat : jsfloat }.

(** [None]: neither representation is present and reading a property of
    [undefined] throws. *)
Definition parseKakaoDoc (doc : KakaoDoc) : option Parsed :=
  match road_address doc with
  | Some road =>
      Some (mkParsed (region_1depth_name road) (region_2depth_name road)
              (region_3depth_name road) (zone_no road)
              (Some (js_string (road_name road) ++ " "
                     ++ or_default (main_building_no road) EmptyString))
              (parseFloat (x road)) (parseFloat (y road)))
  | None =>
      match address doc with
      | Some addr =>
          Some (mkParsed (region_1depth_name addr) (region_2depth_name addr)
                  (region_3depth_name addr) (Some EmptyString) (Some EmptyString)
                  (parseFloat (x addr)) (parseFloat (y addr)))
      | None => None
      end
  end.

(** POST /api/restaurants, the same in every variant.  [reply] is what
    [await axios.get(...)] gives for the address: [None] when it rejects,
    else [response.data.documents]. *)
Definition post_restaurants (reply : option (option (list KakaoDoc)))
    (name addr : option string) (flags : list (option bool)) : Prog Response :=
  try_catch
    match reply with
    | None => Throw
    | Some docs =>
        match docs with
        | None | Some [] =>
            Ret (res_status_json 400 (message "Kakao: No results for that address"))
        | Some (doc :: _) =>
            match parseKakaoDoc doc with
            | None => Throw
            | Some parsed =>
                upsertRes <- query (UpsertRestaurant
                  (mkRestaurant 0 name flags (siDo parsed) (siGunGu parsed)
                     (eupMyeonDong parsed) (postalCode parsed) (roadName parsed)
                     addr (lon parsed, lat parsed))) ;;
                match upsertRes with
                | newId :: _ =>
                    Ret (res_json (JObj [("success", JBool true); ("id", JNum newId)]))
                | [] => Throw
                end
            end
        end
    end
    (Ret internal_error).

(** ** The variant with tokens, roles and the vote ledger
    (server.js, lines 1 to 1543) *)

Module Auth.
Section Handlers.

(** The token library: [jwt.verify(token, secret)] with [None] when it
    throws, [jwt.sign(claims, secret, options)], and [bcrypt.hash]. *)
Variable jwt_verify : option string -> option Claims.
Variable jwt_sign : Claims -> string.
Variable bcrypt_hash : string -> string.

Definition authMiddleware (authHeader : option string)
    (next : Claims -> Prog Response) : Prog Response :=
  if negb (truthy authHeader) then Ret (res_status_send 401 "No token")
  else
    let token := split_1 (str authHeader) in
    match jwt_verify token with
    | Some decoded => next decoded
    | None => Ret (res_status_send 401 "Invalid token")
    end.

Definition allowedRoles : list string := ["user"; "moderator"; "admin"].

(** Step 4 of the role route: the UPDATE and its answer. *)
Definition perform_update (id : Z) (newRole : string) : Prog Response :=
  updateRes <- query (UpdateRole id newRole) ;;
  Ret (res_json (JObj (("success", JBool true) :: prop_rows0 "updatedUser" user_json updateRes))).

(** PUT /api/users/:id/role *)
Definition put_users_role (user : Claims) (id : Z) (newRole : option string)
  : Prog Response :=
  try_catch
    (if negb (includes allowedRoles newRole)
     then Ret (res_status_json 400 (message "Invalid role"))
     else
       findRes <- query (FindUser id) ;;
       match findRes with
       | [] => Ret (res_status_json 404 (message "User not found"))
       | targetUser :: _ =>
           let actingRole := claim_role user in
           if String.eqb actingRole "admin" then perform_update id (str newRole)
           else if String.eqb actingRole "moderator" then
             if negb (String.eqb (str newRole) "moderator")
             then Ret (res_status_json 403
                         (message "Forbidden: moderator can only set role=moderator"))
             else if String.eqb (role targetUser) "admin"
             then Ret (res_status_json 403
                         (message "Forbidden: cannot modify an admin's role"))
             else perform_update id (str newRole)
           else Ret (res_status_json 403
                       (message "Forbidden: you do not have permission to change roles"))
       end)
    (Ret internal_error).

(** POST /api/users/:id/promoteToModerator *)
Definition post_promoteToModerator (user : Claims) (id : Z) : Prog Response :=
  try_catch
    (if negb (String.eqb (claim_role user) "admin")
        && negb (String.eqb (claim_role user) "moderator")
     then Ret (res_status_json 403 (message "Forbidden: only mods or admins"))
     else
       findRes <- query (FindUser id) ;;
       match findRes with
       | [] => Ret (res_status_json 404 (message "User not found"))
       | targetUser :: _ =>
           if String.eqb (role targetUser) "admin"
           then Ret (res_status_json 403 (message "Cannot promote an admin to moderator"))
           else perform_update id "moderator"
       end)
    (Ret internal_error).

(** DELETE /api/users/:id *)
Definition delete_users (user : Claims) (id : Z) : Prog Response :=
  try_catch
    (if negb (String.eqb (claim_role user) "admin")
        && negb (String.eqb (claim_role user) "moderator")
     then Ret (res_status_json 403
                 (message "Forbidden: only admin or moderator can delete users"))
     else
       findRes <- query (FindUser id) ;;
       match findRes with
       | [] => Ret (res_status_json 404 (message "User not found"))
       | targetUser :: _ =>
           if String.eqb (claim_role user) "moderator"
              && String.eqb (role targetUser) "admin"
           then Ret (res_status_json 403
                       (message "Forbidden: cannot delete an admin as a moderator"))
           else
             updateRes <- query (SoftDelete id) ;;
             Ret (res_json (JObj (("success", JBool true)
                                    :: prop_rows0 "user" user_json updateRes)))
       end)
    (Ret internal_error).

(** The catch block of the vote routes. *)
Definition vote_catch : Prog Response :=
  query_quiet Rollback ;; Ret internal_error.

(** POST /api/community/posts/:id/upvote.  [!postId] holds of NaN and
    of 0: both are answered 400. *)
Definition upvote (user : Claims) (id : string) : Prog Response :=
  try_catch
    match parseInt id with
    | None => Ret (res_status_json 400 (message "Invalid post ID"))
    | Some postId =>
        if postId =? 0 then Ret (res_status_json 400 (message "Invalid post ID"))
        else
          postCheck <- query (SelectPost postId) ;;
          match postCheck with
          | [] => Ret (res_status_json 404 (message "Post not found"))
          | post :: _ =>
              voteCheck <- query (SelectVote (userId user) postId) ;;
              match voteCheck with
              | [] =>
                  query Begin ;;
                  query (InsertVote (userId user) postId 1) ;;
                  let newUpvotes := upvotes post + 1 in
                  query (SetUpvotes newUpvotes postId) ;;
                  query Commit ;;
                  Ret (res_json (JObj [("success", JBool true);
                                       ("upvotes", JNum newUpvotes);
                                       ("message", JStr "Upvoted!")]))
              | existingVote :: _ =>
                  if existingVote =? 1
                  then Ret (res_json (JObj [("success", JBool false);
                                            ("message", JStr "Already upvoted this post.")]))
                  else
                    query Begin ;;
                    query (UpdateVote 1 (userId user) postId) ;;
                    let newUpvotes := upvotes post + 1 in
                    let newDownvotes := downvotes post - 1 in
                    query (SetCounters newUpvotes newDownvotes postId) ;;
                    query Commit ;;
                    Ret (res_json (JObj [("success", JBool true);
                                         ("upvotes", JNum newUpvotes);
                                         ("downvotes", JNum newDownvotes);
                                         ("message", JStr "Changed vote to upvote.")]))
              end
          end
    end
    vote_catch.

(** POST /api/community/posts/:id/downvote, the mirror image. *)
Definition downvote (user : Claims) (id : string) : Prog Response :=
  try_catch
    match parseInt id with
    | None => Ret (res_status_json 400 (message "Invalid post ID"))
    | Some postId =>
        if postId =? 0 then Ret (res_status_json 400 (message "Invalid post ID"))
        else
          postCheck <- query (SelectPost postId) ;;
          match postCheck with
          | [] => Ret (res_status_json 404 (message "Post not found"))
          | post :: _ =>
              voteCheck <- query (SelectVote (userId user) postId) ;;
              match voteCheck with
              | [] =>
                  query Begin ;;
                  query (InsertVote (userId user) postId (-1)) ;;
                  let newDownvotes := downvotes post + 1 in
                  query (SetDownvotes newDownvotes postId) ;;
                  query Commit ;;
                  Ret (res_json (JObj [("success", JBool true);
                                       ("downvotes", JNum newDownvotes);
                                       ("message", JStr "Downvoted!")]))
              | existingVote :: _ =>
                  if existingVote =? -1
                  then Ret (res_json (JObj [("success", JBool false);
                                            ("message", JStr "Already downvoted this post.")]))
                  else
                    query Begin ;;
                    query (UpdateVote (-1) (userId user) postId) ;;
                    let newUpvotes := upvotes post - 1 in
                    let newDownvotes := downvotes post + 1 in
                    query (SetCounters newUpvotes newDownvotes postId) ;;
                    query Commit ;;
                    Ret (res_json (JObj [("success", JBool true);
                                         ("upvotes", JNum newUpvotes);
                                         ("downvotes", JNum newDownvotes);
                                         ("message", JStr "Changed vote to downvote.")]))
              end
          end
    end
    vote_catch.

(** PUT /api/community/comments/:id *)
Definition put_comments (user : Claims) (id : Z) (text : option string)
  : Prog Response :=
  try_catch
    (if negb (truthy text)
     then Ret (res_status_json 400 (message "Missing text field"))
     else
       checkRes <- query (SelectCommentAuthor id) ;;
       match checkRes with
       | [] => Ret (res_status_json 404 (message "Comment not found"))
       | author_id :: _ =>
           let isAuthor := author_id =? userId user in
           if negb isAuthor
           then Ret (res_status_json 403 (message "Forbidden: only the author can edit"))
           else
             result <- query (UpdateComment (str text) id) ;;
             Ret (res_json (match result with
                            | c :: _ => comment_json c
                            | [] => JNull
                            end))
       end)
    (Ret internal_error).

(** POST /api/auth/register *)
Definition register (name password newRole : option string) : Prog Response :=
  try_catch
    (if negb (truthy name) || negb (truthy password)
     then Ret (res_status_send 400 "Missing username or password")
     else
       let password_hash := bcrypt_hash (str password) in
       result <- query (InsertUser (str name) password_hash (or_default newRole "user")) ;;
       match result with
       | user :: _ =>
           let token :=
             jwt_sign (mkClaims (user_id user) (Some (username user)) (role user)) in
           Ret (res_json (JObj [("token", JStr token); ("user", user_json user)]))
       | [] => Throw
       end)
    (Ret (res_status_send 500 "Internal server error")).

(** The routes as registered: the middleware, then the handler. *)
Definition route_put_users_role (authHeader : option string) (id : Z)
    (newRole : option string) : Prog Response :=
  authMiddleware authHeader (fun user => put_users_role user id newRole).
Definition route_promoteToModerator (authHeader : option string) (id : Z)
  : Prog Response :=
  authMiddleware authHeader (fun user => post_promoteToModerator user id).
Definition route_delete_users (authHeader : option string) (id : Z) : Prog Response :=
  authMiddleware authHeader (fun user => delete_users user id).
Definition route_upvote (authHeader : option string) (id : string) : Prog Response :=
  authMiddleware authHeader (fun user => upvote user id).
Definition route_downvote (authHeader : option string) (id : string) : Prog Response :=
  authMiddleware authHeader (fun user => downvote user id).
Definition route_put_comments (authHeader : option string) (id : Z)
    (text : option string) : Prog Response :=
  authMiddleware authHeader (fun user => put_comments user id text).

End Handlers.
End Auth.

(** ** The earlier variant: counters only, no tokens on the community routes
    (server.js, from line 1543) *)

Module Plain.
Section Handlers.

Variable bcrypt_hash : string -> string.

(** POST /api/community/posts/:id/upvote *)
Definition upvote (id : Z) : Prog Response :=
  try_catch
    (result <- query (IncrUpvotes id) ;;
     match result with
     | [] => Ret (res_status_json 404 (message "Post not found"))
     | n :: _ => Ret (res_json (JObj [("upvotes", JNum n)]))
     end)
    (Ret internal_error).

(** POST /api/community/posts/:id/downvote *)
Definition downvote (id : Z) : Prog Response :=
  try_catch
    (result <- query (IncrDownvotes id) ;;
     match result with
     | [] => Ret (res_status_json 404 (message "Post not found"))
     | n :: _ => Ret (res_json (JObj [("downvotes", JNum n)]))
     end)
    (Ret internal_error).

(** PUT /api/community/comments/:id *)
Definition put_comments (id : Z) (text : option string) : Prog Response :=
  try_catch
    (if negb (truthy text)
     then Ret (res_status_json 400 (message "Missing text field"))
     else
       result <- query (UpdateComment (str text) id) ;;
       match result with
       | [] => Ret (res_status_json 404 (message "Comment not found or no changes made"))
       | c :: _ => Ret (res_json (comment_json c))
       end)
    (Ret internal_error).

(** POST /api/auth/register *)
Definition register (name password newRole : option string) : Prog Response :=
  try_catch
    (if negb (truthy name) || negb (truthy password)
     then Ret (res_status_send 400 "Missing username or password")
     else
       let password_hash := bcrypt_hash (str password) in
       result <- query (InsertUser (str name) password_hash (or_default newRole "user")) ;;
       Ret (res_json (match result with
                      | user :: _ => user_json user
                      | [] => JNull
                      end)))
    (Ret (res_status_send 500 "Internal server error")).

End Handlers.
End Plain.

(** ** The ledger/counter invariant *)

(** A ledger row counts for post [postId] in direction [dir]. *)
Definition counts_as (dir postId : Z) (v : VoteRow) : bool :=
  (vote_post v =? postId) && (vote_type v =? dir).

(** The number of ledger rows of a post with a direction. *)
Definition count_votes (dir postId : Z) (l : list VoteRow) : Z :=
  Z.of_nat (List.length (filter (counts_as dir postId) l)).

Definition counters_match (votes : list VoteRow) (p : PostRow) : bool :=
  (upvotes p =? count_votes 1 (post_id p) votes)
  && (downvotes p =? count_votes (-1) (post_id p) votes).

(** Every post's counters equal its ledger counts. *)
Definition consistent (d : DB) : bool :=
  forallb (counters_match (post_votes d)) (posts d).

(** At most one ledger row per (user, post). *)
Fixpoint unique_pairs (l : list VoteRow) : bool :=
  match l with
  | [] => true
  | v :: r => negb (existsb (same_pair (vote_user v) (vote_post v)) r) && unique_pairs r
  end.

Definition direction_ok (v : VoteRow) : bool :=
  (vote_type v =? 1) || (vote_type v =? -1).

Definition ledger_ok (d : DB) : bool :=
  unique_pairs (post_votes d) && forallb direction_ok (post_votes d).

(** The state between two requests: no transaction left open, a well-formed
    ledger, and counters that agree with it. *)
Definition settled (c : Conn) : bool :=
  match snap c with
  | None => ledger_ok (cur c) && consistent (cur c)
  | Some _ => false
  end.

(** The ledger rows of one post. *)
Definition ledger_of (postId : Z) (l : list VoteRow) : list VoteRow :=
  filter (fun v => vote_post v =? postId) l.

Inductive intent : Type := UP | DOWN.

(** The vote endpoint of the ledger variant for an intent. *)
Definition vote (i : intent) : Claims -> string -> Prog Response :=
  match i with
  | UP => Auth.upvote
  | DOWN => Auth.downvote
  end.

(** One vote request: who, on which path parameter, with which intent, and
    which of its statements the store rejects. *)
Record call : Type := mkCall
  { call_intent : intent; call_user : Claims; call_id : string; call_fails : nat -> bool }.

Definition serve_call (k : call) (c : Conn) : Conn :=
  session (serve (call_fails k) (vote (call_intent k) (call_user k) (call_id k)) c).

(** Requests served one after the other. *)
Definition serve_all (calls : list call) (c : Conn) : Conn :=
  fold_left (fun c k => serve_call k c) calls c.

(** Both tables of a vote written. *)
Definition write_both (votes' : list VoteRow) (posts' : list PostRow) (d : DB) : DB :=
  set_posts (set_post_votes d votes') posts'.

Definition ok_json (fields : list (string * json)) : Response := res_json (JObj fields).

(** The identity the middleware hands to the handler, if any. *)
Definition credentials (jwt_verify : option string -> option Claims)
    (authHeader : option string) : option Claims :=
  if truthy authHeader then jwt_verify (split_1 (str authHeader)) else None.

Definition mod_or_admin (u : Claims) : bool :=
  String.eqb (claim_role u) "admin" || String.eqb (claim_role u) "moderator".

(** The rule of PUT /users/:id/role as section 4.2 words it: an admin may
    set any role; a moderator only [moderator], and only on a target that is
    not an admin; nobody else. *)
Definition may_set_role (actingRole newRole targetRole : string) : bool :=
  String.eqb actingRole "admin"
  || (String.eqb actingRole "moderator"
      && String.eqb newRole "moderator"
      && negb (String.eqb targetRole "admin")).

Definition status_of (x : option Response * Conn * nat) : option Z :=
  option_map status (answer x).

(** ** Sample data for the concrete runs *)

Definition alice : Claims := mkClaims 1 (Some "alice") "user".
Definition bob : Claims := mkClaims 2 (Some "bob") "user".
Definition mod_carol : Claims := mkClaims 3 (Some "carol") "moderator".
Definition admin_dan : Claims := mkClaims 4 (Some "dan") "admin".

Definition empty_db : DB := mkDB [] [] [] 1 [] [] 1.

(** One post, id 7, by user 1, no votes yet. *)
Definition fresh_post_db : DB := mkDB [mkPost 7 1 0 0] [] [] 1 [] [] 1.

(** Users 1 to 4 with the roles of the sample claims. *)
Definition users_db : DB :=
  mkDB [] []
    [mkUser 1 "alice" (Some "h1") "user"; mkUser 2 "bob" (Some "h2") "user";
     mkUser 3 "carol" (Some "h3") "moderator"; mkUser 4 "dan" (Some "h4") "admin"]
    5 [] [] 1.

(** Comment 5 on post 7, written by user 1. *)
Definition comment_db : DB :=
  mkDB [mkPost 7 1 0 0] [] [] 1 [mkComment 5 7 1 "first" "2025-03-01T09:00:00.000Z"] [] 1.

Definition idle (d : DB) : Conn := mkConn d None.

(** A verifier for the concrete runs: the token is the user's name. *)
Definition sample_verify (token : option string) : option Claims :=
  match token with
  | Some "alice" => Some alice
  | Some "bob" => Some bob
  | Some "carol" => Some mod_carol
  | Some "dan" => Some admin_dan
  | _ => None
  end.

Definition sample_sign (c : Claims) : string := str (claim_name c).
Definition sample_hash (s : string) : string := "hash:" ++ s.

(** The two requests take turns, statement by statement. *)
Fixpoint turns (n : nat) : list who :=
  match n with
  | O => []
  | S k => First :: Second :: turns k
  end.

(** Two posts, 7 and 8, by user 1, no votes yet. *)
Definition two_posts_db : DB := mkDB [mkPost 7 1 0 0; mkPost 8 1 0 0] [] [] 1 [] [] 1.

(** The second request arrives while the first awaits its second statement,
    and from then on they take turns: the first has its six statements
    through when the second sends its fifth. *)
Definition one_behind : list who :=
  First :: First :: Second :: (turns 4 ++ [Second])%list.

(** ** Posts, comments, profiles and login

    The routes of the variant with tokens that create, edit and delete posts
    and comments, update a profile and log a user in.  They read columns
    the vote and role routes do not, so the tables are modelled here with
    those columns; no route of this group opens a transaction. *)

Module Forum.

(** users, with the profile columns. *)
Record Member : Type := mkMember
  { member_id : Z;
    member_name : string;
    member_hash : option string;
    member_role : string;
    first_name : option string;
    last_name : option string;
    gender : option string;
    nationalities : option (list string);
    ethnicities : option (list string);
    birthday : option string;
    country_home : option string;
    country_grew_up_in : option string;
    bio : option string;
    visible_to_others : option bool }.

(** posts (id, title, content, author_id, subcategory_id, upvotes, downvotes,
    created_at), the columns the source names. *)
Record Article : Type := mkArticle
  { article_id : Z;
    title : option string;
    content : option string;
    author_id : Z;
    subcategory_id : option Z;
    article_upvotes : Z;
    article_downvotes : Z;
    article_created_at : string }.

(** What the store gives the columns an INSERT leaves out: the defaults of
    the schema, which is not among the sources, and its clock for
    [created_at]. *)
Record Defaults : Type := mkDefaults
  { visible_default : option bool;
    upvotes_default : Z;
    downvotes_default : Z;
    created_now : string }.

Record Site : Type := mkSite
  { members : list Member;
    members_seq : Z;
    articles : list Article;
    articles_seq : Z;
    remarks : list CommentRow;
    remarks_seq : Z }.

(** The body of POST /api/profile: strings or missing, arrays of strings or
    something else, a boolean or something else. *)
Record ProfileBody : Type := mkProfileBody
  { firstName : option string;
    lastName : option string;
    b_gender : option string;
    b_nationalities : option (list string);
    b_ethnicities : option (list string);
    b_birthday : option string;
    countryHome : option string;
    countryGrewUpIn : option string;
    b_bio : option string;
    visibleToOthers : option bool }.

(** [x || null] on a string property: the string, or NULL. *)
Definition or_null (s : option string) : option string :=
  if truthy s then s else None.

(** [subcategory_id || null]: 0 is falsy. *)
Definition id_or_null (i : option Z) : option Z :=
  match i with
  | Some 0 => None
  | _ => i
  end.

(** [!i] on a numeric property. *)
Definition missing_id (i : option Z) : bool :=
  match i with
  | Some 0 | None => true
  | Some _ => false
  end.

Definition id_of (i : option Z) : Z :=
  match i with
  | Some v => v
  | None => 0
  end.

Definition is_member (id : Z) (m : Member) : bool := member_id m =? id.
Definition is_named (name : string) (m : Member) : bool := String.eqb (member_name m) name.
Definition is_article (id : Z) (a : Article) : bool := article_id a =? id.

Definition with_profile (v : ProfileBody) (m : Member) : Member :=
  mkMember (member_id m) (member_name m) (member_hash m) (member_role m)
    (or_null (firstName v)) (or_null (lastName v)) (or_null (b_gender v))
    (Some (match b_nationalities v with Some l => l | None => [] end))
    (Some (match b_ethnicities v with Some l => l | None => [] end))
    (or_null (b_birthday v)) (or_null (countryHome v)) (or_null (countryGrewUpIn v))
    (or_null (b_bio v))
    (Some (match visibleToOthers v with Some b => b | None => true end)).

Definition with_article_text (t c : option string) (sub : option Z) (a : Article) : Article :=
  mkArticle (article_id a) t c (author_id a) sub
    (article_upvotes a) (article_downvotes a) (article_created_at a).

Inductive stmt : Type -> Type :=
| SelectVisible (id : Z) : stmt (list (option bool))
    (* SELECT visible_to_others FROM users WHERE id = $1 *)
| InsertPost (t c : option string) (author : Z) (sub : option Z) : stmt (list Article)
    (* INSERT INTO posts (title, content, author_id, subcategory_id)
       VALUES ($1, $2, $3, $4) RETURNING * *)
| SelectPostAuthor (id : Z) : stmt (list Z)
    (* SELECT author_id FROM posts WHERE id = $1 *)
| UpdatePost (t c : option string) (sub : option Z) (id : Z) : stmt (list Article)
    (* UPDATE posts SET title = $1, content = $2, subcategory_id = $3
       WHERE id = $4 RETURNING * *)
| DeletePost (id : Z) : stmt (list Article)
    (* DELETE FROM posts WHERE id = $1 RETURNING * *)
| InsertComment (post author : Z) (text : string) : stmt (list CommentRow)
    (* INSERT INTO comments (post_id, author_id, text) VALUES ($1, $2, $3)
       RETURNING * *)
| SelectRemarkAuthor (id : Z) : stmt (list Z)
    (* SELECT author_id FROM comments WHERE id = $1 *)
| DeleteComment (id : Z) : stmt (list CommentRow)
    (* DELETE FROM comments WHERE id = $1 RETURNING * *)
| InsertMember (name hash newRole : string) : stmt (list Member)
    (* INSERT INTO users (username, password_hash, role) VALUES ($1, $2, $3)
       RETURNING id, username, role *)
| SelectByName (name : string) : stmt (list Member)
    (* SELECT * FROM users WHERE username = $1 *)
| UpdateProfile (v : ProfileBody) (id : Z) : stmt (list Member).
    (* UPDATE users SET first_name = $1, ..., visible_to_others = $10
       WHERE id = $11 RETURNING id, username, first_name, ... *)

Section Store.

Variable defaults : Defaults.

Definition new_member (id : Z) (name hash newRole : string) : Member :=
  mkMember id name (Some hash) newRole None None None None None None None None None
    (visible_default defaults).

(** What a statement that succeeds returns and does to the tables. *)
Definition perform {R : Type} (q : stmt R) (s : Site) : R * Site :=
  match q in stmt R return R * Site with
  | SelectVisible id => (map visible_to_others (filter (is_member id) (members s)), s)
  | InsertPost t c author sub =>
      let a := mkArticle (articles_seq s) t c author sub
                 (upvotes_default defaults) (downvotes_default defaults)
                 (created_now defaults) in
      ([a], mkSite (members s) (members_seq s) (articles s ++ [a]) (articles_seq s + 1)
              (remarks s) (remarks_seq s))
  | SelectPostAuthor id => (map author_id (filter (is_article id) (articles s)), s)
  | UpdatePost t c sub id =>
      let l := update_where (is_article id) (with_article_text t c sub) (articles s) in
      (filter (is_article id) l,
       mkSite (members s) (members_seq s) l (articles_seq s) (remarks s) (remarks_seq s))
  | DeletePost id =>
      (filter (is_article id) (articles s),
       mkSite (members s) (members_seq s)
         (filter (fun a => negb (is_article id a)) (articles s)) (articles_seq s)
         (remarks s) (remarks_seq s))
  | InsertComment post author text =>
      let c := mkComment (remarks_seq s) post author text (created_now defaults) in
      ([c], mkSite (members s) (members_seq s) (articles s) (articles_seq s)
              (remarks s ++ [c]) (remarks_seq s + 1))
  | SelectRemarkAuthor id => (map comment_author (filter (is_comment id) (remarks s)), s)
  | DeleteComment id =>
      (filter (is_comment id) (remarks s),
       mkSite (members s) (members_seq s) (articles s) (articles_seq s)
         (filter (fun c => negb (is_comment id c)) (remarks s)) (remarks_seq s))
  | InsertMember name hash newRole =>
      let m := new_member (members_seq s) name hash newRole in
      ([m], mkSite (members s ++ [m]) (members_seq s + 1) (articles s) (articles_seq s)
              (remarks s) (remarks_seq s))
  | SelectByName name => (filter (is_named name) (members s), s)
  | UpdateProfile v id =>
      let l := update_where (is_member id) (with_profile v) (members s) in
      (filter (is_member id) l,
       mkSite l (members_seq s) (articles s) (articles_seq s) (remarks s) (remarks_seq s))
  end.

End Store.

(** A handler between two awaits, as [Prog] above, over these statements. *)
Inductive Script (A : Type) : Type :=
| Done (a : A)
| Raise
| Ask {R : Type} (q : stmt R) (k : option R -> Script A).

Arguments Done {A} a.
Arguments Raise {A}.
Arguments Ask {A R} q k.

Fixpoint andThen {A B : Type} (p : Script A) (f : A -> Script B) : Script B :=
  match p with
  | Done a => f a
  | Raise => Raise
  | Ask q k => Ask q (fun r => andThen (k r) f)
  end.

(** [try { p } catch (err) { h }] *)
Fixpoint guarded {A : Type} (p : Script A) (h : Script A) : Script A :=
  match p with
  | Done a => Done a
  | Raise => h
  | Ask q k => Ask q (fun r => guarded (k r) h)
  end.

(** [await client.query(q)] *)
Definition ask {R : Type} (q : stmt R) : Script R :=
  Ask q (fun r => match r with Some v => Done v | None => Raise end).

Declare Scope script_scope.
Delimit Scope script_scope with script.
Notation "x <- p ;; k" := (andThen p (fun x => k))
  (at level 61, p at next level, right associativity) : script_scope.
Local Open Scope script_scope.

(** One request served: [fails i] tells whether its [i]-th statement is
    rejected; a rejected statement leaves the tables as they were. *)
Fixpoint play {A : Type} (defaults : Defaults) (fails : nat -> bool) (i : nat)
    (p : Script A) (s : Site) : option A * Site * nat :=
  match p with
  | Done a => (Some a, s, i)
  | Raise => (None, s, i)
  | Ask q k =>
      if fails i then play defaults fails (S i) (k None) s
      else let '(r, s') := perform defaults q s in
           play defaults fails (S i) (k (Some r)) s'
  end.

Definition handle (defaults : Defaults) (fails : nat -> bool)
    (p : Script Response) (s : Site) : option Response * Site * nat :=
  play defaults fails 0 p s.

Definition jopt (s : option string) : json :=
  match s with
  | Some v => JStr v
  | None => JNull
  end.

Definition jid (i : option Z) : json :=
  match i with
  | Some v => JNum v
  | None => JNull
  end.

Definition jarr (l : option (list string)) : json :=
  match l with
  | Some v => JArr (map JStr v)
  | None => JNull
  end.

(** A posts row as RETURNING * gives it: every column. *)
Definition article_json (a : Article) : json :=
  JObj [("id", JNum (article_id a)); ("title", jopt (title a));
        ("content", jopt (content a)); ("author_id", JNum (author_id a));
        ("subcategory_id", jid (subcategory_id a));
        ("upvotes", JNum (article_upvotes a)); ("downvotes", JNum (article_downvotes a));
        ("created_at", JStr (article_created_at a))].

Definition member_json (m : Member) : json :=
  JObj [("id", JNum (member_id m)); ("username", JStr (member_name m));
        ("role", JStr (member_role m))].

Definition profile_json (m : Member) : json :=
  JObj [("id", JNum (member_id m)); ("username", JStr (member_name m));
        ("first_name", jopt (first_name m)); ("last_name", jopt (last_name m));
        ("gender", jopt (gender m)); ("nationalities", jarr (nationalities m));
        ("ethnicities", jarr (ethnicities m)); ("birthday", jopt (birthday m));
        ("country_home", jopt (country_home m));
        ("country_grew_up_in", jopt (country_grew_up_in m)); ("bio", jopt (bio m));
        ("visible_to_others",
         match visible_to_others m with Some b => JBool b | None => JNull end)].

(** [res.json(rows[0])] *)
Definition first_json {A : Type} (f : A -> json) (rows : list A) : json :=
  match rows with
  | x :: _ => f x
  | [] => JNull
  end.

Definition isModOrAdmin (user : Claims) : bool :=
  String.eqb (claim_role user) "moderator" || String.eqb (claim_role user) "admin".

Section Handlers.

(** [jwt.sign], [bcrypt.hash], and [bcrypt.compare] with [None] when it
    throws. *)
Variable jwt_sign : Claims -> string.
Variable bcrypt_hash : string -> string.
Variable bcrypt_compare : string -> option string -> option bool.

(** POST /api/community/posts (behind authMiddleware) *)
Definition create_post (user : Claims) (t c : option string) (sub : option Z)
  : Script Response :=
  guarded
    (userResult <- ask (SelectVisible (userId user)) ;;
     match userResult with
     | [] => Done (res_status_json 404 (message "User not found"))
     | visible :: _ =>
         match visible with
         | Some false =>
             Done (res_status_json 403
                     (message "You must be visible to others to create posts"))
         | _ =>
             if negb (truthy t) || negb (truthy c)
             then Done (res_status_json 400 (message "Missing required fields"))
             else
               result <- ask (InsertPost t c (userId user) (id_or_null sub)) ;;
               Done (res_json (first_json article_json result))
         end
     end)
    (Done internal_error).

(** PUT /api/community/posts/:id (behind authMiddleware) *)
Definition update_post (user : Claims) (id : Z) (t c : option string) (sub : option Z)
  : Script Response :=
  guarded
    (checkRes <- ask (SelectPostAuthor id) ;;
     match checkRes with
     | [] => Done (res_status_json 404 (message "Post not found"))
     | post_author_id :: _ =>
         let isAuthor := post_author_id =? userId user in
         if negb isAuthor && negb (isModOrAdmin user)
         then Done (res_status_json 403 (message "Forbidden"))
         else
           result <- ask (UpdatePost t c (id_or_null sub) id) ;;
           match result with
           | [] => Done (res_status_json 404 (message "Post not found or no changes made"))
           | a :: _ => Done (res_json (article_json a))
           end
     end)
    (Done internal_error).

(** DELETE /api/community/posts/:id (behind authMiddleware) *)
Definition delete_post (user : Claims) (id : Z) : Script Response :=
  guarded
    (checkRes <- ask (SelectPostAuthor id) ;;
     match checkRes with
     | [] => Done (res_status_json 404 (message "Post not found"))
     | post_author_id :: _ =>
         let isAuthor := post_author_id =? userId user in
         if negb isAuthor && negb (isModOrAdmin user)
         then Done (res_status_json 403 (message "Forbidden"))
         else
           result <- ask (DeletePost id) ;;
           Done (res_json (JObj (("success", JBool true)
                                   :: prop_rows0 "deleted" article_json result)))
     end)
    (Done internal_error).

(** POST /api/community/comments (no middleware) *)
Definition create_comment (post_id author : option Z) (text : option string)
  : Script Response :=
  guarded
    (if missing_id post_id || missing_id author || negb (truthy text)
     then Done (res_status_json 400
                  (message "Missing required fields (post_id, author_id, text)"))
     else
       result <- ask (InsertComment (id_of post_id) (id_of author) (str text)) ;;
       Done (res_json (first_json comment_json result)))
    (Done internal_error).

(** DELETE /api/community/comments/:id (behind authMiddleware) *)
Definition delete_comment (user : Claims) (id : Z) : Script Response :=
  guarded
    (checkRes <- ask (SelectRemarkAuthor id) ;;
     match checkRes with
     | [] => Done (res_status_json 404 (message "Comment not found"))
     | comment_author_id :: _ =>
         let isAuthor := comment_author_id =? userId user in
         if negb isAuthor && negb (isModOrAdmin user)
         then Done (res_status_json 403
                      (message "Forbidden: only author or mod/admin can delete"))
         else
           result <- ask (DeleteComment id) ;;
           Done (res_json (JObj (("success", JBool true)
                                   :: prop_rows0 "deleted" comment_json result)))
     end)
    (Done internal_error).

(** POST /api/auth/register, over the full users row *)
Definition register (name password newRole : option string) : Script Response :=
  guarded
    (if negb (truthy name) || negb (truthy password)
     then Done (res_status_send 400 "Missing username or password")
     else
       let password_hash := bcrypt_hash (str password) in
       result <- ask (InsertMember (str name) password_hash (or_default newRole "user")) ;;
       match result with
       | user :: _ =>
           let token :=
             jwt_sign (mkClaims (member_id user) (Some (member_name user))
                         (member_role user)) in
           Done (res_json (JObj [("token", JStr token); ("user", member_json user)]))
       | [] => Raise
       end)
    (Done (res_status_send 500 "Internal server error")).

(** POST /api/auth/login *)
Definition login (name password : option string) : Script Response :=
  guarded
    (if negb (truthy name) || negb (truthy password)
     then Done (res_status_send 400 "Missing username or password")
     else
       userRes <- ask (SelectByName (str name)) ;;
       match userRes with
       | [] => Done (res_status_send 400 "Invalid credentials")
       | user :: _ =>
           match bcrypt_compare (str password) (member_hash user) with
           | None => Raise
           | Some false => Done (res_status_send 400 "Invalid credentials")
           | Some true =>
               let token :=
                 jwt_sign (mkClaims (member_id user) (Some (member_name user))
                             (member_role user)) in
               Done (res_json (JObj [("token", JStr token)]))
           end
       end)
    (Done (res_status_send 500 "Internal server error")).

(** POST /api/profile (behind authMiddleware) *)
Definition profile (user : Claims) (v : ProfileBody) : Script Response :=
  guarded
    (result <- ask (UpdateProfile v (userId user)) ;;
     match result with
     | [] => Done (res_status_json 404 (message "User not found"))
     | m :: _ => Done (res_json (profile_json m))
     end)
    (Done internal_error).

End Handlers.

Definition outcome (x : option Response * Site * nat) : option Response := fst (fst x).
Definition site (x : option Response * Site * nat) : Site := snd (fst x).
Definition code (x : option Response * Site * nat) : option Z := option_map status (outcome x).

End Forum.

(** ** Discount events: the parameters of POST and PUT *)

(** A value of the JSON body.  [VNum] is a number whose value is an
    integer; [VOther] stands for every other value, all of them truthy (an
    array, an object, a number that is not an integer), by its JSON text. *)
Inductive jsval : Type :=
| Undefined
| Null
| VBool (b : bool)
| VNum (n : Z)
| VStr (s : string)
| VOther (text : string).

Definition truthy_val (v : jsval) : bool :=
  match v with
  | Undefined | Null => false
  | VBool b => b
  | VNum n => negb (n =? 0)
  | VStr s => negb (String.eqb s EmptyString)
  | VOther _ => true
  end.

(** [v || d] *)
Definition or_else (v d : jsval) : jsval := if truthy_val v then v else d.

Record DiscountBody : Type := mkDiscountBody
  { store_id : jsval;
    item_name : jsval;
    item_category : jsval;
    reason : jsval;
    original_price : jsval;
    discount_price : jsval;
    discount_percentage : jsval;
    discount_start : jsval;
    discount_end : jsval;
    expiration_date : jsval;
    quantity : jsval;
    item_image_url : jsval;
    posted_by : jsval;
    store_hours : jsval;
    dietary_tags : jsval;
    is_crowd_sourced : jsval;
    avg_rating : jsval;
    total_reviews : jsval }.

(** The [values] array of POST /api/discount-events. *)
Definition post_discount_values (b : DiscountBody) : list jsval :=
  [ store_id b;
    item_name b;
    or_else (item_category b) Null;
    or_else (reason b) Null;
    original_price b;
    discount_price b;
    discount_percentage b;
    or_else (discount_start b) Null;
    or_else (discount_end b) Null;
    or_else (expiration_date b) Null;
    or_else (quantity b) Null;
    or_else (item_image_url b) Null;
    or_else (posted_by b) Null;
    or_else (store_hours b) Null;
    or_else (dietary_tags b) Null;
    match is_crowd_sourced b with Undefined => VBool true | v => v end;
    or_else (avg_rating b) Null;
    or_else (total_reviews b) (VNum 0) ].

(** The [values] array of PUT /api/discount-events/:id. *)
Definition put_discount_values (b : DiscountBody) (id : jsval) : list jsval :=
  [ store_id b;
    item_name b;
    or_else (item_category b) Null;
    or_else (reason b) Null;
    original_price b;
    discount_price b;
    discount_percentage b;
    or_else (discount_start b) Null;
    or_else (discount_end b) Null;
    or_else (expiration_date b) Null;
    or_else (quantity b) Null;
    or_else (item_image_url b) Null;
    or_else (posted_by b) Null;
    or_else (store_hours b) Null;
    or_else (dietary_tags b) Null;
    match is_crowd_sourced b with Undefined => VBool true | v => v end;
    or_else (avg_rating b) Null;
    or_else (total_reviews b) (VNum 0);
    id ].

(** The positions, from 0, of the optional fields that go through
    [|| null]. *)
Definition nullable_positions : list nat := [2; 3; 7; 8; 9; 10; 11; 12; 13; 14; 16]%nat.

(** NULL or a truthy value. *)
Definition null_or_truthy (v : jsval) : bool :=
  match v with
  | Null => true
  | _ => truthy_val v
  end.

(** ** Further notions used to state what the routes keep *)

(** At most one users row per id. *)
Fixpoint unique_user_ids (l : list UserRow) : bool :=
  match l with
  | [] => true
  | u :: r => negb (existsb (is_user (user_id u)) r) && unique_user_ids r
  end.

Definition is_admin_row (u : UserRow) : bool := String.eqb (role u) "admin".

Definition is_digit (c : ascii) : bool :=
  match digit_of c with
  | Some _ => true
  | None => false
  end.

Fixpoint all_digits (s : string) : bool :=
  match s with
  | String c r => is_digit c && all_digits r
  | EmptyString => true
  end.

(** A string that is white space and nothing else. *)
Fixpoint all_white (s : string) : bool :=
  match s with
  | String c1 r1 =>
      if is_ws c1 then all_white r1
      else
        match r1 with
        | String c2 r2 =>
            if is_ws2 c1 c2 then all_white r2
            else
              match r2 with
              | String c3 r3 => is_ws3 c1 c2 c3 && all_white r3
              | EmptyString => false
              end
        | EmptyString => false
        end
  | EmptyString => true
  end.

(** TAB, no-break space, ideographic space, byte order mark. *)
Definition sample_white : string :=
  String "009" (String "194" (String "160" (String "227" (String "128" (String "128"
    (String "239" (String "187" (String "191" EmptyString)))))))).

Definition starts_with_digit (s : string) : bool :=
  match s with
  | String c _ => is_digit c
  | EmptyString => false
  end.

Fixpoint no_space (s : string) : bool :=
  match s with
  | String c r => negb (Ascii.eqb c " ") && no_space r
  | EmptyString => true
  end.

(** The same request served [n] times in a row by a healthy store. *)
Definition repeatedly (n : nat) (p : Prog Response) (c : Conn) : Conn :=
  Nat.iter n (fun s => session (serve never p s)) c.

(** ** GET /api/restaurants: the query the handler builds *)

Fixpoint starts_with (p s : string) : bool :=
  match p, s with
  | EmptyString, _ => true
  | String a p', String b s' => Ascii.eqb a b && starts_with p' s'
  | String _ _, EmptyString => false
  end.

(** Whether a string starts with a decimal literal, as [parseFloat] reads
    it: after white space and an optional sign, [Infinity], a digit, or a
    point followed by a digit. *)
Definition float_prefix (s : string) : bool :=
  let s1 := skip_ws s in
  let s2 :=
    match s1 with
    | String "-" r => r
    | String "+" r => r
    | _ => s1
    end in
  starts_with "Infinity" s2
  || match s2 with
     | String "." (String c _) => is_digit c
     | String c _ => is_digit c
     | EmptyString => false
     end.

(** [isNaN(f)] of a float read by [parseFloat]; [undefined] reads as NaN. *)
Definition isNaN (f : jsfloat) : bool :=
  match f with
  | parseFloat (Some s) => negb (float_prefix s)
  | parseFloat None => true
  end.

(** A value bound to a placeholder. *)
Inductive param : Type :=
| PFloat (f : jsfloat)
| PText (s : string)
| PBool (b : bool).

(** One condition of the WHERE clause, with the numbers of its
    placeholders. *)
Inductive condition : Type :=
| Envelope (xMin yMin xMax yMax : nat)
    (* geom::geometry && ST_MakeEnvelope($a, $b, $c, $d, 4326) *)
| NameILike (k : nat)
    (* name ILIKE $k *)
| ColumnEq (column : string) (k : nat).
    (* column = $k *)

(** The two arrays the handler fills: [conditions] and [values]. *)
Record Query : Type := mkQuery { conditions : list condition; values : list param }.

(** parseBool of the handler. *)
Definition parseBool (val : option string) : option bool :=
  match val with
  | Some v =>
      if String.eqb v "true" then Some true
      else if String.eqb v "false" then Some false
      else None
  | None => None
  end.

(** addBoolCondition of the handler. *)
Definition addBoolCondition (column : string) (queryVal : option string) (q : Query)
  : Query :=
  match parseBool queryVal with
  | Some parsed =>
      mkQuery (conditions q ++ [ColumnEq column (List.length (values q) + 1)])
        (values q ++ [PBool parsed])
  | None => q
  end.

(** [req.query] of GET /api/restaurants: each parameter a string or
    missing. *)
Record RestaurantFilter : Type := mkFilter
  { q_name : option string;
    q_english_speaking : option string;
    q_vegan : option string;
    q_vegetarian : option string;
    q_no_pork : option string;
    q_halal : option string;
    q_no_beef : option string;
    q_gluten_free : option string;
    q_allows_foreigners : option string;
    q_minLat : option string;
    q_maxLat : option string;
    q_minLon : option string;
    q_maxLon : option string }.

(** Step A: the bounding box, when all four corners are numbers. *)
Definition add_envelope (f : RestaurantFilter) (q : Query) : Query :=
  let minLatF := parseFloat (q_minLat f) in
  let maxLatF := parseFloat (q_maxLat f) in
  let minLonF := parseFloat (q_minLon f) in
  let maxLonF := parseFloat (q_maxLon f) in
  if negb (isNaN minLatF) && negb (isNaN maxLatF)
     && negb (isNaN minLonF) && negb (isNaN maxLonF)
  then
    let n := List.length (values q) in
    mkQuery (conditions q ++ [Envelope (n + 1) (n + 2) (n + 3) (n + 4)])
      (values q ++ [PFloat minLonF; PFloat minLatF; PFloat maxLonF; PFloat maxLatF])
  else q.

(** Step B: the partial name match. *)
Definition add_name (f : RestaurantFilter) (q : Query) : Query :=
  if truthy (q_name f)
  then mkQuery (conditions q ++ [NameILike (List.length (values q) + 1)])
         (values q ++ [PText ("%" ++ str (q_name f) ++ "%")])
  else q.

(** The conditions and values GET /api/restaurants passes to the store;
    the statement has a WHERE clause, the conditions joined by AND, exactly
    when there is a condition. *)
Definition restaurants_query (f : RestaurantFilter) : Query :=
  let q0 := mkQuery [] [] in
  let q1 := add_envelope f q0 in
  let q2 := add_name f q1 in
  let q3 := addBoolCondition "english_speaking" (q_english_speaking f) q2 in
  let q4 := addBoolCondition "vegan" (q_vegan f) q3 in
  let q5 := addBoolCondition "vegetarian" (q_vegetarian f) q4 in
  let q6 := addBoolCondition "no_pork" (q_no_pork f) q5 in
  let q7 := addBoolCondition "halal" (q_halal f) q6 in
  let q8 := addBoolCondition "no_beef" (q_no_beef f) q7 in
  let q9 := addBoolCondition "gluten_free" (q_gluten_free f) q8 in
  addBoolCondition "allows_foreigners" (q_allows_foreigners f) q9.

(** The placeholder numbers of a condition, in the order of the text. *)
Definition placeholders (c : condition) : list nat :=
  match c with
  | Envelope a b c d => [a; b; c; d]
  | NameILike k => [k]
  | ColumnEq _ k => [k]
  end.

(** The value bound to placeholder [$k]. *)
Definition bound (vals : list param) (k : nat) : option param :=
  match k with
  | O => None
  | S i => nth_error vals i
  end.

Definition is_float (p : option param) : bool :=
  match p with Some (PFloat _) => true | _ => false end.
Definition is_text (p : option param) : bool :=
  match p with Some (PText _) => true | _ => false end.
Definition is_bool (p : option param) : bool :=
  match p with Some (PBool _) => true | _ => false end.

(** A condition finds values of the kind it compares with. *)
Definition well_bound (vals : list param) (c : condition) : bool :=
  match c with
  | Envelope a b c d =>
      is_float (bound vals a) && is_float (bound vals b)
      && is_float (bound vals c) && is_float (bound vals d)
  | NameILike k => is_text (bound vals k)
  | ColumnEq _ k => is_bool (bound vals k)
  end.

(** Query strings that differ only in parameters the handler does not read,
    said on the texts themselves.  A flag is read when it is the text true
    or the text false. *)
Definition unread_flag (v : option string) : Prop :=
  v <> Some "true" /\ v <> Some "false".

Definition same_flag (v w : option string) : Prop :=
  v = w \/ (unread_flag v /\ unread_flag w).

(** A name is read when it is present and not empty. *)
Definition unread_name (v : option string) : Prop :=
  v = None \/ v = Some EmptyString.

Definition same_name (v w : option string) : Prop :=
  v = w \/ (unread_name v /\ unread_name w).

Definition is_letter (c : ascii) : bool :=
  let n := Z.of_nat (nat_of_ascii c) in
  ((65 <=? n) && (n <=? 90)) || ((97 <=? n) && (n <=? 122)).

(** Corners that are no number: missing, empty, or a text that begins with
    a letter other than the I of Infinity. *)
Definition no_number (v : option string) : Prop :=
  v = None \/ v = Some EmptyString
  \/ exists c r, v = Some (String c r) /\ is_letter c = true /\ c <> "I"%char.

Definition no_box (f : RestaurantFilter) : Prop :=
  no_number (q_minLat f) \/ no_number (q_maxLat f)
  \/ no_number (q_minLon f) \/ no_number (q_maxLon f).

Definition same_box (f g : RestaurantFilter) : Prop :=
  (q_minLat f = q_minLat g /\ q_maxLat f = q_maxLat g
   /\ q_minLon f = q_minLon g /\ q_maxLon f = q_maxLon g)
  \/ (no_box f /\ no_box g).

Definition same_conditions (f g : RestaurantFilter) : Prop :=
  same_box f g
  /\ same_name (q_name f) (q_name g)
  /\ same_flag (q_english_speaking f) (q_english_speaking g)
  /\ same_flag (q_vegan f) (q_vegan g)
  /\ same_flag (q_vegetarian f) (q_vegetarian g)
  /\ same_flag (q_no_pork f) (q_no_pork g)
  /\ same_flag (q_halal f) (q_halal g)
  /\ same_flag (q_no_beef f) (q_no_beef g)
  /\ same_flag (q_gluten_free f) (q_gluten_free g)
  /\ same_flag (q_allows_foreigners f) (q_allows_foreigners g).

Definition no_filter : RestaurantFilter :=
  mkFilter None None None None None None None None None None None None None.

(** A query string whose parameters are all of the unread kind. *)
Definition unread_filter : RestaurantFilter :=
  mkFilter (Some EmptyString) (Some "TRUE") (Some "1") None (Some "yes") None None None
    (Some "True") (Some "37.4") (Some "north") None (Some "126.7").

(** What every step of the builder keeps: the placeholders of the
    conditions, read in order, are 1, 2, ..., up to the number of values,
    and each condition is bound to values of its kind. *)
Definition well_numbered (q : Query) : Prop :=
  flat_map placeholders (conditions q) = seq 1 (List.length (values q))
  /\ forallb (well_bound (values q)) (conditions q) = true.

(** A site for the concrete runs: users 1 (user), 3 (moderator) and 4
    (admin), post 7 and comment 5 on it, both by user 1. *)
Definition sample_member (id : Z) (name newRole : string) : Forum.Member :=
  Forum.mkMember id name (Some ("hash:" ++ name)) newRole
    None None None None None None None None None (Some true).

Definition sample_site : Forum.Site :=
  Forum.mkSite
    [sample_member 1 "alice" "user"; sample_member 2 "bob" "user";
     sample_member 3 "carol" "moderator"; sample_member 4 "dan" "admin"]
    5
    [Forum.mkArticle 7 (Some "Kimbap") (Some "Where to eat") 1 None 0 0
       "2025-03-01T08:00:00.000Z"] 8
    [mkComment 5 7 1 "first" "2025-03-01T09:00:00.000Z"] 6.

(** Defaults for the concrete runs: no default for [visible_to_others],
    counters from 0, and the time of the request. *)
Definition sample_defaults : Forum.Defaults :=
  Forum.mkDefaults None 0 0 "2025-03-02T10:00:00.000Z".

(** A password check for the concrete runs, matching [sample_hash]. *)
Definition sample_compare (password : string) (hash : option string) : option bool :=
  match hash with
  | Some h => Some (String.eqb h ("hash:" ++ password))
  | None => None
  end.

Definition quiet_profile : Forum.ProfileBody :=
  Forum.mkProfileBody (Some "Alice") None None (Some ["KR"]) None None None None None
    (Some false).

(** Two geocoder documents for the concrete runs: one with a road address,
    one with the generic address only. *)
Definition road_doc : KakaoDoc :=
  mkKakaoDoc
    (Some (mkKakaoAddress (Some "Incheon") (Some "Namdong-gu") (Some "Nonhyeon-dong")
             (Some "21657") (Some "Nonhyeon-ro") (Some "12")
             (Some "126.7") (Some "37.4")))
    (Some (mkKakaoAddress (Some "Incheon") (Some "Namdong-gu") (Some "Nonhyeon-dong")
             None None None (Some "126.7") (Some "37.4"))).

Definition plain_doc : KakaoDoc :=
  mkKakaoDoc None
    (Some (mkKakaoAddress (Some "Seoul") (Some "Jung-gu") (Some "Myeong-dong")
             None None None (Some "126.9") (Some "37.5"))).

(** * Properties *)

(** ** Lists and tables *)

Lemma filter_update_where {A : Type} (w : A -> bool) (f : A -> A) (l : list A) :
  (forall a, w (f a) = w a) ->
  filter w (update_where w f l) = map f (filter w l).
Proof.
  intros Hw. unfold update_where.
  induction l as [|a l IH]; simpl; [reflexivity|].
  destruct (w a) eqn:Ha.
  - rewrite Hw, Ha. simpl. now rewrite IH.
  - rewrite Ha. exact IH.
Qed.

Lemma update_where_none {A : Type} (w : A -> bool) (f : A -> A) (l : list A) :
  filter w l = [] -> update_where w f l = l.
Proof.
  unfold update_where.
  induction l as [|a l IH]; simpl; [reflexivity|].
  destruct (w a); [discriminate|].
  intros H. now rewrite IH.
Qed.

Lemma existsb_filter_nil {A : Type} (w : A -> bool) (l : list A) :
  existsb w l = false <-> filter w l = [].
Proof.
  induction l as [|a l IH]; simpl; [tauto|].
  destruct (w a); simpl; [split; discriminate|exact IH].
Qed.

Lemma count_votes_cons dir q v l :
  count_votes dir q (v :: l)
  = (if counts_as dir q v then 1 else 0) + count_votes dir q l.
Proof.
  unfold count_votes. simpl. destruct (counts_as dir q v); simpl List.length; lia.
Qed.

Lemma count_votes_nil dir q : count_votes dir q [] = 0.
Proof. reflexivity. Qed.

Lemma count_votes_app dir q l v :
  count_votes dir q (l ++ [v])
  = count_votes dir q l + (if counts_as dir q v then 1 else 0).
Proof.
  induction l as [|a l IH].
  - simpl app. rewrite count_votes_cons, !count_votes_nil. lia.
  - simpl app. rewrite !count_votes_cons, IH. lia.
Qed.

(** Rewriting the direction of the one row of a pair moves one unit of
    count from the old direction to the new one. *)
Lemma count_votes_switch dir q u p v e rest l :
  unique_pairs l = true ->
  map vote_type (filter (same_pair u p) l) = e :: rest ->
  count_votes dir q (update_where (same_pair u p) (with_vote_type v) l)
  = count_votes dir q l
    - (if (p =? q) && (e =? dir) then 1 else 0)
    + (if (p =? q) && (v =? dir) then 1 else 0).
Proof.
  induction l as [|a l IH]; simpl; [discriminate|].
  intros Hu Hf. apply andb_true_iff in Hu. destruct Hu as [Ha Hu].
  change (map (fun r => if same_pair u p r then with_vote_type v r else r) l)
    with (update_where (same_pair u p) (with_vote_type v) l).
  destruct (same_pair u p a) eqn:Hk.
  - simpl in Hf. injection Hf as He _.
    unfold same_pair in Hk. apply andb_true_iff in Hk. destruct Hk as [Hku Hkp].
    apply Z.eqb_eq in Hku. apply Z.eqb_eq in Hkp.
    rewrite Hku, Hkp in Ha. apply negb_true_iff in Ha.
    apply existsb_filter_nil in Ha.
    rewrite (update_where_none _ _ _ Ha).
    rewrite !count_votes_cons. unfold counts_as, with_vote_type. simpl.
    rewrite He, Hkp.
    generalize (count_votes dir q l). intros n.
    destruct (p =? q), (e =? dir), (v =? dir); cbn [andb]; lia.
  - rewrite !count_votes_cons. rewrite (IH Hu Hf). lia.
Qed.

Lemma unique_pairs_app l u p v :
  unique_pairs l = true ->
  filter (same_pair u p) l = [] ->
  unique_pairs (l ++ [mkVote u p v]) = true.
Proof.
  induction l as [|a l IH]; simpl; [reflexivity|].
  intros Hu Hf. apply andb_true_iff in Hu. destruct Hu as [Ha Hu].
  destruct (same_pair u p a) eqn:Hk; [discriminate|].
  rewrite (IH Hu Hf), andb_true_r.
  rewrite existsb_app. simpl. rewrite orb_false_r.
  apply negb_true_iff in Ha. rewrite Ha. simpl.
  unfold same_pair in *. simpl.
  rewrite (Z.eqb_sym u), (Z.eqb_sym p). now rewrite Hk.
Qed.

Lemma existsb_same_pair_update a b u p v l :
  existsb (same_pair a b) (update_where (same_pair u p) (with_vote_type v) l)
  = existsb (same_pair a b) l.
Proof.
  unfold update_where.
  induction l as [|x l IH]; simpl; [reflexivity|].
  rewrite IH. destruct (same_pair u p x); reflexivity.
Qed.

Lemma unique_pairs_update u p v l :
  unique_pairs l = true ->
  unique_pairs (update_where (same_pair u p) (with_vote_type v) l) = true.
Proof.
  induction l as [|x l IH]; simpl; [reflexivity|].
  intros Hu. apply andb_true_iff in Hu. destruct Hu as [Ha Hu].
  change (map (fun r => if same_pair u p r then with_vote_type v r else r) l)
    with (update_where (same_pair u p) (with_vote_type v) l).
  rewrite (IH Hu), andb_true_r.
  assert (Hx : vote_user (if same_pair u p x then with_vote_type v x else x) = vote_user x
               /\ vote_post (if same_pair u p x then with_vote_type v x else x) = vote_post x)
    by (destruct (same_pair u p x); split; reflexivity).
  destruct Hx as [-> ->].
  now rewrite existsb_same_pair_update.
Qed.

Lemma directions_app l r :
  forallb direction_ok l = true -> direction_ok r = true ->
  forallb direction_ok (l ++ [r]) = true.
Proof.
  intros Hl Hr. rewrite forallb_app, Hl. simpl. now rewrite Hr.
Qed.

Lemma directions_update u p v l :
  forallb direction_ok l = true -> (v = 1 \/ v = -1) ->
  forallb direction_ok (update_where (same_pair u p) (with_vote_type v) l) = true.
Proof.
  intros Hl Hv. unfold update_where.
  induction l as [|x l IH]; simpl; [reflexivity|].
  simpl in Hl. apply andb_true_iff in Hl. destruct Hl as [Hx Hl].
  rewrite (IH Hl), andb_true_r.
  destruct (same_pair u p x); [|exact Hx].
  unfold direction_ok, with_vote_type. simpl.
  destruct Hv as [-> | ->]; reflexivity.
Qed.

(** The direction of the first row of a pair in a well-formed ledger. *)
Lemma first_direction u p e rest l :
  forallb direction_ok l = true ->
  map vote_type (filter (same_pair u p) l) = e :: rest ->
  e = 1 \/ e = -1.
Proof.
  intros Hl Hf.
  destruct (filter (same_pair u p) l) as [|x xs] eqn:Hx; [discriminate|].
  injection Hf as He _.
  assert (Hin : In x (filter (same_pair u p) l)) by (rewrite Hx; now left).
  apply filter_In in Hin. destruct Hin as [Hin _].
  rewrite forallb_forall in Hl. specialize (Hl x Hin).
  unfold direction_ok in Hl. apply orb_true_iff in Hl.
  rewrite !Z.eqb_eq in Hl. now rewrite <- He.
Qed.

(** ** The vote endpoints, statement by statement *)

Lemma upvote_never u id P c :
  parseInt id = Some P -> P <> 0 -> snap c = None ->
  serve never (Auth.upvote u id) c =
  match filter (is_post P) (posts (cur c)) with
  | [] => (Some (res_status_json 404 (message "Post not found")), c, 1%nat)
  | post :: _ =>
      match map vote_type (filter (same_pair (userId u) P) (post_votes (cur c))) with
      | [] =>
          (Some (ok_json [("success", JBool true);
                          ("upvotes", JNum (upvotes post + 1));
                          ("message", JStr "Upvoted!")]),
           idle (write_both (post_votes (cur c) ++ [mkVote (userId u) P 1])
                   (update_where (is_post P) (with_upvotes (upvotes post + 1))
                      (posts (cur c)))
                   (cur c)),
           6%nat)
      | e :: _ =>
          if e =? 1
          then (Some (ok_json [("success", JBool false);
                               ("message", JStr "Already upvoted this post.")]),
                c, 2%nat)
          else
            (Some (ok_json [("success", JBool true);
                            ("upvotes", JNum (upvotes post + 1));
                            ("downvotes", JNum (downvotes post - 1));
                            ("message", JStr "Changed vote to upvote.")]),
             idle (write_both
                     (update_where (same_pair (userId u) P) (with_vote_type 1)
                        (post_votes (cur c)))
                     (update_where (is_post P)
                        (fun p => with_downvotes (downvotes post - 1)
                                    (with_upvotes (upvotes post + 1) p))
                        (posts (cur c)))
                     (cur c)),
             6%nat)
      end
  end.
Proof.
  intros HP HP0 Hs. destruct c as [d sn]. simpl in Hs. subst sn.
  unfold serve, Auth.upvote. rewrite HP.
  apply Z.eqb_neq in HP0. rewrite HP0.
  cbn -[filter update_where Z.add Z.sub Z.eqb].
  destruct (filter (is_post P) (posts d)) as [|post ps]; [reflexivity|].
  cbn -[filter update_where Z.add Z.sub Z.eqb].
  destruct (map vote_type (filter (same_pair (userId u) P) (post_votes d))) as [|e es];
    [reflexivity|].
  cbn -[filter update_where Z.add Z.sub Z.eqb].
  destruct (e =? 1); reflexivity.
Qed.

Lemma downvote_never u id P c :
  parseInt id = Some P -> P <> 0 -> snap c = None ->
  serve never (Auth.downvote u id) c =
  match filter (is_post P) (posts (cur c)) with
  | [] => (Some (res_status_json 404 (message "Post not found")), c, 1%nat)
  | post :: _ =>
      match map vote_type (filter (same_pair (userId u) P) (post_votes (cur c))) with
      | [] =>
          (Some (ok_json [("success", JBool true);
                          ("downvotes", JNum (downvotes post + 1));
                          ("message", JStr "Downvoted!")]),
           idle (write_both (post_votes (cur c) ++ [mkVote (userId u) P (-1)])
                   (update_where (is_post P) (with_downvotes (downvotes post + 1))
                      (posts (cur c)))
                   (cur c)),
           6%nat)
      | e :: _ =>
          if e =? -1
          then (Some (ok_json [("success", JBool false);
                               ("message", JStr "Already downvoted this post.")]),
                c, 2%nat)
          else
            (Some (ok_json [("success", JBool true);
                            ("upvotes", JNum (upvotes post - 1));
                            ("downvotes", JNum (downvotes post + 1));
                            ("message", JStr "Changed vote to downvote.")]),
             idle (write_both
                     (update_where (same_pair (userId u) P) (with_vote_type (-1))
                        (post_votes (cur c)))
                     (update_where (is_post P)
                        (fun p => with_downvotes (downvotes post + 1)
                                    (with_upvotes (upvotes post - 1) p))
                        (posts (cur c)))
                     (cur c)),
             6%nat)
      end
  end.
Proof.
  intros HP HP0 Hs. destruct c as [d sn]. simpl in Hs. subst sn.
  unfold serve, Auth.downvote. rewrite HP.
  apply Z.eqb_neq in HP0. rewrite HP0.
  cbn -[filter update_where Z.add Z.sub Z.eqb].
  destruct (filter (is_post P) (posts d)) as [|post ps]; [reflexivity|].
  cbn -[filter update_where Z.add Z.sub Z.eqb].
  destruct (map vote_type (filter (same_pair (userId u) P) (post_votes d))) as [|e es];
    [reflexivity|].
  cbn -[filter update_where Z.add Z.sub Z.eqb].
  destruct (e =? -1); reflexivity.
Qed.

(** A path parameter that is not a post id is answered 400 before any
    statement is issued. *)
Lemma vote_invalid_id fails i u id c :
  (parseInt id = None \/ parseInt id = Some 0) ->
  serve fails (vote i u id) c
  = (Some (res_status_json 400 (message "Invalid post ID")), c, 0%nat).
Proof.
  intros [H | H]; destruct i; unfold serve, vote, Auth.upvote, Auth.downvote;
    rewrite H; reflexivity.
Qed.

Ltac split_run fails :=
  repeat (cbn -[filter update_where Z.add Z.sub Z.eqb];
          match goal with
          | |- context [fails ?n] =>
              lazymatch goal with
              | H : fails n = _ |- _ => rewrite H
              | _ => destruct (fails n) eqn:?
              end
          | |- context [match filter ?w ?l with _ => _ end] =>
              destruct (filter w l) eqn:?
          | |- context [match map ?f ?l with _ => _ end] =>
              destruct (map f l) eqn:?
          | |- context [if ?a =? ?b then _ else _] =>
              destruct (a =? b) eqn:?
          end).

Ltac all_accepted :=
  left; split;
  [ let k := fresh "k" in
    let Hk := fresh "Hk" in
    intros k Hk; cbn in Hk;
    do 6 (try (destruct k as [|k]; [assumption|])); lia
  | reflexivity ].

Ltac one_rejected :=
  right; split;
  [ eexists; split; [|eassumption]; cbn; lia
  | split; reflexivity ].

(** Whatever the store rejects, a vote request ends in one of two ways: no
    statement it issues is rejected and it runs as with a healthy store; or
    one is, and it answers 500 with the session exactly as it found it. *)
Lemma vote_outcome fails i u id c :
  snap c = None ->
  let r := serve fails (vote i u id) c in
  let r0 := serve never (vote i u id) c in
  ((forall k, (k < issued r0)%nat -> fails k = false) /\ r = r0)
  \/ ((exists k, (k < issued r0)%nat /\ fails k = true)
      /\ answer r = Some internal_error /\ session r = c).
Proof.
  intros Hs. destruct c as [d sn]. simpl in Hs. subst sn.
  destruct (parseInt id) as [P|] eqn:HP.
  2:{ cbv zeta. rewrite !vote_invalid_id by (left; exact HP).
      left. split; [cbn; intros; lia | reflexivity]. }
  destruct (Z.eqb_spec P 0) as [-> | HP0].
  { cbv zeta. rewrite !vote_invalid_id by (right; exact HP).
    left. split; [cbn; intros; lia | reflexivity]. }
  apply Z.eqb_neq in HP0.
  destruct i; unfold serve, vote, Auth.upvote, Auth.downvote, issued, answer, session;
    rewrite HP, HP0; cbv zeta; unfold never;
    split_run fails; first [all_accepted | one_rejected].
Qed.

(** ** Preservation of the invariant by the two writes of a vote *)

Lemma counters_match_iff votes p :
  counters_match votes p = true
  <-> upvotes p = count_votes 1 (post_id p) votes
      /\ downvotes p = count_votes (-1) (post_id p) votes.
Proof.
  unfold counters_match. rewrite andb_true_iff, !Z.eqb_eq. tauto.
Qed.

Lemma settled_idle d :
  settled (idle d) = true <-> ledger_ok d = true /\ consistent d = true.
Proof. unfold settled, idle. simpl. apply andb_true_iff. Qed.

Lemma settled_write d votes' f P post rest du dd :
  ledger_ok d = true -> consistent d = true ->
  filter (is_post P) (posts d) = post :: rest ->
  unique_pairs votes' = true -> forallb direction_ok votes' = true ->
  (forall q, q <> P ->
     count_votes 1 q votes' = count_votes 1 q (post_votes d)
     /\ count_votes (-1) q votes' = count_votes (-1) q (post_votes d)) ->
  count_votes 1 P votes' = count_votes 1 P (post_votes d) + du ->
  count_votes (-1) P votes' = count_votes (-1) P (post_votes d) + dd ->
  (forall p, post_id p = P -> upvotes p = upvotes post -> downvotes p = downvotes post ->
     post_id (f p) = P /\ upvotes (f p) = upvotes post + du
     /\ downvotes (f p) = downvotes post + dd) ->
  settled (idle (write_both votes' (update_where (is_post P) f (posts d)) d)) = true.
Proof.
  intros _ Hc Hpost Hu Hd Hother Hup Hdown Hf.
  apply settled_idle. split.
  - unfold ledger_ok, write_both. simpl. now rewrite Hu, Hd.
  - unfold consistent in *. unfold write_both. simpl.
    rewrite forallb_forall in Hc. apply forallb_forall.
    assert (Hin : In post (posts d)).
    { assert (H : In post (filter (is_post P) (posts d))) by (rewrite Hpost; now left).
      apply filter_In in H. tauto. }
    assert (HidP : post_id post = P).
    { assert (H : In post (filter (is_post P) (posts d))) by (rewrite Hpost; now left).
      apply filter_In in H. destruct H as [_ H]. now apply Z.eqb_eq in H. }
    pose proof (proj1 (counters_match_iff _ _) (Hc post Hin)) as [Hpu Hpd].
    rewrite HidP in Hpu, Hpd.
    intros y Hy. unfold update_where in Hy. apply in_map_iff in Hy.
    destruct Hy as [p [<- Hp]].
    pose proof (proj1 (counters_match_iff _ _) (Hc p Hp)) as [Hu1 Hd1].
    apply counters_match_iff.
    unfold is_post. destruct (Z.eqb_spec (post_id p) P) as [Heq | Hne].
    + rewrite Heq in Hu1, Hd1.
      destruct (Hf p Heq) as [Hfid [Hfu Hfd]]; [lia | lia |].
      rewrite Hfid, Hfu, Hfd. lia.
    + destruct (Hother (post_id p) Hne) as [H1 H2]. lia.
Qed.

Lemma no_row_filter u P l :
  map vote_type (filter (same_pair u P) l) = [] -> filter (same_pair u P) l = [].
Proof. destruct (filter (same_pair u P) l); [reflexivity | discriminate]. Qed.

Lemma ledger_ok_parts d :
  ledger_ok d = true ->
  unique_pairs (post_votes d) = true /\ forallb direction_ok (post_votes d) = true.
Proof. unfold ledger_ok. apply andb_true_iff. Qed.

(** no entry | UP and no entry | DOWN *)
Lemma settled_first_vote d u P post rest (up : bool) :
  ledger_ok d = true -> consistent d = true ->
  filter (is_post P) (posts d) = post :: rest ->
  map vote_type (filter (same_pair u P) (post_votes d)) = [] ->
  settled (idle (write_both
                   (post_votes d ++ [mkVote u P (if up then 1 else -1)])
                   (update_where (is_post P)
                      (if up then with_upvotes (upvotes post + 1)
                       else with_downvotes (downvotes post + 1))
                      (posts d))
                   d)) = true.
Proof.
  intros Hl Hc Hpost Hnone.
  destruct (ledger_ok_parts d Hl) as [Hu Hd].
  apply no_row_filter in Hnone.
  apply (settled_write d _ _ P post rest (if up then 1 else 0) (if up then 0 else 1));
    try assumption.
  - now apply unique_pairs_app.
  - apply directions_app; [assumption | destruct up; reflexivity].
  - intros q Hq. rewrite !count_votes_app. unfold counts_as. simpl.
    apply Z.eqb_neq in Hq. rewrite (Z.eqb_sym P q), Hq. simpl. lia.
  - rewrite count_votes_app. unfold counts_as. simpl. rewrite Z.eqb_refl.
    destruct up; simpl; lia.
  - rewrite count_votes_app. unfold counts_as. simpl. rewrite Z.eqb_refl.
    destruct up; simpl; lia.
  - intros p Hid Hpu Hpd. destruct up; simpl; lia.
Qed.

(** entry = -1 | UP and entry = +1 | DOWN *)
Lemma settled_switch d u P post rest e es (up : bool) :
  ledger_ok d = true -> consistent d = true ->
  filter (is_post P) (posts d) = post :: rest ->
  map vote_type (filter (same_pair u P) (post_votes d)) = e :: es ->
  (e =? (if up then 1 else -1)) = false ->
  settled (idle (write_both
                   (update_where (same_pair u P) (with_vote_type (if up then 1 else -1))
                      (post_votes d))
                   (update_where (is_post P)
                      (fun p =>
                         with_downvotes (if up then downvotes post - 1 else downvotes post + 1)
                           (with_upvotes (if up then upvotes post + 1 else upvotes post - 1) p))
                      (posts d))
                   d)) = true.
Proof.
  intros Hl Hc Hpost Hrow Hne.
  destruct (ledger_ok_parts d Hl) as [Hu Hd].
  pose proof (first_direction _ _ _ _ _ Hd Hrow) as He.
  apply Z.eqb_neq in Hne.
  apply (settled_write d _ _ P post rest (if up then 1 else -1) (if up then -1 else 1));
    try assumption.
  - now apply unique_pairs_update.
  - apply directions_update; [assumption | destruct up; tauto].
  - intros q Hq. rewrite !(count_votes_switch _ q u P _ e es _ Hu Hrow).
    apply Z.eqb_neq in Hq. rewrite (Z.eqb_sym P q), Hq. simpl. lia.
  - rewrite (count_votes_switch _ P u P _ e es _ Hu Hrow). rewrite Z.eqb_refl.
    destruct up, He as [-> | ->]; simpl; try lia; contradiction.
  - rewrite (count_votes_switch _ P u P _ e es _ Hu Hrow). rewrite Z.eqb_refl.
    destruct up, He as [-> | ->]; simpl; try lia; contradiction.
  - intros p Hid Hpu Hpd. destruct up; simpl; lia.
Qed.

Lemma settled_parts c :
  settled c = true ->
  snap c = None /\ ledger_ok (cur c) = true /\ consistent (cur c) = true.
Proof.
  unfold settled. destruct (snap c); [discriminate|].
  rewrite andb_true_iff. tauto.
Qed.

(** A vote request of the ledger variant, whatever the store rejects during
    it, takes a settled session to a settled session. *)
Lemma vote_settled fails i u id c :
  settled c = true ->
  settled (session (serve fails (vote i u id) c)) = true.
Proof.
  intros Hc. destruct (settled_parts c Hc) as [Hs [Hl Hcons]].
  destruct (vote_outcome fails i u id c Hs) as [[_ Hr] | [_ [_ Hr]]];
    [|now rewrite Hr].
  rewrite Hr. clear Hr.
  destruct (parseInt id) as [P|] eqn:HP.
  2:{ now rewrite vote_invalid_id by (left; exact HP). }
  destruct (Z.eqb_spec P 0) as [-> | HP0].
  { now rewrite vote_invalid_id by (right; exact HP). }
  destruct i; unfold vote.
  - rewrite (upvote_never u id P c HP HP0 Hs).
    destruct (filter (is_post P) (posts (cur c))) as [|post rest] eqn:Hpost; [exact Hc|].
    destruct (map vote_type (filter (same_pair (userId u) P) (post_votes (cur c))))
      as [|e es] eqn:Hrow.
    + exact (settled_first_vote (cur c) (userId u) P post rest true Hl Hcons Hpost Hrow).
    + destruct (e =? 1) eqn:He; [exact Hc|].
      exact (settled_switch (cur c) (userId u) P post rest e es true Hl Hcons Hpost Hrow He).
  - rewrite (downvote_never u id P c HP HP0 Hs).
    destruct (filter (is_post P) (posts (cur c))) as [|post rest] eqn:Hpost; [exact Hc|].
    destruct (map vote_type (filter (same_pair (userId u) P) (post_votes (cur c))))
      as [|e es] eqn:Hrow.
    + exact (settled_first_vote (cur c) (userId u) P post rest false Hl Hcons Hpost Hrow).
    + destruct (e =? -1) eqn:He; [exact Hc|].
      exact (settled_switch (cur c) (userId u) P post rest e es false Hl Hcons Hpost Hrow He).
Qed.

Lemma serve_all_settled calls c :
  settled c = true -> settled (serve_all calls c) = true.
Proof.
  revert c. induction calls as [|k calls IH]; intros c Hc; simpl; [exact Hc|].
  apply IH. unfold serve_call. now apply vote_settled.
Qed.

Lemma app_one_neq {A : Type} (l : list A) (a : A) : (l ++ [a])%list <> l.
Proof.
  intros H. apply (f_equal (@List.length A)) in H.
  rewrite length_app in H. simpl in H. lia.
Qed.

Lemma update_where_changes {A : Type} (w : A -> bool) (f : A -> A) a r l :
  filter w l = a :: r -> f a <> a -> update_where w f l <> l.
Proof.
  unfold update_where.
  induction l as [|b l IH]; simpl; [discriminate|].
  destruct (w b) eqn:Hb.
  - intros Hf Hne Heq. injection Hf as -> _. injection Heq as Heq _. contradiction.
  - intros Hf Hne Heq. injection Heq as Heq. exact (IH Hf Hne Heq).
Qed.

Lemma first_row_vote_type u P e es l :
  map vote_type (filter (same_pair u P) l) = e :: es ->
  exists v vs, filter (same_pair u P) l = v :: vs /\ vote_type v = e.
Proof.
  destruct (filter (same_pair u P) l) as [|v vs]; [discriminate|].
  simpl. intros H. injection H as He _. now exists v, vs.
Qed.

(** In a healthy run a vote request either leaves the session alone or
    rewrites both the ledger and the counters. *)
Lemma vote_writes_both_or_none i u id c :
  snap c = None ->
  let r0 := serve never (vote i u id) c in
  session r0 = c
  \/ exists votes' posts',
       session r0 = idle (write_both votes' posts' (cur c))
       /\ votes' <> post_votes (cur c) /\ posts' <> posts (cur c).
Proof.
  intros Hs. cbv zeta.
  destruct (parseInt id) as [P|] eqn:HP.
  2:{ left. now rewrite vote_invalid_id by (left; exact HP). }
  destruct (Z.eqb_spec P 0) as [-> | HP0].
  { left. now rewrite vote_invalid_id by (right; exact HP). }
  destruct i; unfold vote.
  - rewrite (upvote_never u id P c HP HP0 Hs).
    destruct (filter (is_post P) (posts (cur c))) as [|post rest] eqn:Hpost;
      [now left|].
    destruct (map vote_type (filter (same_pair (userId u) P) (post_votes (cur c))))
      as [|e es] eqn:Hrow.
    + right. eexists. eexists. split; [reflexivity|]. split.
      * apply app_one_neq.
      * apply (update_where_changes _ _ post rest _ Hpost).
        destruct post. unfold with_upvotes. simpl. intros H. injection H. lia.
    + destruct (Z.eqb_spec e 1) as [He | He]; [now left|].
      right. eexists. eexists. split; [reflexivity|]. split.
      * destruct (first_row_vote_type _ _ _ _ _ Hrow) as [v [vs [Hv Hev]]].
        apply (update_where_changes _ _ v vs _ Hv).
        destruct v. unfold with_vote_type. simpl in *. intros H. injection H. lia.
      * apply (update_where_changes _ _ post rest _ Hpost).
        destruct post. unfold with_upvotes, with_downvotes. simpl.
        intros H. injection H. lia.
  - rewrite (downvote_never u id P c HP HP0 Hs).
    destruct (filter (is_post P) (posts (cur c))) as [|post rest] eqn:Hpost;
      [now left|].
    destruct (map vote_type (filter (same_pair (userId u) P) (post_votes (cur c))))
      as [|e es] eqn:Hrow.
    + right. eexists. eexists. split; [reflexivity|]. split.
      * apply app_one_neq.
      * apply (update_where_changes _ _ post rest _ Hpost).
        destruct post. unfold with_downvotes. simpl. intros H. injection H. lia.
    + destruct (Z.eqb_spec e (-1)) as [He | He]; [now left|].
      right. eexists. eexists. split; [reflexivity|]. split.
      * destruct (first_row_vote_type _ _ _ _ _ Hrow) as [v [vs [Hv Hev]]].
        apply (update_where_changes _ _ v vs _ Hv).
        destruct v. unfold with_vote_type. simpl in *. intros H. injection H. lia.
      * apply (update_where_changes _ _ post rest _ Hpost).
        destruct post. unfold with_upvotes, with_downvotes. simpl.
        intros H. injection H. lia.
Qed.

(** * The claims *)

(** C1, as stated, fails on the counter-only variant: its upvote increments
    the counter of post 7 to 1 and writes no ledger row, so the counter no
    longer equals the number of +1 rows of the post (0). *)
Lemma counter_only_upvote_drifts :
  let r := serve never (Plain.upvote 7) (idle fresh_post_db) in
  settled (idle fresh_post_db) = true
  /\ answer r = Some (ok_json [("upvotes", JNum 1)])
  /\ map upvotes (posts (cur (session r))) = [1]
  /\ count_votes 1 7 (post_votes (cur (session r))) = 0
  /\ consistent (cur (session r)) = false.
Proof. vm_compute. repeat split; reflexivity. Qed.

(** C1 (amended): in the ledger variant, when requests are served one after
    the other from a settled state (no open transaction, at most one ledger
    row per (user, post) with direction +1 or -1, counters equal to the
    ledger counts), then after every completed upvote or downvote call,
    whatever statements the store rejected on the way, every post's
    [upvotes] equals the number of its ledger rows with direction +1 and its
    [downvotes] the number with direction -1. *)
Theorem ledger_variant_counters_equal_ledger calls c p :
  settled c = true ->
  let c' := serve_all calls c in
  In p (posts (cur c')) ->
  upvotes p = count_votes 1 (post_id p) (post_votes (cur c'))
  /\ downvotes p = count_votes (-1) (post_id p) (post_votes (cur c')).
Proof.
  intros Hc c' Hp.
  pose proof (serve_all_settled calls c Hc) as Hs. fold c' in Hs.
  destruct (settled_parts c' Hs) as [_ [_ Hcons]].
  unfold consistent in Hcons. rewrite forallb_forall in Hcons.
  now apply counters_match_iff, Hcons.
Qed.

Lemma ledger_variant_counters_equal_ledger_witness :
  let calls := [mkCall UP alice "7" never;
                mkCall DOWN bob "7" (fun k => Nat.eqb k 3);
                mkCall DOWN alice "7" never] in
  let c' := serve_all calls (idle fresh_post_db) in
  posts (cur c') = [mkPost 7 1 0 1]
  /\ upvotes (mkPost 7 1 0 1) = count_votes 1 7 (post_votes (cur c'))
  /\ downvotes (mkPost 7 1 0 1) = count_votes (-1) 7 (post_votes (cur c')).
Proof.
  split; [reflexivity|].
  apply (ledger_variant_counters_equal_ledger
           [mkCall UP alice "7" never;
            mkCall DOWN bob "7" (fun k => Nat.eqb k 3);
            mkCall DOWN alice "7" never]
           (idle fresh_post_db) (mkPost 7 1 0 1)).
  - reflexivity.
  - vm_compute. left. reflexivity.
Defined.

(** A vote request served on its own, no statement of another request
    reaching the connection meanwhile: for every user, intent and path
    parameter, from a session with no open transaction, either none of its
    statements is rejected, and then it leaves the tables alone or rewrites
    the ledger and the counters together; or one of its statements is
    rejected, and then it answers 500 and the ledger and the counters are
    exactly as before the request. *)
Theorem vote_unit_is_atomic fails i u id c :
  snap c = None ->
  let r := serve fails (vote i u id) c in
  let r0 := serve never (vote i u id) c in
  ((forall k, (k < issued r0)%nat -> fails k = false)
   /\ r = r0
   /\ (session r = c
       \/ exists votes' posts',
            session r = idle (write_both votes' posts' (cur c))
            /\ votes' <> post_votes (cur c) /\ posts' <> posts (cur c)))
  \/ ((exists k, (k < issued r0)%nat /\ fails k = true)
      /\ answer r = Some internal_error /\ session r = c).
Proof.
  intros Hs r r0.
  destruct (vote_outcome fails i u id c Hs) as [[Hk Hr] | H]; [left | right; exact H].
  split; [exact Hk|]. split; [exact Hr|].
  fold r in Hr. rewrite Hr. exact (vote_writes_both_or_none i u id c Hs).
Qed.

Lemma vote_unit_is_atomic_witness :
  let fails := fun k => Nat.eqb k 4 in
  let r := serve fails (vote UP alice "7") (idle fresh_post_db) in
  (exists k, (k < 6)%nat /\ fails k = true)
  /\ answer r = Some internal_error /\ session r = idle fresh_post_db.
Proof.
  destruct (vote_unit_is_atomic (fun k => Nat.eqb k 4) UP alice "7" (idle fresh_post_db)
              eq_refl) as [[Hk _] | H].
  - specialize (Hk 4%nat). vm_compute in Hk. discriminate Hk. lia.
  - exact H.
Defined.

Lemma interleave_with_never {A : Type} sched :
  forall i (a b : Prog A) c,
    interleave_with never i sched a b c = interleave sched a b c.
Proof.
  induction sched as [|w sched IH]; intros i a b c; [reflexivity|].
  destruct w; simpl.
  - assert (H : step_with false a c = step a c).
    { destruct a as [x| |R q k]; try reflexivity.
      unfold step_with, step. now rewrite andb_false_r. }
    unfold never at 1. rewrite H. destruct (step a c). apply IH.
  - assert (H : step_with false b c = step b c).
    { destruct b as [x| |R q k]; try reflexivity.
      unfold step_with, step. now rewrite andb_false_r. }
    unfold never at 1. rewrite H. destruct (step b c). apply IH.
Qed.

(** C3 fails on the code when requests overlap.  Every handler sends its
    statements to the one client of the process, so BEGIN, COMMIT and
    ROLLBACK of different requests act on the same transaction.  User 1
    upvotes post 7 and user 2 upvotes post 8, the second request one
    statement behind the first; the store rejects the counter update of the
    second request.  The COMMIT of the first request has by then committed
    the ledger row of the second, and the ROLLBACK of its catch block finds
    no transaction: the second request is answered 500 while the ledger row
    (2, 8, +1) stays, with the counter of post 8 at 0.  The session was
    settled before, and ledger and counters disagree after. *)
Theorem overlapping_failure_splits_the_vote :
  let fails := fun i => Nat.eqb i 10 in
  let '(ra, rb, c') :=
    interleave_with fails 0 one_behind (Auth.upvote alice "7") (Auth.upvote bob "8")
      (idle two_posts_db) in
  settled (idle two_posts_db) = true
  /\ finished ra = Some (ok_json [("success", JBool true); ("upvotes", JNum 1);
                                  ("message", JStr "Upvoted!")])
  /\ finished rb = Some internal_error
  /\ c' = idle (mkDB [mkPost 7 1 1 0; mkPost 8 1 0 0] [mkVote 1 7 1; mkVote 2 8 1]
                  [] 1 [] [] 1)
  /\ count_votes 1 8 (post_votes (cur c')) = 1
  /\ map upvotes (filter (is_post 8) (posts (cur c'))) = [0]
  /\ consistent (cur c') = false.
Proof. vm_compute. repeat split. Qed.

(** C8: when the geocoder's reply to POST /restaurants carries no documents
    (the property is missing, or the list is empty), the request is answered
    400 with the message of a client-input error, no statement is issued
    whatever the store would reject, and the session, and with it the
    restaurants table, is as before. *)
Theorem geocode_empty_is_400 fails name addr flags c :
  serve fails (post_restaurants (Some None) name addr flags) c
  = (Some (res_status_json 400 (message "Kakao: No results for that address")), c, 0%nat)
  /\ serve fails (post_restaurants (Some (Some [])) name addr flags) c
     = (Some (res_status_json 400 (message "Kakao: No results for that address")), c, 0%nat).
Proof. split; reflexivity. Qed.

(** C9 fails on the code: two upvotes by users 1 and 2 on the fresh post 7,
    whose statements take turns on the shared connection, both answer
    success with upvotes 1; the ledger ends with two +1 rows and the
    counter at 1.  Each handler reads the counters before BEGIN and writes
    back the absolute value it computed.  (Served one after the other, the
    same two requests leave the counter at 2.) *)
Theorem concurrent_upvotes_lose_an_update :
  (let '(a, b, c') :=
     interleave (turns 6) (Auth.upvote alice "7") (Auth.upvote bob "7")
       (idle fresh_post_db) in
   finished a = Some (ok_json [("success", JBool true); ("upvotes", JNum 1);
                               ("message", JStr "Upvoted!")])
   /\ finished b = Some (ok_json [("success", JBool true); ("upvotes", JNum 1);
                                  ("message", JStr "Upvoted!")])
   /\ post_votes (cur c') = [mkVote 1 7 1; mkVote 2 7 1]
   /\ posts (cur c') = [mkPost 7 1 1 0]
   /\ count_votes 1 7 (post_votes (cur c')) = 2
   /\ consistent (cur c') = false
   /\ snap c' = None)
  /\ (let '(a, b, c') :=
        interleave (repeat First 6 ++ repeat Second 6)
          (Auth.upvote alice "7") (Auth.upvote bob "7") (idle fresh_post_db) in
      finished a = Some (ok_json [("success", JBool true); ("upvotes", JNum 1);
                                  ("message", JStr "Upvoted!")])
      /\ finished b = Some (ok_json [("success", JBool true); ("upvotes", JNum 2);
                                     ("message", JStr "Upvoted!")])
      /\ posts (cur c') = [mkPost 7 1 2 0]).
Proof. vm_compute. repeat split; reflexivity. Qed.

(** ** The scenario on a fresh post *)

Lemma filter_same_pair u P l :
  filter (same_pair u P) l = filter (fun v => vote_user v =? u) (ledger_of P l).
Proof.
  unfold ledger_of, same_pair.
  induction l as [|v l IH]; simpl; [reflexivity|].
  destruct (vote_post v =? P); simpl.
  - rewrite andb_true_r. destruct (vote_user v =? u); now rewrite IH.
  - rewrite andb_false_r. exact IH.
Qed.

Lemma ledger_of_app P l l' :
  ledger_of P (l ++ l') = (ledger_of P l ++ ledger_of P l')%list.
Proof. apply filter_app. Qed.

Lemma ledger_of_update P u q v l :
  ledger_of P (update_where (same_pair u q) (with_vote_type v) l)
  = update_where (same_pair u q) (with_vote_type v) (ledger_of P l).
Proof.
  unfold ledger_of, update_where.
  induction l as [|x l IH]; simpl; [reflexivity|].
  destruct (same_pair u q x) eqn:Hx; simpl.
  - destruct (vote_post x =? P); simpl; [rewrite Hx|]; now rewrite IH.
  - destruct (vote_post x =? P); simpl; [rewrite Hx|]; now rewrite IH.
Qed.

Lemma first_post_after_update P f post rest l :
  (forall p, is_post P (f p) = is_post P p) ->
  filter (is_post P) l = post :: rest ->
  filter (is_post P) (update_where (is_post P) f l) = f post :: map f rest.
Proof.
  intros Hf Hl. rewrite (filter_update_where _ _ _ Hf), Hl. reflexivity.
Qed.

(** C2: from a session with no open transaction in which post P (a non-zero
    id, as the path parameter parses) exists with upvotes = 0 and
    downvotes = 0 and has no ledger rows, and with a healthy store: an
    upvote by A answers success:true with upvotes 1 and leaves the one row
    (A, P, +1); a following downvote by A answers success:true with
    upvotes 0 and downvotes 1 and turns that row into (A, P, -1); a
    following downvote by another user B answers success:true with
    downvotes 2 and adds the row (B, P, -1). *)
Theorem fresh_post_vote_scenario a b id P c post rest :
  parseInt id = Some P -> P <> 0 -> snap c = None ->
  filter (is_post P) (posts (cur c)) = post :: rest ->
  upvotes post = 0 -> downvotes post = 0 ->
  ledger_of P (post_votes (cur c)) = [] ->
  userId a <> userId b ->
  let r1 := serve never (Auth.upvote a id) c in
  let r2 := serve never (Auth.downvote a id) (session r1) in
  let r3 := serve never (Auth.downvote b id) (session r2) in
  answer r1 = Some (ok_json [("success", JBool true); ("upvotes", JNum 1);
                             ("message", JStr "Upvoted!")])
  /\ ledger_of P (post_votes (cur (session r1))) = [mkVote (userId a) P 1]
  /\ answer r2 = Some (ok_json [("success", JBool true); ("upvotes", JNum 0);
                                ("downvotes", JNum 1);
                                ("message", JStr "Changed vote to downvote.")])
  /\ ledger_of P (post_votes (cur (session r2))) = [mkVote (userId a) P (-1)]
  /\ answer r3 = Some (ok_json [("success", JBool true); ("downvotes", JNum 2);
                                ("message", JStr "Downvoted!")])
  /\ ledger_of P (post_votes (cur (session r3)))
     = [mkVote (userId a) P (-1); mkVote (userId b) P (-1)].
Proof.
  intros HP HP0 Hs Hpost Hup Hdown Hnone Hab r1 r2 r3.
  assert (Hid : forall f, (forall p, post_id (f p) = post_id p) ->
                          forall p, is_post P (f p) = is_post P p)
    by (intros f Hf p; unfold is_post; now rewrite Hf).
  (* the upvote by A *)
  assert (Hrow1 : map vote_type (filter (same_pair (userId a) P) (post_votes (cur c))) = [])
    by (rewrite filter_same_pair, Hnone; reflexivity).
  assert (E1 : r1 = serve never (Auth.upvote a id) c) by reflexivity.
  rewrite (upvote_never a id P c HP HP0 Hs), Hpost, Hrow1, Hup in E1.
  simpl Z.add in E1.
  set (c1 := session r1) in *.
  assert (Hc1 : c1 = session r1) by reflexivity. rewrite E1 in Hc1. simpl in Hc1.
  assert (Hv1 : ledger_of P (post_votes (cur c1)) = [mkVote (userId a) P 1]).
  { rewrite Hc1. simpl. rewrite ledger_of_app, Hnone. unfold ledger_of. simpl.
    now rewrite Z.eqb_refl. }
  assert (Hp1 : filter (is_post P) (posts (cur c1))
                = with_upvotes 1 post :: map (with_upvotes 1) rest).
  { rewrite Hc1. simpl. apply first_post_after_update; [|exact Hpost].
    apply Hid. reflexivity. }
  assert (Hs1 : snap c1 = None) by (rewrite Hc1; reflexivity).
  (* the downvote by A *)
  assert (Hrow2 : map vote_type (filter (same_pair (userId a) P) (post_votes (cur c1))) = [1])
    by (rewrite filter_same_pair, Hv1; simpl; now rewrite Z.eqb_refl).
  assert (E2 : r2 = serve never (Auth.downvote a id) c1) by reflexivity.
  rewrite (downvote_never a id P c1 HP HP0 Hs1), Hp1, Hrow2 in E2.
  simpl in E2. rewrite Hdown in E2. simpl Z.add in E2.
  set (c2 := session r2) in *.
  assert (Hc2 : c2 = session r2) by reflexivity. rewrite E2 in Hc2. simpl in Hc2.
  assert (Hv2 : ledger_of P (post_votes (cur c2)) = [mkVote (userId a) P (-1)]).
  { rewrite Hc2. simpl. rewrite ledger_of_update, Hv1. unfold update_where, same_pair.
    simpl. now rewrite !Z.eqb_refl. }
  assert (Hp2 : filter (is_post P) (posts (cur c2))
                = with_downvotes 1 (with_upvotes 0 (with_upvotes 1 post))
                  :: map (fun p => with_downvotes 1 (with_upvotes 0 p))
                       (map (with_upvotes 1) rest)).
  { rewrite Hc2. simpl.
    erewrite first_post_after_update; [reflexivity | | exact Hp1].
    apply Hid. reflexivity. }
  assert (Hs2 : snap c2 = None) by (rewrite Hc2; reflexivity).
  (* the downvote by B *)
  assert (Hrow3 : map vote_type (filter (same_pair (userId b) P) (post_votes (cur c2))) = []).
  { rewrite filter_same_pair, Hv2. simpl.
    destruct (Z.eqb_spec (userId a) (userId b)); [contradiction | reflexivity]. }
  assert (E3 : r3 = serve never (Auth.downvote b id) c2) by reflexivity.
  rewrite (downvote_never b id P c2 HP HP0 Hs2), Hp2, Hrow3 in E3.
  simpl in E3.
  assert (Hv3 : ledger_of P (post_votes (cur (session r3)))
                = [mkVote (userId a) P (-1); mkVote (userId b) P (-1)]).
  { rewrite E3. simpl. rewrite ledger_of_app, Hv2. unfold ledger_of. simpl.
    now rewrite Z.eqb_refl. }
  rewrite E1, E2, E3 at 1. simpl answer.
  repeat split; try reflexivity; assumption.
Qed.

Lemma fresh_post_vote_scenario_witness :
  let r1 := serve never (Auth.upvote alice "7") (idle fresh_post_db) in
  let r2 := serve never (Auth.downvote alice "7") (session r1) in
  let r3 := serve never (Auth.downvote bob "7") (session r2) in
  answer r1 = Some (ok_json [("success", JBool true); ("upvotes", JNum 1);
                             ("message", JStr "Upvoted!")])
  /\ ledger_of 7 (post_votes (cur (session r1))) = [mkVote 1 7 1]
  /\ answer r2 = Some (ok_json [("success", JBool true); ("upvotes", JNum 0);
                                ("downvotes", JNum 1);
                                ("message", JStr "Changed vote to downvote.")])
  /\ ledger_of 7 (post_votes (cur (session r2))) = [mkVote 1 7 (-1)]
  /\ answer r3 = Some (ok_json [("success", JBool true); ("downvotes", JNum 2);
                                ("message", JStr "Downvoted!")])
  /\ ledger_of 7 (post_votes (cur (session r3))) = [mkVote 1 7 (-1); mkVote 2 7 (-1)].
Proof.
  apply (fresh_post_vote_scenario alice bob "7" 7 (idle fresh_post_db)
           (mkPost 7 1 0 0) []); first [reflexivity | discriminate].
Defined.

(** ** Upvoting twice *)

Lemma upvote_already u id P c post rest es :
  parseInt id = Some P -> P <> 0 -> snap c = None ->
  filter (is_post P) (posts (cur c)) = post :: rest ->
  map vote_type (filter (same_pair (userId u) P) (post_votes (cur c))) = 1 :: es ->
  serve never (Auth.upvote u id) c
  = (Some (ok_json [("success", JBool false);
                    ("message", JStr "Already upvoted this post.")]), c, 2%nat).
Proof.
  intros HP HP0 Hs Hpost Hrow.
  rewrite (upvote_never u id P c HP HP0 Hs), Hpost, Hrow. reflexivity.
Qed.

(** C4: when user U's ledger row for the existing post P is already +1, an
    upvote by U answers success:false with the message of an earlier
    upvote and leaves the whole session, counters and ledger included, as
    it was (also when the store rejects a statement); and after any upvote
    by U on an existing post, a second upvote by U right away is such a
    no-op. *)
Theorem repeated_upvote_is_noop u id P c post rest :
  parseInt id = Some P -> P <> 0 -> snap c = None ->
  filter (is_post P) (posts (cur c)) = post :: rest ->
  (forall es,
     map vote_type (filter (same_pair (userId u) P) (post_votes (cur c))) = 1 :: es ->
     serve never (Auth.upvote u id) c
     = (Some (ok_json [("success", JBool false);
                       ("message", JStr "Already upvoted this post.")]), c, 2%nat)
     /\ forall fails, session (serve fails (Auth.upvote u id) c) = c)
  /\ (let r1 := serve never (Auth.upvote u id) c in
      serve never (Auth.upvote u id) (session r1)
      = (Some (ok_json [("success", JBool false);
                        ("message", JStr "Already upvoted this post.")]),
         session r1, 2%nat)).
Proof.
  intros HP HP0 Hs Hpost. split.
  - intros es Hrow.
    pose proof (upvote_already u id P c post rest es HP HP0 Hs Hpost Hrow) as H0.
    split; [exact H0|].
    intros fails.
    destruct (vote_outcome fails UP u id c Hs) as [[_ Hr] | [_ [_ Hr]]]; [|exact Hr].
    simpl vote in Hr. rewrite Hr, H0. reflexivity.
  - cbv zeta.
    assert (Hkeep : forall f, (forall p, post_id (f p) = post_id p) ->
                              forall p, is_post P (f p) = is_post P p)
      by (intros f Hf p; unfold is_post; now rewrite Hf).
    pose proof (upvote_never u id P c HP HP0 Hs) as E1. rewrite Hpost in E1.
    destruct (map vote_type (filter (same_pair (userId u) P) (post_votes (cur c))))
      as [|e es] eqn:Hrow.
    + rewrite E1. simpl session.
      eapply upvote_already; try eassumption; try reflexivity.
      * simpl. apply first_post_after_update; [|exact Hpost]. now apply Hkeep.
      * simpl. rewrite filter_app, (no_row_filter _ _ _ Hrow). simpl.
        unfold same_pair. simpl. rewrite !Z.eqb_refl. reflexivity.
    + destruct (e =? 1) eqn:He.
      * rewrite E1. simpl session. apply Z.eqb_eq in He. subst e.
        eapply upvote_already; eassumption.
      * rewrite E1. simpl session.
        destruct (first_row_vote_type _ _ _ _ _ Hrow) as [v [vs [Hv _]]].
        eapply upvote_already; try eassumption; try reflexivity.
        -- simpl. apply first_post_after_update; [|exact Hpost]. now apply Hkeep.
        -- simpl. rewrite filter_update_where by reflexivity. rewrite Hv. reflexivity.
Qed.

Lemma repeated_upvote_is_noop_witness :
  let c1 := idle (mkDB [mkPost 7 1 1 0] [mkVote 1 7 1] [] 1 [] [] 1) in
  (serve never (Auth.upvote alice "7") c1
   = (Some (ok_json [("success", JBool false);
                     ("message", JStr "Already upvoted this post.")]), c1, 2%nat)
   /\ forall fails, session (serve fails (Auth.upvote alice "7") c1) = c1)
  /\ session (serve never (Auth.upvote alice "7") (idle fresh_post_db)) = c1
  /\ serve never (Auth.upvote alice "7")
       (session (serve never (Auth.upvote alice "7") (idle fresh_post_db)))
     = (Some (ok_json [("success", JBool false);
                       ("message", JStr "Already upvoted this post.")]), c1, 2%nat).
Proof.
  split; [|split; [reflexivity|]].
  - refine (proj1 (repeated_upvote_is_noop alice "7" 7
                     (idle (mkDB [mkPost 7 1 1 0] [mkVote 1 7 1] [] 1 [] [] 1))
                     (mkPost 7 1 1 0) [] _ _ _ _) [] _);
      first [reflexivity | discriminate].
  - refine (proj2 (repeated_upvote_is_noop alice "7" 7 (idle fresh_post_db)
                     (mkPost 7 1 0 0) [] _ _ _ _));
      first [reflexivity | discriminate].
Defined.

(** ** Role administration *)

(** C5, as stated, fails on promote-to-moderator (and on user deletion): a
    caller with role [user] who targets id 99, which no row of users has,
    is answered 403, not 404; the role of the caller is checked before the
    target is looked up. *)
Lemma promote_absent_target_is_403 :
  filter (is_user 99) (users users_db) = []
  /\ serve never (Auth.post_promoteToModerator alice 99) (idle users_db)
     = (Some (res_status_json 403 (message "Forbidden: only mods or admins")),
        idle users_db, 0%nat)
  /\ serve never (Auth.delete_users alice 99) (idle users_db)
     = (Some (res_status_json 403
                (message "Forbidden: only admin or moderator can delete users")),
        idle users_db, 0%nat).
Proof. repeat split; reflexivity. Qed.

(** C5 (amended): when the target user does not exist and the store is
    healthy, each of the three routes answers 401 to a request without
    valid credentials; past authentication, the role change answers 400
    when the requested role is not one of user, moderator, admin and 404
    otherwise, whatever the caller's role; promote-to-moderator and user
    deletion answer 403 to a caller who is neither admin nor moderator and
    404 to an admin or a moderator.  None of them changes the session. *)
Theorem absent_target_status jwt_verify authHeader id newRole c :
  filter (is_user id) (users (cur c)) = [] ->
  let who := credentials jwt_verify authHeader in
  let r_role := serve never (Auth.route_put_users_role jwt_verify authHeader id newRole) c in
  let r_promote := serve never (Auth.route_promoteToModerator jwt_verify authHeader id) c in
  let r_delete := serve never (Auth.route_delete_users jwt_verify authHeader id) c in
  status_of r_role
  = Some (match who with
          | None => 401
          | Some _ => if includes Auth.allowedRoles newRole then 404 else 400
          end)
  /\ status_of r_promote
     = Some (match who with
             | None => 401
             | Some u => if mod_or_admin u then 404 else 403
             end)
  /\ status_of r_delete
     = Some (match who with
             | None => 401
             | Some u => if mod_or_admin u then 404 else 403
             end)
  /\ session r_role = c /\ session r_promote = c /\ session r_delete = c.
Proof.
  intros Habsent. cbv zeta.
  unfold credentials, Auth.route_put_users_role, Auth.route_promoteToModerator,
    Auth.route_delete_users, Auth.authMiddleware, mod_or_admin, status_of.
  destruct (truthy authHeader); simpl negb; cbv iota.
  2:{ repeat split; reflexivity. }
  destruct (jwt_verify (split_1 (str authHeader))) as [u|].
  2:{ repeat split; reflexivity. }
  unfold Auth.put_users_role, Auth.post_promoteToModerator, Auth.delete_users, serve.
  destruct (includes Auth.allowedRoles newRole);
    destruct (String.eqb (claim_role u) "admin");
    destruct (String.eqb (claim_role u) "moderator");
    cbn -[filter]; rewrite ?Habsent; repeat split; reflexivity.
Qed.

Lemma absent_target_status_witness :
  let r_role :=
    serve never (Auth.route_put_users_role sample_verify (Some "Bearer alice") 99
                   (Some "moderator")) (idle users_db) in
  let r_promote :=
    serve never (Auth.route_promoteToModerator sample_verify (Some "Bearer alice") 99)
      (idle users_db) in
  let r_delete :=
    serve never (Auth.route_delete_users sample_verify (Some "Bearer alice") 99)
      (idle users_db) in
  status_of r_role = Some 404
  /\ status_of r_promote = Some 403
  /\ status_of r_delete = Some 403
  /\ session r_role = idle users_db /\ session r_promote = idle users_db
  /\ session r_delete = idle users_db.
Proof.
  exact (absent_target_status sample_verify (Some "Bearer alice") 99 (Some "moderator")
           (idle users_db) eq_refl).
Defined.

(** C6: on an existing target and with one of the roles user, moderator,
    admin requested, PUT /users/:id/role with a healthy store answers 200
    with success:true and sets the target's role to the requested one
    exactly when the caller is an admin, or is a moderator who requests
    [moderator] for a target that is not an admin; in every other case,
    plain users included, it answers 403 and the session is unchanged. *)
Theorem role_change_rule user id newRole c target rest :
  includes Auth.allowedRoles (Some newRole) = true ->
  filter (is_user id) (users (cur c)) = target :: rest ->
  let r := serve never (Auth.put_users_role user id (Some newRole)) c in
  if may_set_role (claim_role user) newRole (role target)
  then status_of r = Some 200
       /\ option_map (field "success") (answer r) = Some (Some (JBool true))
       /\ users (cur (session r))
          = update_where (is_user id) (with_role newRole) (users (cur c))
       /\ map role (filter (is_user id) (users (cur (session r))))
          = map (fun _ => newRole) (target :: rest)
  else status_of r = Some 403 /\ session r = c.
Proof.
  intros Hnew Htarget. cbv zeta.
  assert (Hafter : map role (filter (is_user id)
                     (update_where (is_user id) (with_role newRole) (users (cur c))))
                   = map (fun _ => newRole) (target :: rest)).
  { rewrite filter_update_where by reflexivity. rewrite Htarget, map_map. reflexivity. }
  unfold may_set_role, Auth.put_users_role, serve, status_of. rewrite Hnew.
  destruct c as [d sn]. simpl cur in *.
  cbn -[filter update_where String.eqb]. rewrite Htarget.
  destruct (String.eqb (claim_role user) "admin").
  { cbn -[filter update_where String.eqb]. repeat split; try reflexivity. exact Hafter. }
  destruct (String.eqb (claim_role user) "moderator");
    [|cbn; split; reflexivity].
  destruct (String.eqb newRole "moderator");
    [|cbn; split; reflexivity].
  destruct (String.eqb (role target) "admin");
    [cbn; split; reflexivity|].
  cbn -[filter update_where String.eqb]. repeat split; try reflexivity. exact Hafter.
Qed.

Lemma role_change_rule_witness :
  let demote := serve never (Auth.put_users_role mod_carol 4 (Some "moderator"))
                  (idle users_db) in
  let promote := serve never (Auth.put_users_role mod_carol 2 (Some "moderator"))
                   (idle users_db) in
  (status_of demote = Some 403 /\ session demote = idle users_db)
  /\ (status_of promote = Some 200
      /\ option_map (field "success") (answer promote) = Some (Some (JBool true))
      /\ users (cur (session promote))
         = update_where (is_user 2) (with_role "moderator") (users users_db)
      /\ map role (filter (is_user 2) (users (cur (session promote)))) = ["moderator"]).
Proof.
  split.
  - exact (role_change_rule mod_carol 4 "moderator" (idle users_db)
             (mkUser 4 "dan" (Some "h4") "admin") [] eq_refl eq_refl).
  - exact (role_change_rule mod_carol 2 "moderator" (idle users_db)
             (mkUser 2 "bob" (Some "h2") "user") [] eq_refl eq_refl).
Defined.

(** ** Comment editing *)

(** C7, as stated, fails on the earlier variant: its PUT
    /community/comments/:id takes no credentials at all and rewrites
    comment 5, written by user 1, for whoever sends the request. *)
Lemma plain_comment_edit_needs_no_author :
  serve never (Plain.put_comments 5 (Some "edited")) (idle comment_db)
  = (Some (res_json (comment_json (mkComment 5 7 1 "edited" "2025-03-01T09:00:00.000Z"))),
     idle (set_comments comment_db [mkComment 5 7 1 "edited" "2025-03-01T09:00:00.000Z"]),
     1%nat).
Proof. reflexivity. Qed.

(** C7 (amended): in the variant with tokens, for an existing comment whose
    author is [a]: an edit is answered 200 only if the caller's user id is
    [a], whatever the store rejects; a caller who is not the author, of any
    role, moderator and admin included, is answered 403 when the text is
    present and the store healthy, and never changes the session; the
    author with a text present gets 200 and the text is replaced.  (The
    earlier variant has no check.) *)
Theorem comment_edit_is_author_only user id text c a rest :
  map comment_author (filter (is_comment id) (comments (cur c))) = a :: rest ->
  (forall fails,
     status_of (serve fails (Auth.put_comments user id text) c) = Some 200 ->
     a = userId user)
  /\ (a <> userId user ->
      (forall fails, session (serve fails (Auth.put_comments user id text) c) = c)
      /\ (truthy text = true ->
          serve never (Auth.put_comments user id text) c
          = (Some (res_status_json 403 (message "Forbidden: only the author can edit")),
             c, 1%nat)))
  /\ (a = userId user -> truthy text = true ->
      let r := serve never (Auth.put_comments user id text) c in
      status_of r = Some 200
      /\ comments (cur (session r))
         = update_where (is_comment id) (with_text (str text)) (comments (cur c))).
Proof.
  intros Hrow. destruct c as [d sn]. simpl cur in *.
  unfold Auth.put_comments, serve, status_of.
  split; [|split].
  - intros fails. destruct (truthy text); cbn -[filter update_where Z.eqb].
    2:{ discriminate. }
    destruct (fails 0%nat); cbn -[filter update_where Z.eqb]; [discriminate|].
    rewrite Hrow. destruct (Z.eqb_spec a (userId user)) as [He | He];
      cbn -[filter update_where]; [intros _; exact He | discriminate].
  - intros Hne. apply Z.eqb_neq in Hne. split.
    + intros fails. destruct (truthy text); cbn -[filter update_where Z.eqb];
        [|reflexivity].
      destruct (fails 0%nat); cbn -[filter update_where Z.eqb]; [reflexivity|].
      rewrite Hrow, Hne. reflexivity.
    + intros Ht. rewrite Ht. cbn -[filter update_where Z.eqb].
      rewrite Hrow, Hne. reflexivity.
  - intros He Ht. apply Z.eqb_eq in He. rewrite Ht.
    cbn -[filter update_where Z.eqb]. rewrite Hrow, He.
    cbn -[filter update_where]. split; reflexivity.
Qed.

Lemma comment_edit_is_author_only_witness :
  (forall fails,
     status_of (serve fails (Auth.put_comments admin_dan 5 (Some "edited")) (idle comment_db))
     = Some 200 -> 1 = 4)
  /\ serve never (Auth.put_comments admin_dan 5 (Some "edited")) (idle comment_db)
     = (Some (res_status_json 403 (message "Forbidden: only the author can edit")),
        idle comment_db, 1%nat)
  /\ status_of (serve never (Auth.put_comments alice 5 (Some "edited")) (idle comment_db))
     = Some 200.
Proof.
  pose proof (comment_edit_is_author_only admin_dan 5 (Some "edited") (idle comment_db)
                1 [] eq_refl) as [H1 [H2 _]].
  pose proof (comment_edit_is_author_only alice 5 (Some "edited") (idle comment_db)
                1 [] eq_refl) as [_ [_ H3]].
  split; [exact H1|]. split.
  - apply H2; [discriminate | reflexivity].
  - apply H3; reflexivity.
Defined.

(** ** Registration *)

(** C10, as stated, fails at a role that is present but empty: the new user
    is not created with the role string of the body; [role || 'user'] takes
    the empty string for a missing one and stores [user]. *)
Lemma register_empty_role_is_user :
  let r := serve never
             (Auth.register sample_sign sample_hash (Some "eve") (Some "pw") (Some EmptyString))
             (idle users_db) in
  users (cur (session r))
  = (users users_db ++ [mkUser 5 "eve" (Some "hash:pw") "user"])%list.
Proof. reflexivity. Qed.

(** C10 (amended): POST /auth/register, which takes no credentials, with a
    user name and a password present and a healthy store, creates the user
    with the role string of the body when that string is present and not
    empty, and with [user] when it is missing or empty; in the variant with
    tokens the answer carries a token signed for that role.  So a body with
    role [admin] yields an account, and a token, with role [admin]. *)
Theorem register_takes_role_from_body jwt_sign bcrypt_hash name password newRole c :
  truthy name = true -> truthy password = true ->
  let stored := if truthy newRole then str newRole else "user" in
  let row := mkUser (users_seq (cur c)) (str name)
               (Some (bcrypt_hash (str password))) stored in
  let c' := on_cur c (set_users (cur c) (users (cur c) ++ [row]) (users_seq (cur c) + 1)) in
  serve never (Auth.register jwt_sign bcrypt_hash name password newRole) c
  = (Some (res_json
             (JObj [("token",
                     JStr (jwt_sign (mkClaims (users_seq (cur c)) (Some (str name)) stored)));
                    ("user", user_json row)])),
     c', 1%nat)
  /\ serve never (Plain.register bcrypt_hash name password newRole) c
     = (Some (res_json (user_json row)), c', 1%nat)
  /\ (newRole = Some "admin" -> role row = "admin").
Proof.
  intros Hn Hp. cbv zeta.
  unfold Auth.register, Plain.register, serve. rewrite Hn, Hp.
  assert (Hd : or_default newRole "user" = if truthy newRole then str newRole else "user").
  { unfold or_default. destruct newRole; destruct (truthy _); reflexivity. }
  rewrite Hd.
  repeat split; try reflexivity.
  intros ->. reflexivity.
Qed.

Lemma register_takes_role_from_body_witness :
  let row := mkUser 5 "mallory" (Some "hash:pw") "admin" in
  let c' := idle (set_users users_db (users users_db ++ [row]) 6) in
  serve never
    (Auth.register sample_sign sample_hash (Some "mallory") (Some "pw") (Some "admin"))
    (idle users_db)
  = (Some (res_json (JObj [("token", JStr "mallory"); ("user", user_json row)])), c', 1%nat)
  /\ serve never (Plain.register sample_hash (Some "mallory") (Some "pw") (Some "admin"))
       (idle users_db)
     = (Some (res_json (user_json row)), c', 1%nat)
  /\ (Some "admin" = Some "admin" -> role row = "admin").
Proof.
  exact (register_takes_role_from_body sample_sign sample_hash
           (Some "mallory") (Some "pw") (Some "admin") (idle users_db) eq_refl eq_refl).
Defined.

(** * Further properties of the routes *)

(** ** More list facts *)

Lemma update_where_app {A : Type} (w : A -> bool) (f : A -> A) (l l' : list A) :
  update_where w f (l ++ l') = (update_where w f l ++ update_where w f l')%list.
Proof. unfold update_where. apply map_app. Qed.

Lemma update_where_compose {A : Type} (w : A -> bool) (f g : A -> A) (l : list A) :
  (forall a, w (g a) = w a) ->
  update_where w f (update_where w g l) = update_where w (fun a => f (g a)) l.
Proof.
  intros Hg. unfold update_where. rewrite map_map. apply map_ext.
  intros a. destruct (w a) eqn:Ha.
  - now rewrite Hg, Ha.
  - now rewrite Ha.
Qed.

Lemma update_where_ext_in {A : Type} (w : A -> bool) (f g : A -> A) (l : list A) :
  (forall a, In a l -> w a = true -> f a = g a) ->
  update_where w f l = update_where w g l.
Proof.
  intros H. unfold update_where. apply map_ext_in.
  intros a Ha. destruct (w a) eqn:Hw; [now apply H | reflexivity].
Qed.

Lemma map_update_where {A B : Type} (w : A -> bool) (f : A -> A) (g : A -> B) (l : list A) :
  (forall a, g (f a) = g a) ->
  map g (update_where w f l) = map g l.
Proof.
  intros H. unfold update_where. rewrite map_map. apply map_ext.
  intros a. destruct (w a); [apply H | reflexivity].
Qed.

Lemma filter_others_update_where {A : Type} (w : A -> bool) (f : A -> A) (l : list A) :
  (forall a, w a = true -> w (f a) = true) ->
  filter (fun a => negb (w a)) (update_where w f l) = filter (fun a => negb (w a)) l.
Proof.
  intros H. unfold update_where.
  induction l as [|a l IH]; simpl; [reflexivity|].
  destruct (w a) eqn:Ha.
  - rewrite (H a Ha). simpl. exact IH.
  - rewrite Ha. simpl. now rewrite IH.
Qed.

Lemma filter_update_where_on {A : Type} (w : A -> bool) (f : A -> A) (l : list A) :
  (forall a, w a = true -> w (f a) = true) ->
  filter w (update_where w f l) = map f (filter w l).
Proof.
  intros H. unfold update_where.
  induction l as [|a l IH]; simpl; [reflexivity|].
  destruct (w a) eqn:Ha.
  - rewrite (H a Ha). simpl. now rewrite IH.
  - rewrite Ha. exact IH.
Qed.

Lemma first_of_filter {A : Type} (w : A -> bool) (a : A) (r l : list A) :
  filter w l = a :: r -> In a l /\ w a = true.
Proof.
  intros H. assert (Hin : In a (filter w l)) by (rewrite H; now left).
  now apply filter_In in Hin.
Qed.

(** In a consistent database all rows of a post id carry the counters of
    the first one. *)
Lemma same_counters d P post rest p :
  consistent d = true ->
  filter (is_post P) (posts d) = post :: rest ->
  In p (posts d) -> is_post P p = true ->
  upvotes p = upvotes post /\ downvotes p = downvotes post.
Proof.
  intros Hc Hpost Hp HpP.
  destruct (first_of_filter _ _ _ _ Hpost) as [Hin HP].
  unfold consistent in Hc. rewrite forallb_forall in Hc.
  pose proof (proj1 (counters_match_iff _ _) (Hc p Hp)) as [H1 H2].
  pose proof (proj1 (counters_match_iff _ _) (Hc post Hin)) as [H3 H4].
  unfold is_post in *. apply Z.eqb_eq in HpP. apply Z.eqb_eq in HP.
  rewrite HpP in H1, H2. rewrite HP in H3, H4. lia.
Qed.

(** ** Votes: missing posts, reversal, what a vote leaves alone *)

(** A vote on a post id that no row of posts has is answered 404 by a
    healthy store, and whatever the store rejects the session, the ledger
    included, is as before. *)
Theorem vote_on_missing_post fails i u id P c :
  parseInt id = Some P -> P <> 0 -> snap c = None ->
  filter (is_post P) (posts (cur c)) = [] ->
  serve never (vote i u id) c
  = (Some (res_status_json 404 (message "Post not found")), c, 1%nat)
  /\ session (serve fails (vote i u id) c) = c.
Proof.
  intros HP HP0 Hs Hnone.
  assert (H0 : serve never (vote i u id) c
               = (Some (res_status_json 404 (message "Post not found")), c, 1%nat)).
  { destruct i; unfold vote.
    - now rewrite (upvote_never u id P c HP HP0 Hs), Hnone.
    - now rewrite (downvote_never u id P c HP HP0 Hs), Hnone. }
  split; [exact H0|].
  destruct (vote_outcome fails i u id c Hs) as [[_ Hr] | [_ [_ Hr]]]; [|exact Hr].
  now rewrite Hr, H0.
Qed.

Lemma vote_on_missing_post_witness :
  serve never (vote DOWN alice "8") (idle fresh_post_db)
  = (Some (res_status_json 404 (message "Post not found")), idle fresh_post_db, 1%nat)
  /\ session (serve (fun k => Nat.eqb k 0) (vote DOWN alice "8") (idle fresh_post_db))
     = idle fresh_post_db.
Proof.
  apply (vote_on_missing_post (fun k => Nat.eqb k 0) DOWN alice "8" 8 (idle fresh_post_db));
    first [reflexivity | discriminate].
Defined.

Lemma write_both_twice v p v' p' d :
  write_both v' p' (write_both v p d) = write_both v' p' d.
Proof. reflexivity. Qed.

Lemma switch_fresh_row u P a b l :
  filter (same_pair u P) l = [] ->
  update_where (same_pair u P) (with_vote_type b) (l ++ [mkVote u P a])
  = (l ++ [mkVote u P b])%list.
Proof.
  intros Hl. rewrite update_where_app, (update_where_none _ _ _ Hl).
  unfold update_where, same_pair. simpl. now rewrite !Z.eqb_refl.
Qed.

Lemma fresh_row_found u P a l :
  filter (same_pair u P) l = [] ->
  map vote_type (filter (same_pair u P) (l ++ [mkVote u P a])) = [a].
Proof.
  intros Hl. rewrite filter_app, Hl. unfold same_pair. simpl.
  now rewrite !Z.eqb_refl.
Qed.

Lemma is_post_kept P (f : PostRow -> PostRow) :
  (forall p, post_id (f p) = post_id p) -> forall p, is_post P (f p) = is_post P p.
Proof. intros Hf p. unfold is_post. now rewrite Hf. Qed.

Lemma up_then_down u id P c post rest :
  parseInt id = Some P -> P <> 0 -> settled c = true ->
  filter (is_post P) (posts (cur c)) = post :: rest ->
  map vote_type (filter (same_pair (userId u) P) (post_votes (cur c))) = [] ->
  (let r2 := serve never (Auth.downvote u id) (session (serve never (Auth.upvote u id) c)) in
   session r2 = session (serve never (Auth.downvote u id) c)
   /\ answer r2 = Some (ok_json [("success", JBool true);
                                 ("upvotes", JNum (upvotes post));
                                 ("downvotes", JNum (downvotes post + 1));
                                 ("message", JStr "Changed vote to downvote.")])).
Proof.
  intros HP HP0 Hc Hpost Hrow.
  destruct (settled_parts c Hc) as [Hs [_ Hcons]].
  pose proof (no_row_filter _ _ _ Hrow) as Hnone.
  pose proof (upvote_never u id P c HP HP0 Hs) as EU. rewrite Hpost, Hrow in EU.
  pose proof (downvote_never u id P c HP HP0 Hs) as ED. rewrite Hpost, Hrow in ED.
  cbv zeta.
  rewrite EU, ED. unfold session at 2 3 4. simpl fst. simpl snd.
  match goal with |- context [serve never (Auth.downvote u id) ?x] => set (c1 := x) end.
  assert (Hp1 : filter (is_post P) (posts (cur c1))
                = with_upvotes (upvotes post + 1) post
                  :: map (with_upvotes (upvotes post + 1)) rest).
  { subst c1. simpl. apply first_post_after_update; [|exact Hpost].
    apply is_post_kept. reflexivity. }
  assert (Hv1 : map vote_type (filter (same_pair (userId u) P) (post_votes (cur c1))) = [1]).
  { subst c1. simpl. exact (fresh_row_found _ _ _ _ Hnone). }
  pose proof (downvote_never u id P c1 HP HP0 eq_refl) as E2.
  rewrite Hp1, Hv1 in E2. change (1 =? -1) with false in E2. cbv iota in E2.
  rewrite E2. unfold session, answer. simpl fst. simpl snd.
  subst c1. simpl cur. rewrite write_both_twice.
  unfold write_both at 1. simpl posts. simpl post_votes.
  rewrite (switch_fresh_row _ _ _ _ _ Hnone).
  rewrite update_where_compose by (apply is_post_kept; reflexivity).
  split.
  - f_equal. unfold write_both. simpl. f_equal. apply update_where_ext_in.
    intros p Hp HpP. destruct (same_counters _ _ _ _ _ Hcons Hpost Hp HpP) as [H1 H2].
    destruct p, post. unfold with_downvotes, with_upvotes. simpl in *. f_equal; lia.
  - destruct post. simpl. repeat f_equal; lia.
Qed.

Lemma down_then_up u id P c post rest :
  parseInt id = Some P -> P <> 0 -> settled c = true ->
  filter (is_post P) (posts (cur c)) = post :: rest ->
  map vote_type (filter (same_pair (userId u) P) (post_votes (cur c))) = [] ->
  (let r2 := serve never (Auth.upvote u id) (session (serve never (Auth.downvote u id) c)) in
   session r2 = session (serve never (Auth.upvote u id) c)
   /\ answer r2 = Some (ok_json [("success", JBool true);
                                 ("upvotes", JNum (upvotes post + 1));
                                 ("downvotes", JNum (downvotes post));
                                 ("message", JStr "Changed vote to upvote.")])).
Proof.
  intros HP HP0 Hc Hpost Hrow.
  destruct (settled_parts c Hc) as [Hs [_ Hcons]].
  pose proof (no_row_filter _ _ _ Hrow) as Hnone.
  pose proof (upvote_never u id P c HP HP0 Hs) as EU. rewrite Hpost, Hrow in EU.
  pose proof (downvote_never u id P c HP HP0 Hs) as ED. rewrite Hpost, Hrow in ED.
  cbv zeta.
  rewrite EU, ED. unfold session at 2 3 4. simpl fst. simpl snd.
  match goal with |- context [serve never (Auth.upvote u id) ?x] => set (c1 := x) end.
  assert (Hp1 : filter (is_post P) (posts (cur c1))
                = with_downvotes (downvotes post + 1) post
                  :: map (with_downvotes (downvotes post + 1)) rest).
  { subst c1. simpl. apply first_post_after_update; [|exact Hpost].
    apply is_post_kept. reflexivity. }
  assert (Hv1 : map vote_type (filter (same_pair (userId u) P) (post_votes (cur c1))) = [-1]).
  { subst c1. simpl. exact (fresh_row_found _ _ _ _ Hnone). }
  pose proof (upvote_never u id P c1 HP HP0 eq_refl) as E2.
  rewrite Hp1, Hv1 in E2. change (-1 =? 1) with false in E2. cbv iota in E2.
  rewrite E2. unfold session, answer. simpl fst. simpl snd.
  subst c1. simpl cur. rewrite write_both_twice.
  unfold write_both at 1. simpl posts. simpl post_votes.
  rewrite (switch_fresh_row _ _ _ _ _ Hnone).
  rewrite update_where_compose by (apply is_post_kept; reflexivity).
  split.
  - f_equal. unfold write_both. simpl. f_equal. apply update_where_ext_in.
    intros p Hp HpP. destruct (same_counters _ _ _ _ _ Hcons Hpost Hp HpP) as [H1 H2].
    destruct p, post. unfold with_downvotes, with_upvotes. simpl in *. f_equal; lia.
  - destruct post. simpl. repeat f_equal; lia.
Qed.

(** On a post the user has no ledger row for, in a settled session and with
    a healthy store, an upvote followed by a downvote of the same user
    leaves exactly the session a single downvote leaves, and a downvote
    followed by an upvote exactly the session of a single upvote; the second
    answer carries the counters of that session. *)
Theorem vote_reversal_is_single_vote u id P c post rest :
  parseInt id = Some P -> P <> 0 -> settled c = true ->
  filter (is_post P) (posts (cur c)) = post :: rest ->
  map vote_type (filter (same_pair (userId u) P) (post_votes (cur c))) = [] ->
  (let r2 := serve never (Auth.downvote u id) (session (serve never (Auth.upvote u id) c)) in
   session r2 = session (serve never (Auth.downvote u id) c)
   /\ answer r2 = Some (ok_json [("success", JBool true);
                                 ("upvotes", JNum (upvotes post));
                                 ("downvotes", JNum (downvotes post + 1));
                                 ("message", JStr "Changed vote to downvote.")]))
  /\ (let r2 := serve never (Auth.upvote u id) (session (serve never (Auth.downvote u id) c)) in
      session r2 = session (serve never (Auth.upvote u id) c)
      /\ answer r2 = Some (ok_json [("success", JBool true);
                                    ("upvotes", JNum (upvotes post + 1));
                                    ("downvotes", JNum (downvotes post));
                                    ("message", JStr "Changed vote to upvote.")])).
Proof.
  intros HP HP0 Hc Hpost Hrow. split.
  - exact (up_then_down u id P c post rest HP HP0 Hc Hpost Hrow).
  - exact (down_then_up u id P c post rest HP HP0 Hc Hpost Hrow).
Qed.

Lemma vote_reversal_is_single_vote_witness :
  session (serve never (Auth.downvote alice "7")
             (session (serve never (Auth.upvote alice "7") (idle fresh_post_db))))
  = session (serve never (Auth.downvote alice "7") (idle fresh_post_db))
  /\ session (serve never (Auth.downvote alice "7") (idle fresh_post_db))
     = idle (mkDB [mkPost 7 1 0 1] [mkVote 1 7 (-1)] [] 1 [] [] 1).
Proof.
  split; [|reflexivity].
  refine (proj1 (proj1 (vote_reversal_is_single_vote alice "7" 7 (idle fresh_post_db)
                          (mkPost 7 1 0 0) [] _ _ _ _ _)));
    first [reflexivity | discriminate].
Defined.

(** After any sequence of vote requests served one after the other from a
    settled session, whatever the store rejected, no transaction is left
    open, the ledger has at most one row per (user, post), every direction
    is +1 or -1, and no counter is negative. *)
Theorem ledger_stays_well_formed calls c :
  settled c = true ->
  let c' := serve_all calls c in
  snap c' = None
  /\ unique_pairs (post_votes (cur c')) = true
  /\ forallb direction_ok (post_votes (cur c')) = true
  /\ forall p, In p (posts (cur c')) -> 0 <= upvotes p /\ 0 <= downvotes p.
Proof.
  intros Hc c'.
  pose proof (serve_all_settled calls c Hc) as Hs. fold c' in Hs.
  destruct (settled_parts c' Hs) as [Hsnap [Hl Hcons]].
  destruct (ledger_ok_parts _ Hl) as [Hu Hd].
  repeat split; try assumption;
    unfold consistent in Hcons; rewrite forallb_forall in Hcons;
    destruct (proj1 (counters_match_iff _ _) (Hcons p H)) as [H1 H2];
    unfold count_votes in *; lia.
Qed.

Lemma ledger_stays_well_formed_witness :
  let c' := serve_all [mkCall UP alice "7" never; mkCall UP alice "7" never;
                       mkCall DOWN alice "7" (fun k => Nat.eqb k 5);
                       mkCall DOWN bob "7" never] (idle fresh_post_db) in
  snap c' = None
  /\ unique_pairs (post_votes (cur c')) = true
  /\ forallb direction_ok (post_votes (cur c')) = true
  /\ forall p, In p (posts (cur c')) -> 0 <= upvotes p /\ 0 <= downvotes p.
Proof.
  exact (ledger_stays_well_formed
           [mkCall UP alice "7" never; mkCall UP alice "7" never;
            mkCall DOWN alice "7" (fun k => Nat.eqb k 5);
            mkCall DOWN bob "7" never] (idle fresh_post_db) eq_refl).
Defined.





(** ** The counter-only vote routes *)

Lemma on_cur_same c : on_cur c (cur c) = c.
Proof. destruct c. reflexivity. Qed.

Lemma plain_upvote_step id c :
  session (serve never (Plain.upvote id) c)
  = on_cur c (set_posts (cur c)
                (update_where (is_post id) (fun p => with_upvotes (upvotes p + 1) p)
                   (posts (cur c)))).
Proof.
  unfold Plain.upvote, serve. cbn -[filter update_where Z.add].
  destruct (map upvotes _); reflexivity.
Qed.

(** The counter-only upvote takes no credentials and keeps no ledger: on a
    missing post it answers 404 and changes nothing; on an existing post it
    answers the new counter; and [n] calls in a row raise the upvotes of the
    post by [n], leaving its downvotes, the other posts and the ledger
    table as they were. *)
Theorem plain_upvote_counts_every_call n id c :
  (filter (is_post id) (posts (cur c)) = [] ->
   forall fails,
     session (serve fails (Plain.upvote id) c) = c
     /\ (fails 0%nat = false ->
         answer (serve fails (Plain.upvote id) c)
         = Some (res_status_json 404 (message "Post not found"))))
  /\ (forall post rest,
        filter (is_post id) (posts (cur c)) = post :: rest ->
        answer (serve never (Plain.upvote id) c)
        = Some (ok_json [("upvotes", JNum (upvotes post + 1))]))
  /\ (let c' := repeatedly n (Plain.upvote id) c in
      map upvotes (filter (is_post id) (posts (cur c')))
      = map (fun k => k + Z.of_nat n) (map upvotes (filter (is_post id) (posts (cur c))))
      /\ map downvotes (posts (cur c')) = map downvotes (posts (cur c))
      /\ filter (fun p => negb (is_post id p)) (posts (cur c'))
         = filter (fun p => negb (is_post id p)) (posts (cur c))
      /\ post_votes (cur c') = post_votes (cur c)).
Proof.
  split; [|split].
  - intros Hnone fails. unfold Plain.upvote, serve.
    cbn -[filter update_where Z.add].
    destruct (fails 0%nat); cbn -[filter update_where Z.add].
    + split; [reflexivity | discriminate].
    + rewrite (update_where_none _ _ _ Hnone), Hnone. simpl.
      split; [|reflexivity].
      destruct c as [d sn]. destruct d. reflexivity.
  - intros post rest Hpost. unfold Plain.upvote, serve.
    cbn -[filter update_where Z.add].
    rewrite filter_update_where by reflexivity. rewrite Hpost. reflexivity.
  - cbv zeta. unfold repeatedly.
    induction n as [|n IH].
    + simpl. repeat split; try reflexivity.
      rewrite map_map. rewrite <- (map_id (map upvotes _)) at 1. rewrite !map_map.
      apply map_ext. intros a. lia.
    + rewrite Nat.iter_succ. rewrite plain_upvote_step.
      set (s := Nat.iter n _ c) in *. destruct IH as [H1 [H2 [H3 H4]]].
      simpl. repeat split.
      * rewrite filter_update_where by reflexivity.
        rewrite !map_map. rewrite map_map in H1.
        rewrite (map_ext (fun p => upvotes (with_upvotes (upvotes p + 1) p))
                   (fun p => upvotes p + 1)) by reflexivity.
        rewrite <- (map_map upvotes (fun k => k + 1)), H1, map_map.
        apply map_ext. intros a. lia.
      * rewrite map_update_where by reflexivity. exact H2.
      * rewrite filter_others_update_where by (intros ? Ha; exact Ha). exact H3.
      * exact H4.
Qed.

Lemma plain_upvote_counts_every_call_witness :
  (forall fails,
     session (serve fails (Plain.upvote 9) (idle fresh_post_db)) = idle fresh_post_db
     /\ (fails 0%nat = false ->
         answer (serve fails (Plain.upvote 9) (idle fresh_post_db))
         = Some (res_status_json 404 (message "Post not found"))))
  /\ answer (serve never (Plain.upvote 7) (idle fresh_post_db))
     = Some (ok_json [("upvotes", JNum 1)])
  /\ posts (cur (repeatedly 3 (Plain.upvote 7) (idle fresh_post_db))) = [mkPost 7 1 3 0].
Proof.
  destruct (plain_upvote_counts_every_call 3 9 (idle fresh_post_db)) as [H1 _].
  destruct (plain_upvote_counts_every_call 3 7 (idle fresh_post_db)) as [_ [H2 _]].
  split; [exact (H1 eq_refl)|]. split; [exact (H2 _ _ eq_refl) | reflexivity].
Defined.

(** ** How the vote routes read the post id *)

Lemma skip_ws_digit c r : is_digit c = true -> skip_ws (String c r) = String c r.
Proof.
  intros Hc.
  destruct c as [[] [] [] [] [] [] [] []]; try discriminate Hc;
    destruct r as [|c2 [|c3 r3]]; reflexivity.
Qed.

Lemma digits_app d t acc :
  all_digits d = true -> starts_with_digit t = false ->
  digits acc (d ++ t) = digits acc d.
Proof.
  revert acc. induction d as [|c d IH]; intros acc Hd Ht.
  - simpl. destruct t as [|c t]; [reflexivity|].
    simpl in *. unfold is_digit in Ht. destruct (digit_of c); [discriminate | reflexivity].
  - simpl in Hd. apply andb_true_iff in Hd. destruct Hd as [Hc Hd].
    simpl. unfold is_digit in Hc. destruct (digit_of c); [|discriminate].
    now apply IH.
Qed.

Lemma parseInt_trailing d t :
  all_digits d = true -> d <> EmptyString -> starts_with_digit t = false ->
  parseInt (d ++ t) = parseInt d.
Proof.
  intros Hd Hne Ht. destruct d as [|c d]; [contradiction|].
  pose proof Hd as Hd'. simpl in Hd'. apply andb_true_iff in Hd'. destruct Hd' as [Hc _].
  unfold parseInt. simpl append.
  rewrite !(skip_ws_digit c _ Hc).
  assert (Hsign : forall A (x y z : A),
             match c with
             | "-"%char => x | "+"%char => y | _ => z
             end = z).
  { intros A x0 y0 z0.
    destruct c as [[] [] [] [] [] [] [] []]; try discriminate Hc; reflexivity. }
  rewrite !Hsign.
  unfold is_digit in Hc. destruct (digit_of c) eqn:Hdc; [|discriminate].
  change (String c (d ++ t)) with (String c d ++ t).
  now rewrite (digits_app (String c d) t 0 Hd Ht).
Qed.

(** Leading white space, however long and of whichever characters, is
    skipped. *)
Lemma skip_ws_white w s : all_white w = true -> skip_ws (w ++ s) = skip_ws s.
Proof.
  remember (String.length w) as n eqn:Hn.
  revert w Hn. induction n as [n IH] using (well_founded_induction Wf_nat.lt_wf).
  intros w Hn Hw. subst n.
  destruct w as [|c1 r1]; [reflexivity|].
  cbn [all_white] in Hw. cbn [append skip_ws].
  destruct (is_ws c1).
  - apply (IH (String.length r1)); [simpl; lia | reflexivity | exact Hw].
  - destruct r1 as [|c2 r2]; [discriminate|]. cbn [append].
    destruct (is_ws2 c1 c2).
    + apply (IH (String.length r2)); [simpl; lia | reflexivity | exact Hw].
    + destruct r2 as [|c3 r3]; [discriminate|]. cbn [append].
      apply andb_true_iff in Hw. destruct Hw as [H3 Hw]. rewrite H3.
      apply (IH (String.length r3)); [simpl; lia | reflexivity | exact Hw].
Qed.

Lemma parseInt_leading_ws w s : all_white w = true -> parseInt (w ++ s) = parseInt s.
Proof. intros Hw. unfold parseInt. now rewrite (skip_ws_white w s Hw). Qed.

(** The vote routes read the post id with parseInt: the white space before
    the digits, however long and including the no-break space, the Unicode
    spaces, the line separators and the byte order mark, and any text after
    the digits are ignored, so a path parameter such as 7abc is a vote on
    post 7. *)
Theorem vote_id_ignores_surrounding_text i u w d t :
  all_white w = true ->
  all_digits d = true -> d <> EmptyString -> starts_with_digit t = false ->
  vote i u (w ++ d ++ t) = vote i u d.
Proof.
  intros Hw Hd Hne Ht.
  pose proof (parseInt_trailing d t Hd Hne Ht) as H1.
  pose proof (parseInt_leading_ws w (d ++ t) Hw) as H2.
  destruct i; unfold vote, Auth.upvote, Auth.downvote; now rewrite H2, H1.
Qed.

Lemma vote_id_ignores_surrounding_text_witness :
  vote UP alice (sample_white ++ "7abc") = vote UP alice "7"
  /\ vote DOWN bob "12 and more" = vote DOWN bob "12".
Proof.
  split.
  - apply (vote_id_ignores_surrounding_text UP alice sample_white "7" "abc");
      first [reflexivity | discriminate].
  - apply (vote_id_ignores_surrounding_text DOWN bob EmptyString "12" " and more");
      first [reflexivity | discriminate].
Defined.

(** ** Role administration: what the routes keep *)

Lemma admins_kept id (f : UserRow -> UserRow) t rest l :
  unique_user_ids l = true ->
  filter (is_user id) l = t :: rest ->
  is_admin_row t = false ->
  (forall x, is_admin_row (f x) = false) ->
  filter is_admin_row (update_where (is_user id) f l) = filter is_admin_row l.
Proof.
  intros Hu Ht Hadm Hf. unfold update_where.
  induction l as [|x l IH]; simpl in *; [reflexivity|].
  apply andb_true_iff in Hu. destruct Hu as [Hx Hu].
  destruct (is_user id x) eqn:Hid.
  - injection Ht as -> _. rewrite Hf, Hadm.
    unfold is_user in Hid. apply Z.eqb_eq in Hid. rewrite Hid in Hx.
    apply negb_true_iff in Hx. apply existsb_filter_nil in Hx.
    fold (update_where (is_user id) f l). now rewrite (update_where_none _ _ _ Hx).
  - rewrite (IH Hu Ht). reflexivity.
Qed.

(** A request served on its own, no statement of another request reaching
    the connection between its SELECT and its UPDATE.  With one users row
    per id, a caller whose token role is not admin then changes, through
    the role change, promote-to-moderator and user deletion routes and
    whatever the store rejects, neither which rows are admins nor any admin
    row: the admin rows of the users table stay as they were. *)
Theorem only_admins_change_admins fails user id newRole c :
  unique_user_ids (users (cur c)) = true ->
  String.eqb (claim_role user) "admin" = false ->
  filter is_admin_row (users (cur (session (serve fails (Auth.put_users_role user id newRole) c))))
  = filter is_admin_row (users (cur c))
  /\ filter is_admin_row
       (users (cur (session (serve fails (Auth.post_promoteToModerator user id) c))))
     = filter is_admin_row (users (cur c))
  /\ filter is_admin_row (users (cur (session (serve fails (Auth.delete_users user id) c))))
     = filter is_admin_row (users (cur c)).
Proof.
  intros Hu Hrole.
  unfold Auth.put_users_role, Auth.post_promoteToModerator, Auth.delete_users,
    Auth.perform_update, serve, session.
  rewrite Hrole.
  destruct c as [d sn]. simpl cur in *.
  split; [|split].
  - destruct (includes Auth.allowedRoles newRole); [|reflexivity].
    cbn -[filter update_where String.eqb].
    destruct (fails 0%nat); [reflexivity|].
    cbn -[filter update_where String.eqb].
    destruct (filter (is_user id) (users d)) as [|t rest] eqn:Ht; [reflexivity|].
    destruct (String.eqb (claim_role user) "moderator"); [|reflexivity].
    destruct (String.eqb (str newRole) "moderator") eqn:Hnew; [|reflexivity].
    cbn -[filter update_where String.eqb].
    destruct (String.eqb (role t) "admin") eqn:Hadm; [reflexivity|].
    cbn -[filter update_where String.eqb].
    destruct (fails 1%nat); [reflexivity|].
    cbn -[filter update_where String.eqb].
    apply (admins_kept id _ t rest _ Hu Ht Hadm).
    intros x. unfold is_admin_row, with_role. simpl.
    apply String.eqb_eq in Hnew. now rewrite Hnew.
  - destruct (String.eqb (claim_role user) "moderator"); [|reflexivity].
    cbn -[filter update_where String.eqb].
    destruct (fails 0%nat); [reflexivity|].
    cbn -[filter update_where String.eqb].
    destruct (filter (is_user id) (users d)) as [|t rest] eqn:Ht; [reflexivity|].
    destruct (String.eqb (role t) "admin") eqn:Hadm; [reflexivity|].
    cbn -[filter update_where String.eqb].
    destruct (fails 1%nat); [reflexivity|].
    cbn -[filter update_where String.eqb].
    apply (admins_kept id _ t rest _ Hu Ht Hadm). reflexivity.
  - destruct (String.eqb (claim_role user) "moderator"); [|reflexivity].
    cbn -[filter update_where String.eqb].
    destruct (fails 0%nat); [reflexivity|].
    cbn -[filter update_where String.eqb].
    destruct (filter (is_user id) (users d)) as [|t rest] eqn:Ht; [reflexivity|].
    destruct (String.eqb (role t) "admin") eqn:Hadm; [reflexivity|].
    cbn -[filter update_where String.eqb].
    destruct (fails 1%nat); [reflexivity|].
    cbn -[filter update_where String.eqb].
    apply (admins_kept id _ t rest _ Hu Ht Hadm). reflexivity.
Qed.

(** On an existing target, promote-to-moderator and the role change with
    role moderator leave the same session, whatever the store rejects,
    except when an admin targets an admin: the role change then demotes
    the target to moderator (200) while promote-to-moderator refuses
    (403). *)
Theorem promote_is_role_change_except_on_admins fails user id c t rest :
  filter (is_user id) (users (cur c)) = t :: rest ->
  (String.eqb (claim_role user) "admin" && String.eqb (role t) "admin" = false ->
   session (serve fails (Auth.post_promoteToModerator user id) c)
   = session (serve fails (Auth.put_users_role user id (Some "moderator")) c))
  /\ (String.eqb (claim_role user) "admin" && String.eqb (role t) "admin" = true ->
      let r_promote := serve never (Auth.post_promoteToModerator user id) c in
      let r_role := serve never (Auth.put_users_role user id (Some "moderator")) c in
      status_of r_promote = Some 403 /\ session r_promote = c
      /\ status_of r_role = Some 200
      /\ users (cur (session r_role))
         = update_where (is_user id) (with_role "moderator") (users (cur c))).
Proof.
  intros Ht.
  assert (Hinc : includes Auth.allowedRoles (Some "moderator") = true) by reflexivity.
  unfold Auth.put_users_role, Auth.post_promoteToModerator, Auth.perform_update,
    serve, session, status_of, answer.
  rewrite Hinc. change (str (Some "moderator")) with "moderator".
  rewrite (String.eqb_refl "moderator").
  destruct c as [d sn]. simpl cur in *.
  split.
  - intros Hcase.
    destruct (String.eqb (claim_role user) "admin") eqn:Ha.
    + simpl in Hcase.
      cbn -[filter update_where String.eqb].
      destruct (fails 0%nat); cbn -[filter update_where String.eqb]; [reflexivity|].
      rewrite Ht, Hcase. reflexivity.
    + destruct (String.eqb (claim_role user) "moderator") eqn:Hm.
      * cbn -[filter update_where String.eqb].
        destruct (fails 0%nat); cbn -[filter update_where String.eqb]; [reflexivity|].
        rewrite Ht. destruct (String.eqb (role t) "admin"); reflexivity.
      * cbn -[filter update_where String.eqb].
        destruct (fails 0%nat); cbn -[filter update_where String.eqb]; [reflexivity|].
        rewrite Ht. reflexivity.
  - intros Hcase. apply andb_true_iff in Hcase. destruct Hcase as [Ha Hadm].
    rewrite Ha.
    cbn -[filter update_where String.eqb]. rewrite Ht, Hadm.
    cbn -[filter update_where String.eqb]. repeat split; reflexivity.
Qed.

Lemma filter_update_where_comm {A : Type} (w w' : A -> bool) (f : A -> A) (l : list A) :
  (forall a, w' (f a) = w' a) -> (forall a, w (f a) = w a) ->
  filter w' (update_where w f l) = update_where w f (filter w' l).
Proof.
  intros H' H. unfold update_where.
  induction l as [|a l IH]; simpl; [reflexivity|].
  destruct (w a) eqn:Ha.
  - rewrite H'. destruct (w' a); simpl; [rewrite Ha|]; now rewrite IH.
  - destruct (w' a); simpl; [rewrite Ha|]; now rewrite IH.
Qed.

(** User deletion by an admin or a moderator (a moderator not on an admin
    target), with a healthy store, removes no row: every row of the id
    keeps its id and gets the user name [DELETED USER], no password hash
    and the role deleted; deleting the same user again is answered 200 as
    well and changes nothing more. *)
Theorem soft_delete_keeps_the_row_and_is_idempotent user id c t rest :
  mod_or_admin user = true ->
  filter (is_user id) (users (cur c)) = t :: rest ->
  String.eqb (claim_role user) "moderator" && String.eqb (role t) "admin" = false ->
  let r1 := serve never (Auth.delete_users user id) c in
  let r2 := serve never (Auth.delete_users user id) (session r1) in
  status_of r1 = Some 200 /\ status_of r2 = Some 200
  /\ session r2 = session r1
  /\ map user_id (users (cur (session r1))) = map user_id (users (cur c))
  /\ filter (is_user id) (users (cur (session r1)))
     = map (fun x => mkUser (user_id x) "[DELETED USER]" None "deleted") (t :: rest).
Proof.
  intros Hrole Ht Hcase. cbv zeta.
  assert (E1 : serve never (Auth.delete_users user id) c
               = (Some (ok_json (("success", JBool true)
                                   :: prop_rows0 "user" user_json
                                        (map soft_deleted (t :: rest)))),
                  on_cur c (set_users (cur c)
                              (update_where (is_user id) soft_deleted (users (cur c)))
                              (users_seq (cur c))),
                  2%nat)).
  { unfold Auth.delete_users, serve. unfold mod_or_admin in Hrole.
    apply orb_true_iff in Hrole.
    assert (Hg : negb (String.eqb (claim_role user) "admin")
                 && negb (String.eqb (claim_role user) "moderator") = false)
      by (destruct Hrole as [-> | ->]; [reflexivity | apply andb_false_r]).
    rewrite Hg. cbn -[filter update_where String.eqb]. rewrite Ht, Hcase.
    cbn -[filter update_where String.eqb].
    rewrite filter_update_where by reflexivity. rewrite Ht. reflexivity. }
  pose (c1 := on_cur c (set_users (cur c)
                          (update_where (is_user id) soft_deleted (users (cur c)))
                          (users_seq (cur c)))).
  assert (Hs1 : session (serve never (Auth.delete_users user id) c) = c1)
    by (rewrite E1; reflexivity).
  rewrite Hs1.
  assert (Ht1 : filter (is_user id) (users (cur c1)) = map soft_deleted (t :: rest)).
  { subst c1. simpl. rewrite filter_update_where by reflexivity. now rewrite Ht. }
  assert (E2 : serve never (Auth.delete_users user id) c1
               = (Some (ok_json (("success", JBool true)
                                   :: prop_rows0 "user" user_json
                                        (map soft_deleted (map soft_deleted (t :: rest))))),
                  on_cur c1 (set_users (cur c1)
                               (update_where (is_user id) soft_deleted (users (cur c1)))
                               (users_seq (cur c1))),
                  2%nat)).
  { unfold Auth.delete_users, serve. unfold mod_or_admin in Hrole.
    apply orb_true_iff in Hrole.
    assert (Hg : negb (String.eqb (claim_role user) "admin")
                 && negb (String.eqb (claim_role user) "moderator") = false)
      by (destruct Hrole as [-> | ->]; [reflexivity | apply andb_false_r]).
    rewrite Hg. cbn -[filter update_where String.eqb c1]. rewrite Ht1.
    simpl map. cbv iota. change (role (soft_deleted t)) with "deleted".
    change (String.eqb "deleted" "admin") with false. rewrite andb_false_r.
    cbn -[filter update_where String.eqb c1].
    rewrite filter_update_where by reflexivity. rewrite Ht1. reflexivity. }
  rewrite E1, E2. unfold status_of. simpl answer. simpl session.
  repeat split.
  - subst c1. destruct c as [d sn]. simpl. unfold on_cur. simpl. f_equal.
    unfold set_users. simpl. f_equal.
    rewrite update_where_compose by reflexivity. reflexivity.
  - subst c1. simpl. apply map_update_where. reflexivity.
  - exact Ht1.
Qed.

(** Deleting a user does not take the powers of their token away: the
    handlers read the caller's role from the token, never from the users
    table.  After an admin has deleted their own account (their row now
    has the role deleted), the same token still changes the role of any
    existing user, with a healthy store. *)
Theorem deleted_admin_token_still_works user id newRole c t rest :
  String.eqb (claim_role user) "admin" = true ->
  includes Auth.allowedRoles (Some newRole) = true ->
  filter (is_user id) (users (cur c)) = t :: rest ->
  let c1 := session (serve never (Auth.delete_users user (userId user)) c) in
  let r := serve never (Auth.put_users_role user id (Some newRole)) c1 in
  (forall x, In x (filter (is_user (userId user)) (users (cur c1))) -> role x = "deleted")
  /\ status_of r = Some 200
  /\ map role (filter (is_user id) (users (cur (session r)))) = map (fun _ => newRole) (t :: rest).
Proof.
  intros Ha Hnew Ht. cbv zeta.
  assert (E1 : session (serve never (Auth.delete_users user (userId user)) c)
               = on_cur c (set_users (cur c)
                             (update_where (is_user (userId user)) soft_deleted (users (cur c)))
                             (users_seq (cur c)))).
  { assert (Hm : String.eqb (claim_role user) "moderator" = false).
    { apply String.eqb_eq in Ha. now rewrite Ha. }
    unfold Auth.delete_users, serve. rewrite Ha, Hm.
    cbn -[filter update_where String.eqb].
    destruct (filter (is_user (userId user)) (users (cur c))) as [|x xs] eqn:Hx.
    - cbn. rewrite (update_where_none _ _ _ Hx). destruct c as [[] sn]. reflexivity.
    - reflexivity. }
  rewrite E1. set (c1 := on_cur c _).
  assert (Ht1 : filter (is_user id) (users (cur c1))
                = (if is_user (userId user) t then soft_deleted t else t)
                  :: update_where (is_user (userId user)) soft_deleted rest).
  { subst c1. simpl. rewrite filter_update_where_comm by reflexivity. now rewrite Ht. }
  split; [|split].
  - intros x Hx. subst c1. simpl in Hx.
    rewrite filter_update_where in Hx by reflexivity.
    apply in_map_iff in Hx. destruct Hx as [y [<- _]]. reflexivity.
  - unfold Auth.put_users_role, Auth.perform_update, serve, status_of. rewrite Hnew, Ha.
    cbn -[filter update_where String.eqb c1]. rewrite Ht1. reflexivity.
  - unfold Auth.put_users_role, Auth.perform_update, serve. rewrite Hnew, Ha.
    cbn -[filter update_where String.eqb c1]. rewrite Ht1.
    unfold session. cbn -[filter update_where String.eqb c1].
    rewrite filter_update_where by reflexivity. rewrite Ht1.
    unfold update_where. simpl. rewrite !map_map. reflexivity.
Qed.

Lemma only_admins_change_admins_witness :
  filter is_admin_row
    (users (cur (session (serve never (Auth.put_users_role mod_carol 2 (Some "moderator"))
                            (idle users_db)))))
  = [mkUser 4 "dan" (Some "h4") "admin"]
  /\ filter is_admin_row
       (users (cur (session (serve never (Auth.post_promoteToModerator mod_carol 4)
                               (idle users_db)))))
     = [mkUser 4 "dan" (Some "h4") "admin"]
  /\ filter is_admin_row
       (users (cur (session (serve never (Auth.delete_users mod_carol 4) (idle users_db)))))
     = [mkUser 4 "dan" (Some "h4") "admin"].
Proof.
  destruct (only_admins_change_admins never mod_carol 2 (Some "moderator") (idle users_db)
              eq_refl eq_refl) as [H1 _].
  destruct (only_admins_change_admins never mod_carol 4 None (idle users_db)
              eq_refl eq_refl) as [_ [H2 H3]].
  split; [exact H1|]. split; [exact H2 | exact H3].
Defined.

Lemma promote_is_role_change_except_on_admins_witness :
  session (serve never (Auth.post_promoteToModerator mod_carol 2) (idle users_db))
  = session (serve never (Auth.put_users_role mod_carol 2 (Some "moderator")) (idle users_db))
  /\ (let r_promote := serve never (Auth.post_promoteToModerator admin_dan 4) (idle users_db) in
      let r_role := serve never (Auth.put_users_role admin_dan 4 (Some "moderator"))
                      (idle users_db) in
      status_of r_promote = Some 403 /\ session r_promote = idle users_db
      /\ status_of r_role = Some 200
      /\ users (cur (session r_role))
         = update_where (is_user 4) (with_role "moderator") (users users_db)).
Proof.
  split.
  - exact (proj1 (promote_is_role_change_except_on_admins never mod_carol 2 (idle users_db)
                    (mkUser 2 "bob" (Some "h2") "user") [] eq_refl) eq_refl).
  - exact (proj2 (promote_is_role_change_except_on_admins never admin_dan 4 (idle users_db)
                    (mkUser 4 "dan" (Some "h4") "admin") [] eq_refl) eq_refl).
Defined.

Lemma soft_delete_keeps_the_row_and_is_idempotent_witness :
  let r1 := serve never (Auth.delete_users mod_carol 2) (idle users_db) in
  let r2 := serve never (Auth.delete_users mod_carol 2) (session r1) in
  status_of r1 = Some 200 /\ status_of r2 = Some 200
  /\ session r2 = session r1
  /\ map user_id (users (cur (session r1))) = [1; 2; 3; 4]
  /\ filter (is_user 2) (users (cur (session r1)))
     = [mkUser 2 "[DELETED USER]" None "deleted"].
Proof.
  exact (soft_delete_keeps_the_row_and_is_idempotent mod_carol 2 (idle users_db)
           (mkUser 2 "bob" (Some "h2") "user") [] eq_refl eq_refl eq_refl).
Defined.

Lemma deleted_admin_token_still_works_witness :
  let c1 := session (serve never (Auth.delete_users admin_dan 4) (idle users_db)) in
  let r := serve never (Auth.put_users_role admin_dan 1 (Some "admin")) c1 in
  (forall x, In x (filter (is_user 4) (users (cur c1))) -> role x = "deleted")
  /\ status_of r = Some 200
  /\ map role (filter (is_user 1) (users (cur (session r)))) = ["admin"].
Proof.
  exact (deleted_admin_token_still_works admin_dan 1 "admin" (idle users_db)
           (mkUser 1 "alice" (Some "h1") "user") [] eq_refl eq_refl eq_refl).
Defined.

(** ** Role administration: the check and the write are two statements *)

(** The role route decides on the row it read and then updates by id alone.
    When a moderator's request to make a user moderator and an admin's
    request to make the same user admin take turns on the connection, the
    admin's one statement ahead, both are answered 200, the target is an
    admin when the moderator's UPDATE arrives, and it ends as a moderator:
    the request of a moderator has changed the role of an admin. *)
Theorem role_check_races_with_update m a id c t rest :
  claim_role m = "moderator" -> claim_role a = "admin" ->
  filter (is_user id) (users (cur c)) = t :: rest ->
  String.eqb (role t) "admin" = false ->
  let by_moderator := Auth.put_users_role m id (Some "moderator") in
  let by_admin := Auth.put_users_role a id (Some "admin") in
  let '(_, _, c1) := interleave [Second; First; Second] by_moderator by_admin c in
  let '(rm, ra, c2) := interleave [Second; First; Second; First] by_moderator by_admin c in
  option_map status (finished rm) = Some 200
  /\ option_map status (finished ra) = Some 200
  /\ map role (filter (is_user id) (users (cur c1))) = map (fun _ => "admin") (t :: rest)
  /\ map role (filter (is_user id) (users (cur c2))) = map (fun _ => "moderator") (t :: rest).
Proof.
  intros Hm Ha Hfind Ht.
  destruct m as [mid mname mrole], a as [aid aname arole]. simpl in Hm, Ha. subst.
  unfold Auth.put_users_role.
  change (includes Auth.allowedRoles (Some "moderator")) with true.
  change (includes Auth.allowedRoles (Some "admin")) with true.
  cbn -[filter update_where String.eqb].
  rewrite Hfind.
  cbn -[filter update_where String.eqb].
  rewrite Ht.
  cbn -[filter update_where].
  split; [reflexivity|]. split; [reflexivity|].
  rewrite update_where_compose by reflexivity.
  rewrite !filter_update_where by reflexivity.
  rewrite Hfind. simpl. rewrite !map_map. split; reflexivity.
Qed.

Lemma role_check_races_with_update_witness :
  let by_moderator := Auth.put_users_role mod_carol 2 (Some "moderator") in
  let by_admin := Auth.put_users_role admin_dan 2 (Some "admin") in
  let '(_, _, c1) :=
    interleave [Second; First; Second] by_moderator by_admin (idle users_db) in
  let '(rm, ra, c2) :=
    interleave [Second; First; Second; First] by_moderator by_admin (idle users_db) in
  option_map status (finished rm) = Some 200
  /\ option_map status (finished ra) = Some 200
  /\ map role (filter (is_user 2) (users (cur c1))) = ["admin"]
  /\ map role (filter (is_user 2) (users (cur c2))) = ["moderator"].
Proof.
  exact (role_check_races_with_update mod_carol admin_dan 2 (idle users_db)
           (mkUser 2 "bob" (Some "h2") "user") [] eq_refl eq_refl eq_refl eq_refl).
Defined.

(** ** The token middleware *)

Lemma after_space_scheme s t :
  no_space s = true -> after_space (s ++ String " " t) = Some t.
Proof.
  induction s as [|c s IH]; simpl; [reflexivity|].
  intros H. apply andb_true_iff in H. destruct H as [Hc Hs].
  apply negb_true_iff in Hc. rewrite Hc. now apply IH.
Qed.

Lemma after_space_none s : no_space s = true -> after_space s = None.
Proof.
  induction s as [|c s IH]; simpl; [reflexivity|].
  intros H. apply andb_true_iff in H. destruct H as [Hc Hs].
  apply negb_true_iff in Hc. rewrite Hc. now apply IH.
Qed.

Lemma truthy_scheme s t : truthy (Some (s ++ String " " t)) = true.
Proof. destruct s; reflexivity. Qed.

(** The middleware never looks at the first word of the Authorization
    header: whatever the scheme, it verifies the text between the first and
    the second space, so two headers that differ only in the scheme are
    treated alike; a non-empty header without a space has no token to
    verify ([jwt.verify] gets [undefined]). *)
Theorem middleware_ignores_the_scheme jwt_verify s1 s2 t next :
  no_space s1 = true -> no_space s2 = true ->
  Auth.authMiddleware jwt_verify (Some (s1 ++ String " " t)) next
  = match jwt_verify (Some (upto_space t)) with
    | Some decoded => next decoded
    | None => Ret (res_status_send 401 "Invalid token")
    end
  /\ Auth.authMiddleware jwt_verify (Some (s1 ++ String " " t)) next
     = Auth.authMiddleware jwt_verify (Some (s2 ++ String " " t)) next
  /\ (s1 <> EmptyString ->
      Auth.authMiddleware jwt_verify (Some s1) next
      = match jwt_verify None with
        | Some decoded => next decoded
        | None => Ret (res_status_send 401 "Invalid token")
        end).
Proof.
  intros H1 H2.
  assert (E : forall s, no_space s = true ->
              Auth.authMiddleware jwt_verify (Some (s ++ String " " t)) next
              = match jwt_verify (Some (upto_space t)) with
                | Some decoded => next decoded
                | None => Ret (res_status_send 401 "Invalid token")
                end).
  { intros s Hs. unfold Auth.authMiddleware. rewrite truthy_scheme. simpl negb. cbv iota.
    unfold split_1. simpl str. now rewrite (after_space_scheme s t Hs). }
  split; [exact (E s1 H1)|]. split; [now rewrite (E s1 H1), (E s2 H2)|].
  intros Hne. unfold Auth.authMiddleware.
  assert (Ht : truthy (Some s1) = true) by (destruct s1; [contradiction | reflexivity]).
  rewrite Ht. simpl negb. cbv iota. unfold split_1. simpl str.
  now rewrite (after_space_none s1 H1).
Qed.

Lemma middleware_ignores_the_scheme_witness :
  let next := fun user => Auth.put_comments user 5 (Some "edited") in
  Auth.authMiddleware sample_verify (Some "Basic alice") next = next alice
  /\ Auth.authMiddleware sample_verify (Some "Basic alice") next
     = Auth.authMiddleware sample_verify (Some "Bearer alice") next
  /\ Auth.authMiddleware sample_verify (Some "alice") next
     = Ret (res_status_send 401 "Invalid token").
Proof.
  destruct (middleware_ignores_the_scheme sample_verify "Basic" "Bearer" "alice"
              (fun user => Auth.put_comments user 5 (Some "edited")) eq_refl eq_refl)
    as [H1 [H2 _]].
  destruct (middleware_ignores_the_scheme sample_verify "alice" "Bearer" "x"
              (fun user => Auth.put_comments user 5 (Some "edited")) eq_refl eq_refl)
    as [_ [_ H3]].
  split; [exact H1|]. split; [exact H2|]. apply H3. discriminate.
Defined.

(** ** The restaurants write path *)

Lemma upsert_finds_its_row r d :
  truthy (rest_name r) = true \/ rest_name r <> None ->
  let '(ids, d') := upsert_restaurant r d in
  exists i rest more,
    ids = i :: rest
    /\ filter (name_conflict r) (restaurants d') = with_rest_id i r :: more
    /\ (filter (name_conflict r) (restaurants d) = [] ->
        List.length (restaurants d') = S (List.length (restaurants d)))
    /\ (filter (name_conflict r) (restaurants d) <> [] ->
        List.length (restaurants d') = List.length (restaurants d)).
Proof.
  intros Hname.
  assert (Hself : forall i, name_conflict r (with_rest_id i r) = true).
  { intros i. unfold name_conflict, opt_eqb. simpl.
    destruct (rest_name r) as [n|].
    - apply String.eqb_refl.
    - destruct Hname as [H | H]; [discriminate | contradiction]. }
  unfold upsert_restaurant.
  destruct (filter (name_conflict r) (restaurants d)) as [|x xs] eqn:Hhit.
  - exists (restaurants_seq d), [], []. simpl.
    rewrite filter_app, Hhit. simpl. rewrite Hself.
    repeat split; try reflexivity.
    + intros _. rewrite length_app. simpl. lia.
    + intros H. contradiction.
  - exists (rest_id x), (map rest_id xs), (map (fun y => with_rest_id (rest_id y) r) xs).
    simpl.
    rewrite filter_update_where_on by (intros a _; apply Hself).
    rewrite Hhit. repeat split; try reflexivity.
    + intros H. discriminate.
    + intros _. unfold update_where. apply length_map.
Qed.

(** The row POST /restaurants sends to the store: the body's name, flags and
    address with the fields of the first document. *)
Lemma post_restaurants_ok fails doc docs parsed name addr flags c :
  parseKakaoDoc doc = Some parsed ->
  fails 0%nat = false ->
  let row := mkRestaurant 0 name flags (siDo parsed) (siGunGu parsed)
               (eupMyeonDong parsed) (postalCode parsed) (roadName parsed)
               addr (lon parsed, lat parsed) in
  serve fails (post_restaurants (Some (Some (doc :: docs))) name addr flags) c
  = match fst (upsert_restaurant row (cur c)) with
    | newId :: _ =>
        (Some (ok_json [("success", JBool true); ("id", JNum newId)]),
         on_cur c (snd (upsert_restaurant row (cur c))), 1%nat)
    | [] => (Some internal_error, on_cur c (snd (upsert_restaurant row (cur c))), 1%nat)
    end.
Proof.
  intros Hp Hf. cbv zeta. unfold post_restaurants, serve. rewrite Hp.
  cbn -[upsert_restaurant]. rewrite Hf.
  cbn -[upsert_restaurant].
  destruct (upsert_restaurant _ (cur c)) as [ids d'].
  destruct ids; reflexivity.
Qed.

Lemma upsert_row_in r d :
  let '(ids, d') := upsert_restaurant r d in
  exists i rest, ids = i :: rest /\ In (with_rest_id i r) (restaurants d').
Proof.
  unfold upsert_restaurant.
  destruct (filter (name_conflict r) (restaurants d)) as [|x xs] eqn:Hhit.
  - exists (restaurants_seq d), []. split; [reflexivity|].
    simpl. apply in_or_app. right. now left.
  - exists (rest_id x), (map rest_id xs). split; [reflexivity|].
    simpl. destruct (first_of_filter _ _ _ _ Hhit) as [Hin Hx].
    unfold update_where. apply in_map_iff. exists x. now rewrite Hx.
Qed.

(** POST /restaurants either answers 200, and then the table holds a row
    with the name, flags and address of the body and the fields geocoded
    from the first document, under the id it answers; or it answers 400 or
    500 and the session is as before.  This holds whatever the geocoder
    replies and whatever the store rejects. *)
Theorem restaurant_is_stored_or_nothing_changes fails reply name addr flags c :
  let r := serve fails (post_restaurants reply name addr flags) c in
  (status_of r = Some 200
   /\ exists doc docs parsed newId,
        reply = Some (Some (doc :: docs))
        /\ parseKakaoDoc doc = Some parsed
        /\ answer r = Some (ok_json [("success", JBool true); ("id", JNum newId)])
        /\ In (mkRestaurant newId name flags (siDo parsed) (siGunGu parsed)
                 (eupMyeonDong parsed) (postalCode parsed) (roadName parsed)
                 addr (lon parsed, lat parsed))
              (restaurants (cur (session r))))
  \/ ((status_of r = Some 400 \/ status_of r = Some 500) /\ session r = c).
Proof.
  cbv zeta.
  destruct reply as [[[|doc docs]|]|].
  - right. split; [left|]; reflexivity.
  - destruct (parseKakaoDoc doc) as [parsed|] eqn:Hp.
    2:{ right. unfold post_restaurants, serve. rewrite Hp. split; [right|]; reflexivity. }
    destruct (fails 0%nat) eqn:Hf.
    { right. unfold post_restaurants, serve. rewrite Hp. cbn -[upsert_restaurant].
      rewrite Hf. split; [right|]; reflexivity. }
    left. rewrite (post_restaurants_ok fails doc docs parsed name addr flags c Hp Hf).
    set (row := mkRestaurant 0 name flags _ _ _ _ _ addr _).
    pose proof (upsert_row_in row (cur c)) as Hup.
    destruct (upsert_restaurant row (cur c)) as [ids d'].
    destruct Hup as [i [rest [Hids Hin]]].
    subst ids. simpl fst. simpl snd. cbv iota. split; [reflexivity|].
    exists doc, docs, parsed, i. repeat split; try reflexivity; try assumption.
  - right. split; [left|]; reflexivity.
  - right. split; [right|]; reflexivity.
Qed.

(** Two POST /restaurants with the same name, each geocoded and with a
    healthy store, answer the same id; the second adds no row, and every
    row of that name then carries the flags, the address and the geocoded
    fields of the second request. *)
Theorem same_name_is_one_restaurant n doc1 docs1 p1 addr1 flags1
    doc2 docs2 p2 addr2 flags2 c :
  parseKakaoDoc doc1 = Some p1 -> parseKakaoDoc doc2 = Some p2 ->
  let r1 := serve never (post_restaurants (Some (Some (doc1 :: docs1))) (Some n) addr1 flags1) c in
  let r2 := serve never (post_restaurants (Some (Some (doc2 :: docs2))) (Some n) addr2 flags2)
              (session r1) in
  exists newId,
    answer r1 = Some (ok_json [("success", JBool true); ("id", JNum newId)])
    /\ answer r2 = Some (ok_json [("success", JBool true); ("id", JNum newId)])
    /\ List.length (restaurants (cur (session r2)))
       = List.length (restaurants (cur (session r1)))
    /\ forall x, In x (restaurants (cur (session r2))) -> rest_name x = Some n ->
         x = mkRestaurant (rest_id x) (Some n) flags2 (siDo p2) (siGunGu p2)
               (eupMyeonDong p2) (postalCode p2) (roadName p2) addr2 (lon p2, lat p2).
Proof.
  intros Hp1 Hp2. cbv zeta.
  rewrite (post_restaurants_ok never doc1 docs1 p1 (Some n) addr1 flags1 c Hp1 eq_refl).
  set (row1 := mkRestaurant 0 (Some n) flags1 _ _ _ _ _ addr1 _).
  pose proof (upsert_finds_its_row row1 (cur c)) as Hup.
  destruct (upsert_restaurant row1 (cur c)) as [ids d1].
  destruct Hup as [i [rest [more [Hids [Hfound _]]]]]; [right; discriminate|].
  subst ids. simpl fst. simpl snd. cbv iota. simpl session.
  rewrite (post_restaurants_ok never doc2 docs2 p2 (Some n) addr2 flags2 _ Hp2 eq_refl).
  set (row2 := mkRestaurant 0 (Some n) flags2 _ _ _ _ _ addr2 _).
  cbn [session fst snd]. change (cur (on_cur c d1)) with d1.
  unfold upsert_restaurant.
  change (name_conflict row2) with (name_conflict row1). rewrite Hfound.
  cbn [fst snd map]. cbv iota. cbn [session answer fst snd].
  exists i. split; [reflexivity|]. split; [reflexivity|]. split.
  - simpl. unfold update_where. apply length_map.
  - simpl. intros x Hx Hn. unfold update_where in Hx. apply in_map_iff in Hx.
    destruct Hx as [y [<- Hy]].
    destruct (name_conflict row1 y) eqn:Hc.
    + reflexivity.
    + unfold name_conflict, opt_eqb in Hc. simpl in Hc.
      rewrite Hn in Hc. now rewrite String.eqb_refl in Hc.
Qed.

Lemma same_name_is_one_restaurant_witness :
  let r1 := serve never (post_restaurants (Some (Some [road_doc])) (Some "Kimbap House")
                           (Some "Nonhyeon-ro 12") [Some true]) (idle empty_db) in
  let r2 := serve never (post_restaurants (Some (Some [plain_doc])) (Some "Kimbap House")
                           (Some "Myeong-dong") [Some false]) (session r1) in
  exists newId,
    answer r1 = Some (ok_json [("success", JBool true); ("id", JNum newId)])
    /\ answer r2 = Some (ok_json [("success", JBool true); ("id", JNum newId)])
    /\ List.length (restaurants (cur (session r2)))
       = List.length (restaurants (cur (session r1)))
    /\ forall x, In x (restaurants (cur (session r2))) -> rest_name x = Some "Kimbap House" ->
         x = mkRestaurant (rest_id x) (Some "Kimbap House") [Some false]
               (Some "Seoul") (Some "Jung-gu") (Some "Myeong-dong")
               (Some EmptyString) (Some EmptyString) (Some "Myeong-dong")
               (parseFloat (Some "126.9"), parseFloat (Some "37.5")).
Proof.
  exact (same_name_is_one_restaurant "Kimbap House" road_doc [] _ (Some "Nonhyeon-ro 12")
           [Some true] plain_doc [] _ (Some "Myeong-dong") [Some false] (idle empty_db)
           eq_refl eq_refl).
Defined.

(** ** GET /api/restaurants: placeholders and ignored parameters *)


Lemma bound_app vals more k p :
  bound vals k = Some p -> bound (vals ++ more) k = Some p.
Proof.
  destruct k as [|i]; simpl; [discriminate|].
  intros H. rewrite nth_error_app1; [exact H|].
  apply nth_error_Some. now rewrite H.
Qed.

Lemma well_bound_app vals more c :
  well_bound vals c = true -> well_bound (vals ++ more) c = true.
Proof.
  assert (Hf : forall k, is_float (bound vals k) = true ->
                         is_float (bound (vals ++ more) k) = true).
  { intros k. destruct (bound vals k) as [p|] eqn:Hb; [|discriminate].
    now rewrite (bound_app _ more _ _ Hb). }
  assert (Ht : forall k, is_text (bound vals k) = true ->
                         is_text (bound (vals ++ more) k) = true).
  { intros k. destruct (bound vals k) as [p|] eqn:Hb; [|discriminate].
    now rewrite (bound_app _ more _ _ Hb). }
  assert (Hb : forall k, is_bool (bound vals k) = true ->
                         is_bool (bound (vals ++ more) k) = true).
  { intros k. destruct (bound vals k) as [p|] eqn:Hk; [|discriminate].
    now rewrite (bound_app _ more _ _ Hk). }
  destruct c as [a b c d | k | col k]; simpl.
  - rewrite !andb_true_iff. intros [[[H1 H2] H3] H4]. auto.
  - apply Ht.
  - apply Hb.
Qed.

Lemma bound_new vals more i :
  bound (vals ++ more) (List.length vals + S i) = nth_error more i.
Proof.
  replace (List.length vals + S i)%nat with (S (List.length vals + i)) by lia.
  simpl. rewrite nth_error_app2 by lia.
  f_equal. lia.
Qed.

(** Adding one condition whose placeholders are the next numbers, with the
    values it is bound to. *)
Lemma well_numbered_add q c more :
  well_numbered q ->
  placeholders c = seq (1 + List.length (values q)) (List.length more) ->
  well_bound (values q ++ more) c = true ->
  well_numbered (mkQuery (conditions q ++ [c]) (values q ++ more)).
Proof.
  intros [Hn Hb] Hc Hw. split; simpl.
  - rewrite flat_map_app, Hn. simpl. rewrite app_nil_r, Hc.
    rewrite length_app. now rewrite seq_app.
  - rewrite forallb_app. simpl. rewrite Hw, andb_true_r.
    rewrite forallb_forall in *. intros x Hx. apply well_bound_app. now apply Hb.
Qed.

Lemma addBoolCondition_numbered column v q :
  well_numbered q -> well_numbered (addBoolCondition column v q).
Proof.
  intros H. unfold addBoolCondition. destruct (parseBool v) as [b|]; [|exact H].
  apply well_numbered_add; [exact H | simpl; f_equal; lia |].
  simpl. replace (List.length (values q) + 1)%nat with (List.length (values q) + 1)%nat
    by reflexivity.
  rewrite (bound_new (values q) [PBool b] 0). reflexivity.
Qed.

Lemma add_name_numbered f q : well_numbered q -> well_numbered (add_name f q).
Proof.
  intros H. unfold add_name. destruct (truthy (q_name f)); [|exact H].
  apply well_numbered_add; [exact H | simpl; f_equal; lia |].
  simpl. rewrite (bound_new (values q) [PText _] 0). reflexivity.
Qed.

Lemma add_envelope_numbered f q : well_numbered q -> well_numbered (add_envelope f q).
Proof.
  intros H. unfold add_envelope.
  destruct (negb _ && negb _ && negb _ && negb _); [|exact H].
  apply well_numbered_add; [exact H | |].
  - simpl. repeat f_equal; lia.
  - simpl.
    rewrite (bound_new (values q) [PFloat _; PFloat _; PFloat _; PFloat _] 0),
      (bound_new (values q) [PFloat _; PFloat _; PFloat _; PFloat _] 1),
      (bound_new (values q) [PFloat _; PFloat _; PFloat _; PFloat _] 2),
      (bound_new (values q) [PFloat _; PFloat _; PFloat _; PFloat _] 3).
    reflexivity.
Qed.

(** For every query string, the conditions GET /api/restaurants builds use
    the placeholders 1, 2, ... in order, one for each value it passes and
    no other, and each placeholder is bound to a value of the kind its
    condition compares with: four floats for the envelope, a text for the
    name, a boolean for a flag. *)
Theorem restaurants_query_placeholders f :
  flat_map placeholders (conditions (restaurants_query f))
  = seq 1 (List.length (values (restaurants_query f)))
  /\ forallb (well_bound (values (restaurants_query f)))
       (conditions (restaurants_query f)) = true.
Proof.
  unfold restaurants_query. cbv zeta.
  do 8 apply addBoolCondition_numbered.
  apply add_name_numbered, add_envelope_numbered.
  split; reflexivity.
Qed.

Lemma parseBool_unread v : unread_flag v -> parseBool v = None.
Proof.
  intros [Ht Hf]. destruct v as [s|]; [|reflexivity]. unfold parseBool.
  destruct (String.eqb_spec s "true") as [->|_]; [now elim Ht|].
  destruct (String.eqb_spec s "false") as [->|_]; [now elim Hf | reflexivity].
Qed.

Lemma addBool_same column v w q :
  same_flag v w -> addBoolCondition column v q = addBoolCondition column w q.
Proof.
  intros [->|[Hv Hw]]; [reflexivity|].
  unfold addBoolCondition. now rewrite (parseBool_unread v Hv), (parseBool_unread w Hw).
Qed.

Lemma add_name_same f g q :
  same_name (q_name f) (q_name g) -> add_name f q = add_name g q.
Proof.
  unfold add_name. intros [->|[Hv Hw]]; [reflexivity|].
  assert (H : forall v, unread_name v -> truthy v = false).
  { intros v [->| ->]; reflexivity. }
  now rewrite (H _ Hv), (H _ Hw).
Qed.

Lemma skip_ws_letter c r : is_letter c = true -> skip_ws (String c r) = String c r.
Proof.
  intros Hc.
  destruct c as [[] [] [] [] [] [] [] []]; try discriminate Hc;
    destruct r as [|c2 [|c3 r3]]; reflexivity.
Qed.

Lemma no_number_isNaN v : no_number v -> isNaN (parseFloat v) = true.
Proof.
  intros [->|[->|[c [r [-> [Hc HI]]]]]]; try reflexivity.
  unfold isNaN, float_prefix. rewrite (skip_ws_letter c r Hc).
  destruct c as [[] [] [] [] [] [] [] []]; try discriminate Hc;
    try reflexivity; now elim HI.
Qed.

Lemma no_box_envelope f q : no_box f -> add_envelope f q = q.
Proof.
  unfold add_envelope. cbv zeta.
  intros [H|[H|[H|H]]]; rewrite (no_number_isNaN _ H); simpl;
    rewrite ?andb_false_r; reflexivity.
Qed.

Lemma add_envelope_same f g q : same_box f g -> add_envelope f q = add_envelope g q.
Proof.
  intros [[H1 [H2 [H3 H4]]] | [Hf Hg]].
  - unfold add_envelope. now rewrite H1, H2, H3, H4.
  - now rewrite (no_box_envelope f q Hf), (no_box_envelope g q Hg).
Qed.

Lemma addBool_one_more column v q :
  (List.length (conditions (addBoolCondition column v q))
   <= S (List.length (conditions q)))%nat.
Proof.
  unfold addBoolCondition. destruct (parseBool v); simpl; [|lia].
  rewrite length_app. simpl. lia.
Qed.

Lemma add_name_one_more f q :
  (List.length (conditions (add_name f q)) <= S (List.length (conditions q)))%nat.
Proof.
  unfold add_name. destruct (truthy (q_name f)); simpl; [|lia].
  rewrite length_app. simpl. lia.
Qed.

Lemma add_envelope_one_more f q :
  (List.length (conditions (add_envelope f q)) <= S (List.length (conditions q)))%nat.
Proof.
  unfold add_envelope. destruct (negb _ && negb _ && negb _ && negb _); simpl; [|lia].
  rewrite length_app. simpl. lia.
Qed.

(** Parameters that impose no condition are dropped silently.  Two query
    strings give the same conditions and values when, parameter by
    parameter, they carry the same text or texts the handler does not read:
    for a flag any text other than true and false (TRUE, 1, yes) or none at
    all; for the name the empty text or none; for the bounding box a corner
    that is missing, empty or begins with a letter other than I, whatever
    the other three corners are.  With no parameter there is no condition
    and no value, and there are never more than ten conditions. *)
Theorem restaurants_query_ignores f g :
  same_conditions f g ->
  restaurants_query f = restaurants_query g
  /\ restaurants_query no_filter = mkQuery [] []
  /\ (List.length (conditions (restaurants_query f)) <= 10)%nat.
Proof.
  intros [Hbox [Hname [H1 [H2 [H3 [H4 [H5 [H6 [H7 H8]]]]]]]]].
  split; [|split; [reflexivity|]].
  - unfold restaurants_query. cbv zeta.
    rewrite (add_envelope_same f g _ Hbox), (add_name_same f g _ Hname).
    rewrite (addBool_same _ _ _ _ H1), (addBool_same _ _ _ _ H2),
      (addBool_same _ _ _ _ H3), (addBool_same _ _ _ _ H4), (addBool_same _ _ _ _ H5),
      (addBool_same _ _ _ _ H6), (addBool_same _ _ _ _ H7), (addBool_same _ _ _ _ H8).
    reflexivity.
  - unfold restaurants_query. cbv zeta.
    repeat (etransitivity; [apply addBool_one_more|]; apply le_n_S).
    etransitivity; [apply add_name_one_more|]. apply le_n_S.
    etransitivity; [apply add_envelope_one_more|]. simpl. lia.
Qed.

Lemma restaurants_query_ignores_witness :
  restaurants_query unread_filter = restaurants_query no_filter
  /\ restaurants_query no_filter = mkQuery [] []
  /\ (List.length (conditions (restaurants_query unread_filter)) <= 10)%nat.
Proof.
  apply (restaurants_query_ignores unread_filter no_filter).
  unfold same_conditions, unread_filter, no_filter; simpl.
  split.
  { right. split; right; left.
    - right. right. exists "n"%char, "orth". repeat split. discriminate.
    - left. reflexivity. }
  split.
  { right. split; [right | left]; reflexivity. }
  repeat split;
    first [ left; reflexivity
          | right; repeat split; discriminate ].
Defined.

(** ** Overlapping requests, in general *)

(** For every post that exists and every two callers without a ledger row
    for it, two upvotes whose statements take turns on the connection both
    answer success with the old counter plus one: the ledger gains two +1
    rows and the counter of the post rises by one only. *)
Theorem overlapping_upvotes_count_once a b id P c post rest :
  parseInt id = Some P -> P <> 0 -> snap c = None ->
  filter (is_post P) (posts (cur c)) = post :: rest ->
  map vote_type (filter (same_pair (userId a) P) (post_votes (cur c))) = [] ->
  map vote_type (filter (same_pair (userId b) P) (post_votes (cur c))) = [] ->
  let '(ra, rb, c') := interleave (turns 6) (Auth.upvote a id) (Auth.upvote b id) c in
  let upvoted := ok_json [("success", JBool true); ("upvotes", JNum (upvotes post + 1));
                          ("message", JStr "Upvoted!")] in
  finished ra = Some upvoted /\ finished rb = Some upvoted
  /\ c' = idle (write_both
                  (post_votes (cur c) ++ [mkVote (userId a) P 1; mkVote (userId b) P 1])
                  (update_where (is_post P) (with_upvotes (upvotes post + 1)) (posts (cur c)))
                  (cur c))
  /\ count_votes 1 P (post_votes (cur c')) = count_votes 1 P (post_votes (cur c)) + 2
  /\ map upvotes (filter (is_post P) (posts (cur c')))
     = map (fun _ => upvotes post + 1) (post :: rest).
Proof.
  intros HP HP0 Hs Hpost Ha Hb.
  destruct c as [d sn]. simpl in Hs. subst sn. simpl cur in *.
  apply Z.eqb_neq in HP0.
  unfold Auth.upvote. rewrite HP, HP0.
  cbn -[filter update_where Z.add Z.eqb count_votes].
  rewrite Hpost. cbn -[filter update_where Z.add Z.eqb count_votes].
  rewrite Ha, Hb. cbn -[filter update_where Z.add Z.eqb count_votes].
  rewrite update_where_compose by reflexivity.
  assert (Hposts : update_where (is_post P)
                     (fun p => with_upvotes (upvotes post + 1)
                                 (with_upvotes (upvotes post + 1) p)) (posts d)
                   = update_where (is_post P) (with_upvotes (upvotes post + 1)) (posts d)).
  { apply update_where_ext_in. intros p _ _. reflexivity. }
  rewrite Hposts.
  split; [reflexivity|]. split; [reflexivity|]. split; [|split].
  - unfold idle, write_both, set_posts, set_post_votes. simpl.
    now rewrite <- app_assoc.
  - rewrite !count_votes_app. unfold counts_as. simpl. rewrite Z.eqb_refl. simpl. lia.
  - rewrite filter_update_where by reflexivity. rewrite Hpost, map_map. reflexivity.
Qed.


Lemma overlapping_upvotes_count_once_witness :
  let '(ra, rb, c') :=
    interleave (turns 6) (Auth.upvote alice "7") (Auth.upvote bob "7") (idle fresh_post_db) in
  let upvoted := ok_json [("success", JBool true); ("upvotes", JNum 1);
                          ("message", JStr "Upvoted!")] in
  finished ra = Some upvoted /\ finished rb = Some upvoted
  /\ c' = idle (mkDB [mkPost 7 1 1 0] [mkVote 1 7 1; mkVote 2 7 1] [] 1 [] [] 1)
  /\ count_votes 1 7 (post_votes (cur c')) = 0 + 2
  /\ map upvotes (filter (is_post 7) (posts (cur c'))) = [1].
Proof.
  refine (overlapping_upvotes_count_once alice bob "7" 7 (idle fresh_post_db)
            (mkPost 7 1 0 0) [] _ _ _ _ _ _); first [reflexivity | discriminate].
Defined.

(** ** Posts, comments, profiles and login *)

Import Forum.

Lemma first_author {A : Type} (f : A -> Z) (w : A -> bool) (l : list A) a rest :
  map f (filter w l) = a :: rest ->
  exists x xs, filter w l = x :: xs /\ f x = a.
Proof.
  destruct (filter w l) as [|x xs]; [discriminate|].
  simpl. intros H. injection H as H _. now exists x, xs.
Qed.

(** On an existing post, edit and delete are carried out exactly for the
    post's author and for a moderator or an admin: they answer 200, the
    edit rewrites title, content and subcategory of the post and the delete
    removes the rows of that id and no other; anyone else is answered 403
    and, whatever the store rejects, the tables stay as they were. *)
Theorem post_change_needs_author_or_moderator vd user id t c sub s a rest :
  map author_id (filter (is_article id) (articles s)) = a :: rest ->
  let r_put := handle vd never (update_post user id t c sub) s in
  let r_del := handle vd never (delete_post user id) s in
  if (a =? userId user) || isModOrAdmin user
  then code r_put = Some 200
       /\ articles (site r_put)
          = update_where (is_article id) (with_article_text t c (id_or_null sub)) (articles s)
       /\ code r_del = Some 200
       /\ articles (site r_del) = filter (fun x => negb (is_article id x)) (articles s)
       /\ members (site r_put) = members s /\ members (site r_del) = members s
  else code r_put = Some 403 /\ code r_del = Some 403
       /\ forall fails,
            site (handle vd fails (update_post user id t c sub) s) = s
            /\ site (handle vd fails (delete_post user id) s) = s.
Proof.
  intros Ha. cbv zeta.
  destruct (first_author _ _ _ _ _ Ha) as [x [xs [Hx _]]].
  unfold update_post, delete_post, handle, code, outcome, site.
  destruct ((a =? userId user) || isModOrAdmin user) eqn:Hallowed.
  - assert (Hg : negb (a =? userId user) && negb (isModOrAdmin user) = false).
    { apply orb_true_iff in Hallowed. destruct Hallowed as [-> | ->];
        [reflexivity | apply andb_false_r]. }
    cbn -[filter update_where Z.eqb isModOrAdmin]. rewrite Ha, Hg.
    cbn -[filter update_where Z.eqb isModOrAdmin].
    rewrite filter_update_where by reflexivity. rewrite Hx.
    cbn -[filter update_where Z.eqb isModOrAdmin]. repeat split; reflexivity.
  - assert (Hg : negb (a =? userId user) && negb (isModOrAdmin user) = true).
    { apply orb_false_iff in Hallowed. destruct Hallowed as [-> ->]. reflexivity. }
    cbn -[filter update_where Z.eqb isModOrAdmin]. rewrite Ha, Hg.
    split; [reflexivity|]. split; [reflexivity|].
    intros fails. destruct (fails 0%nat); cbn -[filter update_where Z.eqb isModOrAdmin];
      [split; reflexivity|].
    rewrite ?Ha, ?Hg. split; reflexivity.
Qed.

Lemma post_change_needs_author_or_moderator_witness :
  let r_put :=
    handle sample_defaults never (update_post bob 7 (Some "t") (Some "c") None) sample_site in
  let r_del := handle sample_defaults never (delete_post bob 7) sample_site in
  code r_put = Some 403 /\ code r_del = Some 403
  /\ forall fails,
       site (handle sample_defaults fails (update_post bob 7 (Some "t") (Some "c") None)
               sample_site)
       = sample_site
       /\ site (handle sample_defaults fails (delete_post bob 7) sample_site) = sample_site.
Proof.
  exact (post_change_needs_author_or_moderator sample_defaults bob 7 (Some "t") (Some "c") None
           sample_site 1 [] eq_refl).
Defined.


(** Unlike the edit, the deletion of an existing comment is open to its
    author and to every moderator and admin: it answers 200 and removes the
    rows of that id and no other; anyone else is answered 403 and changes
    nothing, whatever the store rejects. *)
Theorem comment_delete_needs_author_or_moderator vd user id s a rest :
  map comment_author (filter (is_comment id) (remarks s)) = a :: rest ->
  let r := handle vd never (delete_comment user id) s in
  if (a =? userId user) || isModOrAdmin user
  then code r = Some 200
       /\ remarks (site r) = filter (fun x => negb (is_comment id x)) (remarks s)
       /\ members (site r) = members s /\ articles (site r) = articles s
  else code r = Some 403
       /\ forall fails, site (handle vd fails (delete_comment user id) s) = s.
Proof.
  intros Ha. cbv zeta.
  unfold delete_comment, handle, code, outcome, site.
  destruct ((a =? userId user) || isModOrAdmin user) eqn:Hallowed.
  - assert (Hg : negb (a =? userId user) && negb (isModOrAdmin user) = false).
    { apply orb_true_iff in Hallowed. destruct Hallowed as [-> | ->];
        [reflexivity | apply andb_false_r]. }
    cbn -[filter update_where Z.eqb isModOrAdmin]. rewrite Ha, Hg.
    cbn -[filter update_where Z.eqb isModOrAdmin]. repeat split; reflexivity.
  - assert (Hg : negb (a =? userId user) && negb (isModOrAdmin user) = true).
    { apply orb_false_iff in Hallowed. destruct Hallowed as [-> ->]. reflexivity. }
    cbn -[filter update_where Z.eqb isModOrAdmin]. rewrite Ha, Hg.
    split; [reflexivity|].
    intros fails. destruct (fails 0%nat); cbn -[filter update_where Z.eqb isModOrAdmin];
      [reflexivity|].
    rewrite ?Ha, ?Hg. reflexivity.
Qed.

Lemma comment_delete_needs_author_or_moderator_witness :
  let r := handle sample_defaults never (delete_comment mod_carol 5) sample_site in
  code r = Some 200
  /\ remarks (site r) = filter (fun x => negb (is_comment 5 x)) (remarks sample_site)
  /\ members (site r) = members sample_site /\ articles (site r) = articles sample_site.
Proof.
  exact (comment_delete_needs_author_or_moderator sample_defaults mod_carol 5 sample_site 1 []
           eq_refl).
Defined.


(** POST /community/comments takes no token: with a post id, an author id
    (0 counts as missing) and a text present, it stores a comment under the
    author id of the body, whoever sends the request, and otherwise answers
    400 before any statement.  The user of that id, and only that user
    besides moderators and admins, may then delete the comment. *)
Theorem comment_author_comes_from_the_body vd post author text s :
  (missing_id post || missing_id author || negb (truthy text) = true ->
   forall fails,
     handle vd fails (create_comment post author text) s
     = (Some (res_status_json 400
                (message "Missing required fields (post_id, author_id, text)")),
        s, 0%nat))
  /\ (missing_id post || missing_id author || negb (truthy text) = false ->
      let r := handle vd never (create_comment post author text) s in
      code r = Some 200
      /\ remarks (site r)
         = (remarks s
            ++ [mkComment (remarks_seq s) (id_of post) (id_of author) (str text)
                  (created_now vd)])%list
      /\ (filter (is_comment (remarks_seq s)) (remarks s) = [] ->
          forall user,
            code (handle vd never (delete_comment user (remarks_seq s)) (site r))
            = Some (if (id_of author =? userId user) || isModOrAdmin user
                    then 200 else 403))).
Proof.
  split.
  - intros Hm fails. unfold create_comment, handle. now rewrite Hm.
  - intros Hm. cbv zeta. unfold create_comment, handle, code, outcome, site. rewrite Hm.
    cbn -[filter Z.eqb isModOrAdmin].
    split; [reflexivity|]. split; [reflexivity|].
    intros Hfresh user. unfold delete_comment.
    cbn -[filter Z.eqb isModOrAdmin].
    rewrite filter_app, Hfresh. unfold is_comment at 1. simpl filter.
    rewrite Z.eqb_refl. simpl map. cbv iota.
    destruct ((id_of author =? userId user) || isModOrAdmin user) eqn:Hallowed.
    + assert (Hg : negb (id_of author =? userId user) && negb (isModOrAdmin user) = false).
      { apply orb_true_iff in Hallowed. destruct Hallowed as [-> | ->];
          [reflexivity | apply andb_false_r]. }
      rewrite Hg. reflexivity.
    + assert (Hg : negb (id_of author =? userId user) && negb (isModOrAdmin user) = true).
      { apply orb_false_iff in Hallowed. destruct Hallowed as [-> ->]. reflexivity. }
      rewrite Hg. reflexivity.
Qed.

Lemma comment_author_comes_from_the_body_witness :
  let r :=
    handle sample_defaults never (create_comment (Some 7) (Some 4) (Some "as dan"))
      sample_site in
  code r = Some 200
  /\ remarks (site r) = [mkComment 5 7 1 "first" "2025-03-01T09:00:00.000Z";
                          mkComment 6 7 4 "as dan" "2025-03-02T10:00:00.000Z"]
  /\ code (handle sample_defaults never (delete_comment admin_dan 6) (site r)) = Some 200
  /\ code (handle sample_defaults never (delete_comment alice 6) (site r)) = Some 403.
Proof.
  destruct (comment_author_comes_from_the_body sample_defaults (Some 7) (Some 4) (Some "as dan")
              sample_site) as [_ H].
  destruct (H eq_refl) as [H1 [H2 H3]].
  split; [exact H1|]. split; [exact H2|]. split.
  - exact (H3 eq_refl admin_dan).
  - exact (H3 eq_refl alice).
Defined.


(** POST /community/posts decides in this order: no users row for the
    token's user id, 404; that row has visible_to_others = false, 403; title
    or content missing or empty, 400; otherwise 200, and the new post's
    author is the user id of the token.  Whatever the store rejects, a
    request that is not answered 200 leaves the tables as they were. *)
Theorem post_creation_gate vd user t c sub s :
  let r := handle vd never (create_post user t c sub) s in
  match map visible_to_others (filter (is_member (userId user)) (members s)) with
  | [] => code r = Some 404 /\ site r = s
  | Some false :: _ => code r = Some 403 /\ site r = s
  | _ :: _ =>
      if truthy t && truthy c
      then code r = Some 200
           /\ articles (site r)
              = (articles s
                 ++ [mkArticle (articles_seq s) t c (userId user) (id_or_null sub)
                       (upvotes_default vd) (downvotes_default vd) (created_now vd)])%list
           /\ members (site r) = members s /\ remarks (site r) = remarks s
      else code r = Some 400 /\ site r = s
  end
  /\ forall fails,
       code (handle vd fails (create_post user t c sub) s) = Some 200
       \/ site (handle vd fails (create_post user t c sub) s) = s.
Proof.
  cbv zeta. unfold create_post, handle, code, outcome, site. split.
  - cbn -[filter]. 
    destruct (map visible_to_others (filter (is_member (userId user)) (members s)))
      as [|[[|]|] vs]; try (split; reflexivity);
      destruct (truthy t), (truthy c); cbn; repeat split; reflexivity.
  - intros fails. cbn -[filter]. destruct (fails 0%nat); cbn -[filter]; [now right|].
    destruct (map visible_to_others (filter (is_member (userId user)) (members s)))
      as [|[[|]|] vs]; try (now right);
      destruct (truthy t), (truthy c); cbn; try (now right);
      destruct (fails 1%nat); cbn; auto.
Qed.

Lemma visible_after_profile v uid l m ms :
  filter (is_member uid) l = m :: ms ->
  map visible_to_others (filter (is_member uid) (update_where (is_member uid) (with_profile v) l))
  = Some (match visibleToOthers v with Some b => b | None => true end)
    :: map visible_to_others (map (with_profile v) ms).
Proof.
  intros H. rewrite filter_update_where by reflexivity. rewrite H. reflexivity.
Qed.

(** POST /profile changes the caller's rows only, and never an id, a user
    name, a password hash or a role.  It sets visible_to_others to the
    body's value when that is a boolean and to true otherwise, so right
    after it the caller's post creation is refused (403) exactly when the
    body said false. *)
Theorem profile_controls_posting vd user v t c sub s m ms :
  filter (is_member (userId user)) (members s) = m :: ms ->
  truthy t = true -> truthy c = true ->
  let r1 := handle vd never (profile user v) s in
  code r1 = Some 200
  /\ code (handle vd never (create_post user t c sub) (site r1))
     = Some (match visibleToOthers v with Some false => 403 | _ => 200 end)
  /\ filter (fun x => negb (is_member (userId user) x)) (members (site r1))
     = filter (fun x => negb (is_member (userId user) x)) (members s)
  /\ map (fun x => (member_id x, member_name x, member_hash x, member_role x))
       (members (site r1))
     = map (fun x => (member_id x, member_name x, member_hash x, member_role x)) (members s)
  /\ articles (site r1) = articles s /\ remarks (site r1) = remarks s.
Proof.
  intros Hm Ht Hc. cbv zeta.
  unfold profile, create_post, handle, code, outcome, site.
  cbn -[filter update_where].
  rewrite filter_update_where by reflexivity. rewrite Hm.
  cbn -[filter update_where].
  split; [reflexivity|]. split.
  - rewrite (visible_after_profile v _ _ m ms Hm), Ht, Hc.
    destruct (visibleToOthers v) as [[|]|]; reflexivity.
  - split; [apply filter_others_update_where; intros a Ha; exact Ha|].
    split; [apply map_update_where; reflexivity|]. split; reflexivity.
Qed.

Lemma profile_controls_posting_witness :
  let r1 := handle sample_defaults never (profile alice quiet_profile) sample_site in
  code r1 = Some 200
  /\ code (handle sample_defaults never (create_post alice (Some "t") (Some "c") None) (site r1))
     = Some 403
  /\ code (handle sample_defaults never (create_post alice (Some "t") (Some "c") None) sample_site)
     = Some 200.
Proof.
  destruct (profile_controls_posting sample_defaults alice quiet_profile (Some "t") (Some "c") None
              sample_site (sample_member 1 "alice" "user") [] eq_refl eq_refl eq_refl)
    as [H1 [H2 _]].
  split; [exact H1|]. split; [exact H2 | reflexivity].
Defined.


(** Registration followed by login: for a user name no row has yet, and a
    password check that accepts the hash of the password, the login is
    answered with a token signed for the id, name and role the registration
    stored, and changes nothing. *)
Theorem register_then_login jwt_sign bcrypt_hash bcrypt_compare vd name pw newRole s :
  truthy name = true -> truthy pw = true ->
  filter (is_named (str name)) (members s) = [] ->
  bcrypt_compare (str pw) (Some (bcrypt_hash (str pw))) = Some true ->
  let r1 := handle vd never (register jwt_sign bcrypt_hash name pw newRole) s in
  let r2 := handle vd never (login jwt_sign bcrypt_compare name pw) (site r1) in
  let token := jwt_sign (mkClaims (members_seq s) (Some (str name))
                           (or_default newRole "user")) in
  outcome r1
  = Some (res_json (JObj [("token", JStr token);
                          ("user", JObj [("id", JNum (members_seq s));
                                         ("username", JStr (str name));
                                         ("role", JStr (or_default newRole "user"))])]))
  /\ outcome r2 = Some (res_json (JObj [("token", JStr token)]))
  /\ site r2 = site r1.
Proof.
  intros Hn Hp Hfresh Hcmp. cbv zeta.
  unfold register, login, handle, outcome, site. rewrite Hn, Hp.
  cbn -[filter String.eqb or_default].
  split; [reflexivity|].
  rewrite filter_app, Hfresh. simpl app. unfold new_member. simpl filter.
  unfold is_named. simpl member_name. rewrite String.eqb_refl.
  cbn -[String.eqb or_default]. rewrite Hcmp.
  split; reflexivity.
Qed.

Lemma register_then_login_witness :
  let r1 := handle sample_defaults never
              (register sample_sign sample_hash (Some "eve") (Some "pw") None) sample_site in
  let r2 := handle sample_defaults never (login sample_sign sample_compare (Some "eve") (Some "pw"))
              (site r1) in
  outcome r1
  = Some (res_json (JObj [("token", JStr "eve");
                          ("user", JObj [("id", JNum 5); ("username", JStr "eve");
                                         ("role", JStr "user")])]))
  /\ outcome r2 = Some (res_json (JObj [("token", JStr "eve")]))
  /\ site r2 = site r1.
Proof.
  exact (register_then_login sample_sign sample_hash sample_compare sample_defaults
           (Some "eve") (Some "pw") None sample_site eq_refl eq_refl eq_refl eq_refl).
Defined.


(** Login never writes, whatever the store rejects; and an unknown user
    name and a wrong password get the same answer, 400 with the text
    Invalid credentials. *)
Theorem login_tells_nothing_and_writes_nothing jwt_sign bcrypt_compare vd fails name pw s :
  site (handle vd fails (login jwt_sign bcrypt_compare name pw) s) = s
  /\ (truthy name = true -> truthy pw = true ->
      (filter (is_named (str name)) (members s) = [] ->
       handle vd never (login jwt_sign bcrypt_compare name pw) s
       = (Some (res_status_send 400 "Invalid credentials"), s, 1%nat))
      /\ (forall m ms,
            filter (is_named (str name)) (members s) = m :: ms ->
            bcrypt_compare (str pw) (member_hash m) = Some false ->
            handle vd never (login jwt_sign bcrypt_compare name pw) s
            = (Some (res_status_send 400 "Invalid credentials"), s, 1%nat))).
Proof.
  unfold login, handle, site. split.
  - destruct (negb (truthy name) || negb (truthy pw)); [reflexivity|].
    cbn -[filter]. destruct (fails 0%nat); cbn -[filter]; [reflexivity|].
    destruct (filter (is_named (str name)) (members s)) as [|m ms]; [reflexivity|].
    destruct (bcrypt_compare (str pw) (member_hash m)) as [[|]|]; reflexivity.
  - intros Hn Hp. rewrite Hn, Hp. cbn -[filter]. split.
    + intros ->. reflexivity.
    + intros m ms -> ->. reflexivity.
Qed.

Lemma login_tells_nothing_and_writes_nothing_witness :
  handle sample_defaults never (login sample_sign sample_compare (Some "nobody") (Some "pw"))
    sample_site
  = (Some (res_status_send 400 "Invalid credentials"), sample_site, 1%nat)
  /\ handle sample_defaults never (login sample_sign sample_compare (Some "alice") (Some "wrong"))
       sample_site
     = (Some (res_status_send 400 "Invalid credentials"), sample_site, 1%nat).
Proof.
  destruct (login_tells_nothing_and_writes_nothing sample_sign sample_compare sample_defaults never
              (Some "nobody") (Some "pw") sample_site) as [_ H1].
  destruct (login_tells_nothing_and_writes_nothing sample_sign sample_compare sample_defaults never
              (Some "alice") (Some "wrong") sample_site) as [_ H2].
  split.
  - exact (proj1 (H1 eq_refl eq_refl) eq_refl).
  - exact (proj2 (H2 eq_refl eq_refl) _ _ eq_refl eq_refl).
Defined.


(** ** Discount events *)

(** In the parameters POST and PUT /discount-events pass to the store, each
    of the eleven fields the handler defaults to null (item_category, reason,
    the three dates, quantity, item_image_url, posted_by, store_hours,
    dietary_tags, avg_rating) is never [undefined] and never a falsy value
    other than NULL: a missing field, an empty string, false and the number 0
    all go as NULL, so a quantity or an average rating of 0 is stored as NULL.
    [total_reviews] goes as 0 when it is missing or falsy, and
    [is_crowd_sourced] as true only when it is missing (false and null are
    kept).  PUT passes the 18 parameters of POST and the id, so a field the
    body leaves out is reset. *)
Theorem discount_parameters_are_normalised b id :
  (forall k, In k nullable_positions ->
     exists v, nth_error (post_discount_values b) k = Some v /\ null_or_truthy v = true)
  /\ (truthy_val (quantity b) = false -> nth_error (post_discount_values b) 10 = Some Null)
  /\ (truthy_val (avg_rating b) = false -> nth_error (post_discount_values b) 16 = Some Null)
  /\ (exists v, nth_error (post_discount_values b) 17 = Some v
                /\ (truthy_val v = true \/ v = VNum 0))
  /\ (exists v, nth_error (post_discount_values b) 15 = Some v /\ v <> Undefined
                /\ (is_crowd_sourced b <> Undefined -> v = is_crowd_sourced b))
  /\ put_discount_values b id = (post_discount_values b ++ [id])%list.
Proof.
  assert (Hor : forall v, null_or_truthy (or_else v Null) = true).
  { intros v. unfold or_else. destruct (truthy_val v) eqn:Hv; [|reflexivity].
    destruct v; try discriminate; exact Hv. }
  split; [|split; [|split; [|split; [|split]]]].
  - intros k Hk. unfold nullable_positions in Hk. simpl in Hk.
    repeat (destruct Hk as [<- | Hk]; [eexists; split; [reflexivity | apply Hor]|]).
    contradiction.
  - intros Hq. simpl. unfold or_else. now rewrite Hq.
  - intros Hq. simpl. unfold or_else. now rewrite Hq.
  - eexists. split; [reflexivity|]. unfold or_else.
    destruct (truthy_val (total_reviews b)) eqn:Hv; [left; exact Hv | right; reflexivity].
  - eexists. split; [reflexivity|]. split.
    + destruct (is_crowd_sourced b); discriminate.
    + intros Hd. destruct (is_crowd_sourced b); [contradiction | reflexivity ..].
  - reflexivity.
Qed.

Lemma discount_parameters_are_normalised_witness :
  let b := mkDiscountBody (VNum 3) (VStr "Kimbap") (VStr EmptyString) Undefined
             (VOther "4.5") Undefined (VNum 20) Undefined Undefined Undefined (VNum 0)
             Undefined Undefined Undefined Undefined (VBool false) (VNum 0) Undefined in
  post_discount_values b
  = [VNum 3; VStr "Kimbap"; Null; Null; VOther "4.5"; Undefined; VNum 20; Null; Null;
     Null; Null; Null; Null; Null; Null; VBool false; Null; VNum 0]
  /\ put_discount_values b (VStr "12") = (post_discount_values b ++ [VStr "12"])%list.
Proof.
  split; [reflexivity|].
  exact (proj2 (proj2 (proj2 (proj2 (proj2
           (discount_parameters_are_normalised
              (mkDiscountBody (VNum 3) (VStr "Kimbap") (VStr EmptyString) Undefined
                 (VOther "4.5") Undefined (VNum 20) Undefined Undefined Undefined (VNum 0)
                 Undefined Undefined Undefined Undefined (VBool false) (VNum 0) Undefined)
              (VStr "12"))))))).
Defined.
